(** * Verification of the rag-ollama relay: date recognition, file search,
      content extraction, signature verification and response dispatch.

    The Python sources are embedded shallowly: every function of the
    repository that a property talks about is a Rocq function of the same
    name, following the control flow of the source line by line.  Python
    [str] values are lists of Unicode code points, [bytes] values are lists
    of octets, exceptions are an explicit result type, and the operating
    system, the clock and the HTTP peer are explicit parameters. *)

From Stdlib Require Import ZArith NArith QArith Lia Lqa Bool List Ascii String.
From stdpp Require Import base option list gmap.
Import ListNotations.

Set Default Proof Using "Type".

(** ** Python text *)

(** A [str] is a sequence of code points; [len] is [length], slicing with
    non-negative bounds is [take]/[drop]. *)
Abbreviation char := N.
Abbreviation text := (list N).

Module PyText.

(** Decoder for the UTF-8 literals of this file (well-formed input only). *)
Fixpoint utf8_literal (need : nat) (acc : N) (bs : list N) : text :=
  match bs with
  | [] => []
  | b :: bs' =>
    match need with
    | O => if (b <? 128)%N then b :: utf8_literal 0 0 bs'
           else if (b <? 224)%N then utf8_literal 1 (b - 192)%N bs'
           else if (b <? 240)%N then utf8_literal 2 (b - 224)%N bs'
           else utf8_literal 3 (b - 240)%N bs'
    | S O => (acc * 64 + (b - 128))%N :: utf8_literal 0 0 bs'
    | S n => utf8_literal n (acc * 64 + (b - 128))%N bs'
    end
  end.

Definition U (s : string) : text :=
  utf8_literal 0 0 (map N_of_ascii (list_ascii_of_string s)).
Arguments U _%_string : simpl never.
#[global] Opaque U.

(** Membership in a table of inclusive code-point ranges. *)
Definition in_ranges (t : list (N * N)) (c : char) : bool :=
  existsb (fun r => (fst r <=? c)%N && (c <=? snd r)%N) t.
Arguments in_ranges : simpl never.

(** Unicode 14.0 character classes as CPython 3.11 sees them. *)

Definition decimal_ranges : list (N * N) :=
  [ (48, 57); (1632, 1641); (1776, 1785); (1984, 1993); (2406, 2415); (2534, 2543);
    (2662, 2671); (2790, 2799); (2918, 2927); (3046, 3055); (3174, 3183); (3302, 3311);
    (3430, 3439); (3558, 3567); (3664, 3673); (3792, 3801); (3872, 3881); (4160, 4169);
    (4240, 4249); (6112, 6121); (6160, 6169); (6470, 6479); (6608, 6617); (6784, 6793);
    (6800, 6809); (6992, 7001); (7088, 7097); (7232, 7241); (7248, 7257); (42528, 42537);
    (43216, 43225); (43264, 43273); (43472, 43481); (43504, 43513); (43600, 43609); (44016, 44025);
    (65296, 65305); (66720, 66729); (68912, 68921); (69734, 69743); (69872, 69881); (69942, 69951);
    (70096, 70105); (70384, 70393); (70736, 70745); (70864, 70873); (71248, 71257); (71360, 71369);
    (71472, 71481); (71904, 71913); (72016, 72025); (72784, 72793); (73040, 73049); (73120, 73129);
    (92768, 92777); (92864, 92873); (93008, 93017); (120782, 120831); (123200, 123209); (123632, 123641);
    (125264, 125273); (130032, 130041) ]%N.

Definition digit_extra_ranges : list (N * N) :=
  [ (178, 179); (185, 185); (4969, 4977); (6618, 6618); (8304, 8304); (8308, 8313);
    (8320, 8329); (9312, 9320); (9332, 9340); (9352, 9360); (9450, 9450); (9461, 9469);
    (9471, 9471); (10102, 10110); (10112, 10120); (10122, 10130); (68160, 68163); (69216, 69224);
    (69714, 69722); (127232, 127242) ]%N.

Definition space_ranges : list (N * N) :=
  [ (9, 13); (28, 32); (133, 133); (160, 160); (5760, 5760); (8192, 8202);
    (8232, 8233); (8239, 8239); (8287, 8287); (12288, 12288) ]%N.

Definition word_ranges : list (N * N) :=
  [ (48, 57); (65, 90); (95, 95); (97, 122); (170, 170); (178, 179); (181, 181);
    (185, 186); (188, 190); (192, 214); (216, 246); (248, 705); (710, 721); (736, 740);
    (748, 748); (750, 750); (880, 884); (886, 887); (890, 893); (895, 895); (902, 902);
    (904, 906); (908, 908); (910, 929); (931, 1013); (1015, 1153); (1162, 1327); (1329, 1366);
    (1369, 1369); (1376, 1416); (1488, 1514); (1519, 1522); (1568, 1610); (1632, 1641); (1646, 1647);
    (1649, 1747); (1749, 1749); (1765, 1766); (1774, 1788); (1791, 1791); (1808, 1808); (1810, 1839);
    (1869, 1957); (1969, 1969); (1984, 2026); (2036, 2037); (2042, 2042); (2048, 2069); (2074, 2074);
    (2084, 2084); (2088, 2088); (2112, 2136); (2144, 2154); (2160, 2183); (2185, 2190); (2208, 2249);
    (2308, 2361); (2365, 2365); (2384, 2384); (2392, 2401); (2406, 2415); (2417, 2432); (2437, 2444);
    (2447, 2448); (2451, 2472); (2474, 2480); (2482, 2482); (2486, 2489); (2493, 2493); (2510, 2510);
    (2524, 2525); (2527, 2529); (2534, 2545); (2548, 2553); (2556, 2556); (2565, 2570); (2575, 2576);
    (2579, 2600); (2602, 2608); (2610, 2611); (2613, 2614); (2616, 2617); (2649, 2652); (2654, 2654);
    (2662, 2671); (2674, 2676); (2693, 2701); (2703, 2705); (2707, 2728); (2730, 2736); (2738, 2739);
    (2741, 2745); (2749, 2749); (2768, 2768); (2784, 2785); (2790, 2799); (2809, 2809); (2821, 2828);
    (2831, 2832); (2835, 2856); (2858, 2864); (2866, 2867); (2869, 2873); (2877, 2877); (2908, 2909);
    (2911, 2913); (2918, 2927); (2929, 2935); (2947, 2947); (2949, 2954); (2958, 2960); (2962, 2965);
    (2969, 2970); (2972, 2972); (2974, 2975); (2979, 2980); (2984, 2986); (2990, 3001); (3024, 3024);
    (3046, 3058); (3077, 3084); (3086, 3088); (3090, 3112); (3114, 3129); (3133, 3133); (3160, 3162);
    (3165, 3165); (3168, 3169); (3174, 3183); (3192, 3198); (3200, 3200); (3205, 3212); (3214, 3216);
    (3218, 3240); (3242, 3251); (3253, 3257); (3261, 3261); (3293, 3294); (3296, 3297); (3302, 3311);
    (3313, 3314); (3332, 3340); (3342, 3344); (3346, 3386); (3389, 3389); (3406, 3406); (3412, 3414);
    (3416, 3425); (3430, 3448); (3450, 3455); (3461, 3478); (3482, 3505); (3507, 3515); (3517, 3517);
    (3520, 3526); (3558, 3567); (3585, 3632); (3634, 3635); (3648, 3654); (3664, 3673); (3713, 3714);
    (3716, 3716); (3718, 3722); (3724, 3747); (3749, 3749); (3751, 3760); (3762, 3763); (3773, 3773);
    (3776, 3780); (3782, 3782); (3792, 3801); (3804, 3807); (3840, 3840); (3872, 3891); (3904, 3911);
    (3913, 3948); (3976, 3980); (4096, 4138); (4159, 4169); (4176, 4181); (4186, 4189); (4193, 4193);
    (4197, 4198); (4206, 4208); (4213, 4225); (4238, 4238); (4240, 4249); (4256, 4293); (4295, 4295);
    (4301, 4301); (4304, 4346); (4348, 4680); (4682, 4685); (4688, 4694); (4696, 4696); (4698, 4701);
    (4704, 4744); (4746, 4749); (4752, 4784); (4786, 4789); (4792, 4798); (4800, 4800); (4802, 4805);
    (4808, 4822); (4824, 4880); (4882, 4885); (4888, 4954); (4969, 4988); (4992, 5007); (5024, 5109);
    (5112, 5117); (5121, 5740); (5743, 5759); (5761, 5786); (5792, 5866); (5870, 5880); (5888, 5905);
    (5919, 5937); (5952, 5969); (5984, 5996); (5998, 6000); (6016, 6067); (6103, 6103); (6108, 6108);
    (6112, 6121); (6128, 6137); (6160, 6169); (6176, 6264); (6272, 6276); (6279, 6312); (6314, 6314);
    (6320, 6389); (6400, 6430); (6470, 6509); (6512, 6516); (6528, 6571); (6576, 6601); (6608, 6618);
    (6656, 6678); (6688, 6740); (6784, 6793); (6800, 6809); (6823, 6823); (6917, 6963); (6981, 6988);
    (6992, 7001); (7043, 7072); (7086, 7141); (7168, 7203); (7232, 7241); (7245, 7293); (7296, 7304);
    (7312, 7354); (7357, 7359); (7401, 7404); (7406, 7411); (7413, 7414); (7418, 7418); (7424, 7615);
    (7680, 7957); (7960, 7965); (7968, 8005); (8008, 8013); (8016, 8023); (8025, 8025); (8027, 8027);
    (8029, 8029); (8031, 8061); (8064, 8116); (8118, 8124); (8126, 8126); (8130, 8132); (8134, 8140);
    (8144, 8147); (8150, 8155); (8160, 8172); (8178, 8180); (8182, 8188); (8304, 8305); (8308, 8313);
    (8319, 8329); (8336, 8348); (8450, 8450); (8455, 8455); (8458, 8467); (8469, 8469); (8473, 8477);
    (8484, 8484); (8486, 8486); (8488, 8488); (8490, 8493); (8495, 8505); (8508, 8511); (8517, 8521);
    (8526, 8526); (8528, 8585); (9312, 9371); (9450, 9471); (10102, 10131); (11264, 11492); (11499, 11502);
    (11506, 11507); (11517, 11517); (11520, 11557); (11559, 11559); (11565, 11565); (11568, 11623); (11631, 11631);
    (11648, 11670); (11680, 11686); (11688, 11694); (11696, 11702); (11704, 11710); (11712, 11718); (11720, 11726);
    (11728, 11734); (11736, 11742); (11823, 11823); (12293, 12295); (12321, 12329); (12337, 12341); (12344, 12348);
    (12353, 12438); (12445, 12447); (12449, 12538); (12540, 12543); (12549, 12591); (12593, 12686); (12690, 12693);
    (12704, 12735); (12784, 12799); (12832, 12841); (12872, 12879); (12881, 12895); (12928, 12937); (12977, 12991);
    (13312, 19903); (19968, 42124); (42192, 42237); (42240, 42508); (42512, 42539); (42560, 42606); (42623, 42653);
    (42656, 42735); (42775, 42783); (42786, 42888); (42891, 42954); (42960, 42961); (42963, 42963); (42965, 42969);
    (42994, 43009); (43011, 43013); (43015, 43018); (43020, 43042); (43056, 43061); (43072, 43123); (43138, 43187);
    (43216, 43225); (43250, 43255); (43259, 43259); (43261, 43262); (43264, 43301); (43312, 43334); (43360, 43388);
    (43396, 43442); (43471, 43481); (43488, 43492); (43494, 43518); (43520, 43560); (43584, 43586); (43588, 43595);
    (43600, 43609); (43616, 43638); (43642, 43642); (43646, 43695); (43697, 43697); (43701, 43702); (43705, 43709);
    (43712, 43712); (43714, 43714); (43739, 43741); (43744, 43754); (43762, 43764); (43777, 43782); (43785, 43790);
    (43793, 43798); (43808, 43814); (43816, 43822); (43824, 43866); (43868, 43881); (43888, 44002); (44016, 44025);
    (44032, 55203); (55216, 55238); (55243, 55291); (63744, 64109); (64112, 64217); (64256, 64262); (64275, 64279);
    (64285, 64285); (64287, 64296); (64298, 64310); (64312, 64316); (64318, 64318); (64320, 64321); (64323, 64324);
    (64326, 64433); (64467, 64829); (64848, 64911); (64914, 64967); (65008, 65019); (65136, 65140); (65142, 65276);
    (65296, 65305); (65313, 65338); (65345, 65370); (65382, 65470); (65474, 65479); (65482, 65487); (65490, 65495);
    (65498, 65500); (65536, 65547); (65549, 65574); (65576, 65594); (65596, 65597); (65599, 65613); (65616, 65629);
    (65664, 65786); (65799, 65843); (65856, 65912); (65930, 65931); (66176, 66204); (66208, 66256); (66273, 66299);
    (66304, 66339); (66349, 66378); (66384, 66421); (66432, 66461); (66464, 66499); (66504, 66511); (66513, 66517);
    (66560, 66717); (66720, 66729); (66736, 66771); (66776, 66811); (66816, 66855); (66864, 66915); (66928, 66938);
    (66940, 66954); (66956, 66962); (66964, 66965); (66967, 66977); (66979, 66993); (66995, 67001); (67003, 67004);
    (67072, 67382); (67392, 67413); (67424, 67431); (67456, 67461); (67463, 67504); (67506, 67514); (67584, 67589);
    (67592, 67592); (67594, 67637); (67639, 67640); (67644, 67644); (67647, 67669); (67672, 67702); (67705, 67742);
    (67751, 67759); (67808, 67826); (67828, 67829); (67835, 67867); (67872, 67897); (67968, 68023); (68028, 68047);
    (68050, 68096); (68112, 68115); (68117, 68119); (68121, 68149); (68160, 68168); (68192, 68222); (68224, 68255);
    (68288, 68295); (68297, 68324); (68331, 68335); (68352, 68405); (68416, 68437); (68440, 68466); (68472, 68497);
    (68521, 68527); (68608, 68680); (68736, 68786); (68800, 68850); (68858, 68899); (68912, 68921); (69216, 69246);
    (69248, 69289); (69296, 69297); (69376, 69415); (69424, 69445); (69457, 69460); (69488, 69505); (69552, 69579);
    (69600, 69622); (69635, 69687); (69714, 69743); (69745, 69746); (69749, 69749); (69763, 69807); (69840, 69864);
    (69872, 69881); (69891, 69926); (69942, 69951); (69956, 69956); (69959, 69959); (69968, 70002); (70006, 70006);
    (70019, 70066); (70081, 70084); (70096, 70106); (70108, 70108); (70113, 70132); (70144, 70161); (70163, 70187);
    (70272, 70278); (70280, 70280); (70282, 70285); (70287, 70301); (70303, 70312); (70320, 70366); (70384, 70393);
    (70405, 70412); (70415, 70416); (70419, 70440); (70442, 70448); (70450, 70451); (70453, 70457); (70461, 70461);
    (70480, 70480); (70493, 70497); (70656, 70708); (70727, 70730); (70736, 70745); (70751, 70753); (70784, 70831);
    (70852, 70853); (70855, 70855); (70864, 70873); (71040, 71086); (71128, 71131); (71168, 71215); (71236, 71236);
    (71248, 71257); (71296, 71338); (71352, 71352); (71360, 71369); (71424, 71450); (71472, 71483); (71488, 71494);
    (71680, 71723); (71840, 71922); (71935, 71942); (71945, 71945); (71948, 71955); (71957, 71958); (71960, 71983);
    (71999, 71999); (72001, 72001); (72016, 72025); (72096, 72103); (72106, 72144); (72161, 72161); (72163, 72163);
    (72192, 72192); (72203, 72242); (72250, 72250); (72272, 72272); (72284, 72329); (72349, 72349); (72368, 72440);
    (72704, 72712); (72714, 72750); (72768, 72768); (72784, 72812); (72818, 72847); (72960, 72966); (72968, 72969);
    (72971, 73008); (73030, 73030); (73040, 73049); (73056, 73061); (73063, 73064); (73066, 73097); (73112, 73112);
    (73120, 73129); (73440, 73458); (73648, 73648); (73664, 73684); (73728, 74649); (74752, 74862); (74880, 75075);
    (77712, 77808); (77824, 78894); (82944, 83526); (92160, 92728); (92736, 92766); (92768, 92777); (92784, 92862);
    (92864, 92873); (92880, 92909); (92928, 92975); (92992, 92995); (93008, 93017); (93019, 93025); (93027, 93047);
    (93053, 93071); (93760, 93846); (93952, 94026); (94032, 94032); (94099, 94111); (94176, 94177); (94179, 94179);
    (94208, 100343); (100352, 101589); (101632, 101640); (110576, 110579); (110581, 110587); (110589, 110590); (110592, 110882);
    (110928, 110930); (110948, 110951); (110960, 111355); (113664, 113770); (113776, 113788); (113792, 113800); (113808, 113817);
    (119520, 119539); (119648, 119672); (119808, 119892); (119894, 119964); (119966, 119967); (119970, 119970); (119973, 119974);
    (119977, 119980); (119982, 119993); (119995, 119995); (119997, 120003); (120005, 120069); (120071, 120074); (120077, 120084);
    (120086, 120092); (120094, 120121); (120123, 120126); (120128, 120132); (120134, 120134); (120138, 120144); (120146, 120485);
    (120488, 120512); (120514, 120538); (120540, 120570); (120572, 120596); (120598, 120628); (120630, 120654); (120656, 120686);
    (120688, 120712); (120714, 120744); (120746, 120770); (120772, 120779); (120782, 120831); (122624, 122654); (123136, 123180);
    (123191, 123197); (123200, 123209); (123214, 123214); (123536, 123565); (123584, 123627); (123632, 123641); (124896, 124902);
    (124904, 124907); (124909, 124910); (124912, 124926); (124928, 125124); (125127, 125135); (125184, 125251); (125259, 125259);
    (125264, 125273); (126065, 126123); (126125, 126127); (126129, 126132); (126209, 126253); (126255, 126269); (126464, 126467);
    (126469, 126495); (126497, 126498); (126500, 126500); (126503, 126503); (126505, 126514); (126516, 126519); (126521, 126521);
    (126523, 126523); (126530, 126530); (126535, 126535); (126537, 126537); (126539, 126539); (126541, 126543); (126545, 126546);
    (126548, 126548); (126551, 126551); (126553, 126553); (126555, 126555); (126557, 126557); (126559, 126559); (126561, 126562);
    (126564, 126564); (126567, 126570); (126572, 126578); (126580, 126583); (126585, 126588); (126590, 126590); (126592, 126601);
    (126603, 126619); (126625, 126627); (126629, 126633); (126635, 126651); (127232, 127244); (130032, 130041); (131072, 173791);
    (173824, 177976); (177984, 178205); (178208, 183969); (183984, 191456); (194560, 195101); (196608, 201546) ]%N.

(** [str.isdecimal] on one character; this is also the regular-expression
    class [\d] for [str] patterns. *)
Definition isdecimal (c : char) : bool := in_ranges decimal_ranges c.

(** [str.isdigit] on one character: decimal digits and the other characters
    with a digit value (superscripts, circled digits, ...). *)
Definition isdigit (c : char) : bool :=
  isdecimal c || in_ranges digit_extra_ranges c.

(** [str.isspace] on one character; also the separators of [str.split()]. *)
Definition isspace (c : char) : bool := in_ranges space_ranges c.

(** The class [\w] for [str] patterns: [isalnum] or underscore. *)
Definition is_word (c : char) : bool := in_ranges word_ranges c.

Arguments isdecimal : simpl never.
Arguments isdigit : simpl never.
Arguments isspace : simpl never.
Arguments is_word : simpl never.

(** Every run of decimal digits in Unicode is ten consecutive code points
    starting at the digit zero, so the value is the offset in the run. *)
Definition digit_value (c : char) : option N :=
  match find (fun r => (fst r <=? c)%N && (c <=? snd r)%N) decimal_ranges with
  | Some r => Some ((c - fst r) mod 10)%N
  | None => None
  end.

(** [s.isdigit()]: non-empty and every character is a digit. *)
Definition str_isdigit (s : text) : bool :=
  match s with [] => false | _ => forallb isdigit s end.

(** [s.split()]: maximal runs of non-whitespace characters. *)
Fixpoint split_ws_aux (cur : text) (s : text) : list text :=
  match s with
  | [] => match cur with [] => [] | _ => [rev cur] end
  | c :: s' =>
    if isspace c
    then match cur with
         | [] => split_ws_aux [] s'
         | _ => rev cur :: split_ws_aux [] s'
         end
    else split_ws_aux (c :: cur) s'
  end.
Definition split_ws (s : text) : list text := split_ws_aux [] s.

(** [s.zfill(w)]: left-pad with zeros, after a leading sign if any. *)
Definition zfill (w : nat) (s : text) : text :=
  if (w <=? length s)%nat then s
  else
    let pad := replicate (w - length s) 48%N in
    match s with
    | c :: r => if (c =? 43)%N || (c =? 45)%N then c :: pad ++ r else pad ++ s
    | [] => pad
    end.

(** [int(s)] for a [str]: the text is first mapped to ASCII (spaces to a
    blank, decimal digits of any script to 0-9, anything else to [?]),
    then parsed as optional blanks, optional sign, digits with single
    underscores between them, optional blanks.  [None] is [ValueError]. *)
Definition int_ascii (c : char) : char :=
  if (c <? 127)%N then c
  else if isspace c then 32%N
  else match digit_value c with Some v => (48 + v)%N | None => 63%N end.

Definition int_blank (c : char) : bool :=
  ((9 <=? c)%N && (c <=? 13)%N) || (c =? 32)%N.

Definition ascii_digit (c : char) : bool := (48 <=? c)%N && (c <=? 57)%N.

Fixpoint int_digits (acc : Z) (s : text) : option Z :=
  match s with
  | [] => Some acc
  | c :: s' =>
    if ascii_digit c then int_digits (acc * 10 + Z.of_N (c - 48)) s'
    else if (c =? 95)%N
    then match s' with
         | d :: _ => if ascii_digit d then int_digits acc s' else None
         | [] => None
         end
    else None
  end.

Fixpoint drop_while {A} (p : A -> bool) (l : list A) : list A :=
  match l with
  | x :: l' => if p x then drop_while p l' else l
  | [] => []
  end.

Definition py_int (s : text) : option Z :=
  let t := drop_while int_blank (map int_ascii s) in
  let t := rev (drop_while int_blank (rev t)) in
  let '(neg, t) :=
    match t with
    | c :: r => if (c =? 45)%N then (true, r)
                else if (c =? 43)%N then (false, r) else (false, t)
    | [] => (false, t)
    end in
  match t with
  | d :: _ =>
    if ascii_digit d
    then match int_digits 0 t with
         | Some v => Some (if neg then - v else v)%Z
         | None => None
         end
    else None
  | [] => None
  end.

(** [s.startswith(p)], [p in s] and [s.endswith(p)]. *)
Fixpoint starts_with (p s : text) : bool :=
  match p, s with
  | [], _ => true
  | c :: p', d :: s' => (c =? d)%N && starts_with p' s'
  | _ :: _, [] => false
  end.

Fixpoint contains (p s : text) : bool :=
  starts_with p s ||
  match s with
  | [] => false
  | _ :: s' => contains p s'
  end.

Definition ends_with (p s : text) : bool := starts_with (rev p) (rev s).

Definition text_eqb (a b : text) : bool := bool_decide (a = b).

(** [sep.join(parts)]. *)
Fixpoint join (sep : text) (parts : list text) : text :=
  match parts with
  | [] => []
  | [p] => p
  | p :: rest => p ++ sep ++ join sep rest
  end.

(** [s.strip(chars)]. *)
Definition strip_chars (chars : text) (s : text) : text :=
  let drop_set := fun c => existsb (N.eqb c) chars in
  rev (drop_while drop_set (rev (drop_while drop_set s))).

(** [s.strip()] and [s.rstrip(c)]. *)
Definition strip_ws (s : text) : text :=
  rev (drop_while isspace (rev (drop_while isspace s))).

Definition rstrip_char (c : char) (s : text) : text :=
  rev (drop_while (N.eqb c) (rev s)).

(** [str(n)] for an [int]. *)
Fixpoint digits_of (fuel : nat) (n : N) (acc : text) : text :=
  match fuel with
  | O => acc
  | S fuel' =>
    let acc' := (48 + n mod 10)%N :: acc in
    if (n / 10 =? 0)%N then acc' else digits_of fuel' (n / 10)%N acc'
  end.

Definition str_of_N (n : N) : text := digits_of (S (N.to_nat (N.log2 n))) n [].

Definition str_of_nat (n : nat) : text := str_of_N (N.of_nat n).

Definition str_of_Z (z : Z) : text :=
  if (z <? 0)%Z then 45%N :: str_of_N (Z.abs_N z) else str_of_N (Z.to_N z).

(** [len(s)] as a Python [int]. *)
Definition len (s : text) : Z := Z.of_nat (length s).

(** [s.replace(old, new)] for a non-empty [old]: occurrences are replaced
    from the left and do not overlap.  [skip] counts the characters of an
    occurrence that are still to be passed over. *)
Fixpoint replace_aux (old new : text) (skip : nat) (s : text) : text :=
  match s with
  | [] => []
  | c :: s' =>
    match skip with
    | S k => replace_aux old new k s'
    | O =>
      if starts_with old s
      then new ++ replace_aux old new (length old - 1) s'
      else c :: replace_aux old new 0 s'
    end
  end.

Definition replace (old new : text) (s : text) : text :=
  replace_aux old new 0 s.

(** [s.split(sep)] for a one-character separator; never an empty list. *)
Fixpoint split_on_aux (sep : char) (cur : text) (s : text) : list text :=
  match s with
  | [] => [rev cur]
  | c :: s' =>
    if (c =? sep)%N then rev cur :: split_on_aux sep [] s'
    else split_on_aux sep (c :: cur) s'
  end.

Definition split_on (sep : char) (s : text) : list text :=
  split_on_aux sep [] s.

(** [s.encode('utf-8')]; [None] is [UnicodeEncodeError], raised for the
    surrogate code points. *)
Definition utf8_encode_char (c : char) : option (list N) :=
  if (c <? 128)%N then Some [c]
  else if (c <? 2048)%N then Some [192 + c / 64; 128 + c mod 64]%N
  else if (c <? 65536)%N
  then if (55296 <=? c)%N && (c <=? 57343)%N then None
       else Some [224 + c / 4096; 128 + (c / 64) mod 64; 128 + c mod 64]%N
  else Some [240 + c / 262144; 128 + (c / 4096) mod 64;
             128 + (c / 64) mod 64; 128 + c mod 64]%N.

Fixpoint utf8_encode (s : text) : option (list N) :=
  match s with
  | [] => Some []
  | c :: s' =>
    match utf8_encode_char c, utf8_encode s' with
    | Some b, Some bs => Some (b ++ bs)
    | _, _ => None
    end
  end.

End PyText.
Import PyText.


(** Vocabulary for stating properties of the character tables. *)
Module TextSpec.
Import PyText.

(** No range of the first table meets a range of the second. *)
Definition ranges_apart (t1 t2 : list (N * N)) : bool :=
  forallb (fun r1 => forallb (fun r2 =>
     (snd r1 <? fst r2)%N || (snd r2 <? fst r1)%N) t2) t1.

(** An ASCII digit or the question mark. *)
Definition digit_or_mark (c : char) : Prop :=
  ascii_digit c = true \/ c = 63%N.

(** Some character of the text is not white space. *)
Definition nonblank (s : text) : bool :=
  existsb (fun c => negb (isspace c)) s.

End TextSpec.

(** ** Exceptions

    A call that may raise returns a [result]; [try ... except] is a match
    on it.  Only the exception classes that some handler of the sources
    tells apart are distinguished. *)
Module Py.

Inductive exn_class : Type :=
| PermissionError
| UnicodeDecodeError
| OtherException.

Record exn : Type := Exn { exn_cls : exn_class; exn_str : text }.

Inductive result (A : Type) : Type :=
| Ok (a : A)
| Raise (e : exn).
Arguments Ok {A} a.
Arguments Raise {A} e.

Definition bind {A B} (m : result A) (f : A -> result B) : result B :=
  match m with
  | Ok a => f a
  | Raise e => Raise e
  end.

(** [try: body  except Exception as e: handler e]. *)
Definition try_except {A} (body : result A) (handler : exn -> result A)
  : result A :=
  match body with
  | Ok a => Ok a
  | Raise e => handler e
  end.

End Py.
Import Py.

(** stdpp's monadic notation [x ← m; k] on [result]. *)
#[global] Instance result_ret : MRet result := fun A a => Ok a.
#[global] Instance result_bind : MBind result :=
  fun A B f m => Py.bind m f.
(** ** Regular expressions

    The fragment of Python's [re] that the sources use: character classes,
    concatenation, a greedy optional item (bounded repetitions such as
    [\d{1,2}] are a mandatory item followed by an optional one), the
    greedy repetition of a class, capturing groups and the zero-width
    assertions [^], [$] and [\b].  Matching is by
    backtracking, first success wins, as in [re]. *)
Module Regex.

Inductive regex : Type :=
| Eps
| Cls (p : char -> bool)
| Star (p : char -> bool)
| Cat (r1 r2 : regex)
| Opt (r : regex)
| Grp (r : regex)
| Bol
| Eol
| WordB.

Definition word_opt (c : option char) : bool :=
  match c with Some c => is_word c | None => false end.

(** [rmatch r pos prev s caps k]: match [r] at the head of [s], which
    is [pos] characters after the start of the attempt; [prev] is the
    character just before ([None] at the start of the subject), [caps]
    the groups closed so far and [subj] the text at the start of the
    attempt.  [k] continues with the rest of the subject. *)
Fixpoint rmatch {A} (subj : text) (r : regex) (pos : nat)
    (prev : option char) (s : text) (caps : list text)
    (k : nat -> option char -> text -> list text -> option A) : option A :=
  match r with
  | Eps => k pos prev s caps
  | Cls p =>
    match s with
    | c :: s' => if p c then k (S pos) (Some c) s' caps else None
    | [] => None
    end
  | Star p =>
    (fix star (pos : nat) (prev : option char) (s : text) {struct s}
       : option A :=
       match s with
       | c :: s' =>
         if p c
         then match star (S pos) (Some c) s' with
              | Some res => Some res
              | None => k pos prev s caps
              end
         else k pos prev s caps
       | [] => k pos prev s caps
       end) pos prev s
  | Cat r1 r2 =>
    rmatch subj r1 pos prev s caps
      (fun pos' prev' s' caps' => rmatch subj r2 pos' prev' s' caps' k)
  | Opt r1 =>
    match rmatch subj r1 pos prev s caps k with
    | Some res => Some res
    | None => k pos prev s caps
    end
  | Grp r1 =>
    rmatch subj r1 pos prev s caps
      (fun pos' prev' s' caps' =>
         k pos' prev' s' (caps' ++ [take (pos' - pos) (drop pos subj)]))
  | Bol => match prev with None => k pos prev s caps | Some _ => None end
  | Eol =>
    match s with
    | [] => k pos prev s caps
    | [c] => if (c =? 10)%N then k pos prev s caps else None
    | _ => None
    end
  | WordB =>
    if xorb (word_opt prev) (word_opt (head s))
    then k pos prev s caps else None
  end.

Definition match_here (r : regex) (prev : option char) (s : text)
  : option (list text) :=
  rmatch s r 0 prev s [] (fun _ _ _ caps => Some caps).

(** [re.search]: the leftmost position at which the pattern matches. *)
Fixpoint search_from (r : regex) (prev : option char) (s : text)
  : option (list text) :=
  match match_here r prev s with
  | Some caps => Some caps
  | None =>
    match s with
    | [] => None
    | c :: s' => search_from r (Some c) s'
    end
  end.

Definition re_search (r : regex) (s : text) : option (list text) :=
  search_from r None s.

(** [m.group(i)] for [i >= 1]. *)
Definition group (caps : list text) (i : nat) : text :=
  default [] (caps !! (i - 1)%nat).

(** Equality of code points, the class of a literal character. *)
Definition char_eqb (c d : char) : bool := (c =? d)%N.
Arguments char_eqb : simpl never.

Definition lit (c : char) : regex := Cls (char_eqb c).
(** A literal string and [[...]+]. *)
Definition lits (s : text) : regex := foldr (fun c r => Cat (lit c) r) Eps s.
Definition plus (p : char -> bool) : regex := Cat (Cls p) (Star p).

Definition digit : regex := Cls isdecimal.
Definition digits2 : regex := Cat digit digit.
Definition digits4 : regex := Cat digit (Cat digit (Cat digit digit)).
Definition digits1_2 : regex := Cat digit (Opt digit).

Definition c_nen : char := 24180%N.     (* 年 *)
Definition c_gatsu : char := 26376%N.   (* 月 *)
Definition c_nichi : char := 26085%N.   (* 日 *)

(** [(\d{4})年(\d{1,2})月(\d{1,2})日] *)
Definition japanese_date_re : regex :=
  Cat (Grp digits4) (Cat (lit c_nen)
  (Cat (Grp digits1_2) (Cat (lit c_gatsu)
  (Cat (Grp digits1_2) (lit c_nichi))))).

(** [[/-]] *)
Definition slash_or_dash (c : char) : bool := (c =? 47)%N || (c =? 45)%N.
Arguments slash_or_dash : simpl never.

(** [(\d{4})[/-](\d{1,2})[/-](\d{1,2})] *)
Definition slash_date_re : regex :=
  Cat (Grp digits4) (Cat (Cls slash_or_dash)
  (Cat (Grp digits1_2) (Cat (Cls slash_or_dash) (Grp digits1_2)))).

(** [\b(\d{4})(\d{2})(\d{2})\b] *)
Definition numeric_date_re : regex :=
  Cat WordB (Cat (Grp digits4) (Cat (Grp digits2) (Cat (Grp digits2) WordB))).

(** [^(\d{4})(\d{2})(\d{2})$] *)
Definition anchored_numeric_date_re : regex :=
  Cat Bol (Cat (Grp digits4) (Cat (Grp digits2) (Cat (Grp digits2) Eol))).

(** [[ぁ-んァ-ン一-龥]] *)
Definition japanese_ranges : list (N * N) :=
  [(12353, 12435); (12449, 12531); (19968, 40869)]%N.
Definition japanese_script (c : char) : bool := in_ranges japanese_ranges c.
Arguments japanese_script : simpl never.
Definition japanese_script_re : regex := Cls japanese_script.

End Regex.
Import Regex.

(** ** async_processor.py: extract_date_from_query *)
Module AsyncProcessor.

Definition fmt_japanese : text := Eval vm_compute in U "和暦形式".
Definition fmt_slash : text := Eval vm_compute in U "スラッシュ区切り形式".
Definition fmt_numeric : text := Eval vm_compute in U "数値形式".

(** The loop of style 4 over [query.split()]; [continue] on [ValueError],
    and a token that fails the range test is passed over as well. *)
Fixpoint token_date_loop (words : list text)
  : option (text * text * text * text) :=
  match words with
  | [] => None
  | word :: rest =>
    if str_isdigit word && (length word =? 8)%nat
    then
      let year := take 4 word in
      let month := take 2 (drop 4 word) in
      let day := take 2 (drop 6 word) in
      match py_int month with
      | None => token_date_loop rest
      | Some month_int =>
        match py_int day with
        | None => token_date_loop rest
        | Some day_int =>
          if ((1 <=? month_int) && (month_int <=? 12)
              && (1 <=? day_int) && (day_int <=? 31))%Z
          then Some (year, month, day, fmt_numeric)
          else token_date_loop rest
        end
      end
    else token_date_loop rest
  end.

Definition extract_date_from_query (query : text)
  : option (text * text * text * text) :=
  match re_search japanese_date_re query with
  | Some m => Some (group m 1, zfill 2 (group m 2), zfill 2 (group m 3),
                    fmt_japanese)
  | None =>
    match re_search slash_date_re query with
    | Some m => Some (group m 1, zfill 2 (group m 2), zfill 2 (group m 3),
                      fmt_slash)
    | None =>
      match re_search numeric_date_re query with
      | Some m => Some (group m 1, group m 2, group m 3, fmt_numeric)
      | None => token_date_loop (split_ws query)
      end
    end
  end.

End AsyncProcessor.
Import AsyncProcessor.

(** Vocabulary for stating properties of the date recogniser. *)
Module DateSpec.

Definition all_decimal (s : text) : Prop := Forall (fun c => isdecimal c = true) s.

(** Four decimal digits. *)
Definition is_year (y : text) : Prop := length y = 4%nat /\ all_decimal y.

(** One or two decimal digits. *)
Definition is_md (m : text) : Prop :=
  (length m = 1%nat \/ length m = 2%nat) /\ all_decimal m.

(** The long-form phrase YYYY年M月D日. *)
Definition long_form_phrase (y m d : text) : text :=
  y ++ [c_nen] ++ m ++ [c_gatsu] ++ d ++ [c_nichi].

(** A long-form phrase with the given fields begins at index [i]. *)
Definition phrase_at (q : text) (i : nat) (y m d : text) : Prop :=
  is_year y /\ is_md m /\ is_md d /\
  exists post, drop i q = long_form_phrase y m d ++ post.

End DateSpec.
Import DateSpec.

(** Vocabulary for the fields of an extracted date. *)
Module DateShape.

(** Four digit characters, and two decimal digits. *)
Definition digit_year (y : text) : Prop :=
  length y = 4%nat /\ Forall (fun c => isdigit c = true) y.

Definition two_decimals (m : text) : Prop :=
  length m = 2%nat /\ all_decimal m.

End DateShape.

(** ** file_extractor.py: FileExtractor *)
Module FileExtractor.

(** What a parser library hands back for a rich document. *)
Record pdf_reader : Type := {
  (* [info.get('/Title', '不明')] and so on, when [reader.metadata] is truthy *)
  pdf_metadata : option (text * text * text);
  (* [page.extract_text()] of every page, in order *)
  pdf_pages : list (result text)
}.

Record docx_document : Type := {
  (* title, author, last_modified_by; an empty text is a falsy value *)
  docx_core_properties : option (text * text * text);
  docx_paragraphs : list text;
  (* tables, rows, cell texts *)
  docx_tables : list (list (list text))
}.

Record xlsx_workbook : Type := {
  xlsx_sheetnames : list text;
  (* [workbook[name].iter_rows(max_row=50)] with every cell through [str] *)
  xlsx_rows : text -> result (list (list text))
}.

Record pptx_slide : Type := {
  slide_title : option text;
  (* the paragraphs of every shape that has a text frame *)
  slide_paragraphs : list text
}.

(** The operating system and the libraries as the extractor sees them. *)
Record OS : Type := {
  str_lower : text -> text;                       (* str.lower *)
  path_exists : text -> bool;                     (* os.path.exists *)
  path_getsize : text -> result Z;                (* os.path.getsize *)
  access_read : text -> bool;                     (* os.access(p, os.R_OK) *)
  path_basename : text -> text;                   (* os.path.basename *)
  path_splitext : text -> text * text;            (* os.path.splitext *)
  (* os.stat: st_size and st_mtime *)
  os_stat : text -> result (Z * Z);
  (* datetime.fromtimestamp(t).strftime(fmt) *)
  strftime : text -> Z -> result text;
  (* f"{a / b:.1f}" *)
  format_1f : Z -> Z -> text;
  (* open(p, 'r', encoding=e, errors='replace').read() *)
  read_text : text -> text -> result text;
  open_pdf : text -> result pdf_reader;           (* PyPDF2.PdfReader *)
  open_docx : text -> result docx_document;       (* docx.Document *)
  open_xlsx : text -> result xlsx_workbook;       (* openpyxl.load_workbook *)
  open_pptx : text -> result (list pptx_slide);   (* pptx.Presentation *)
  (* subprocess.Popen(["powershell", ...]).communicate() for the report
     labelled [label] on the file: stdout and stderr *)
  powershell_report : text -> text -> result (text * text)
}.

(** [self.imports]: which parser libraries could be imported. *)
Record FileExtractor : Type := {
  imports_pdf : bool;
  imports_docx : bool;
  imports_xlsx : bool;
  imports_pptx : bool
}.

Section Extract.
Context (os : OS) (self : FileExtractor).

Definition nl : text := [10%N].
Definition separator_line : text :=
  U "----------------------------------------".
Definition unknown : text := U "不明".

Definition _get_file_info (file_path : text) : text :=
  let body : result text :=
    '(file_size, mtime) ← os_stat os file_path;
    modified_time ← strftime os (U "%Y年%m月%d日 %H:%M:%S") mtime;
    let size_str :=
      if (file_size <? 1024)%Z then str_of_Z file_size ++ U " bytes"
      else if (file_size <? 1024 * 1024)%Z
      then format_1f os file_size 1024 ++ U " KB"
      else format_1f os file_size (1024 * 1024) ++ U " MB" in
    mret (U "ファイル名: " ++ path_basename os file_path
          ++ nl ++ U "ファイルサイズ: " ++ size_str
          ++ nl ++ U "最終更新日時: " ++ modified_time) in
  match body with
  | Ok s => s
  | Raise _ => U "ファイル名: " ++ path_basename os file_path
  end.

(** The loop over the encodings of [_extract_text]: the first that reads
    returns, [UnicodeDecodeError] moves on, and an empty list leaves the
    last-resort read with replacement characters. *)
Fixpoint _extract_text_loop (file_path : text) (encodings : list text)
  : result text :=
  match encodings with
  | [] =>
    content ← read_text os file_path (U "utf-8");
    mret (_get_file_info file_path ++ nl ++ nl ++ content
          ++ U " (エンコーディングの問題があるため、一部文字化けしている可能性があります)")
  | encoding :: rest =>
    match read_text os file_path encoding with
    | Ok content => Ok (_get_file_info file_path ++ nl ++ nl ++ content)
    | Raise e =>
      match exn_cls e with
      | UnicodeDecodeError => _extract_text_loop file_path rest
      | _ => Raise e
      end
    end
  end.

Definition _extract_text (file_path : text) : result text :=
  try_except
    (_extract_text_loop file_path
       [U "utf-8"; U "shift-jis"; U "cp932"; U "euc-jp"; U "iso-2022-jp"])
    (fun e => Ok (U "テキストファイル読み込みエラー: " ++ exn_str e)).

(** The body of the four fallbacks, which differ in their labels only. *)
Definition extract_fallback (label : text) (file_path file_info : text)
  : result text :=
  try_except
    ('(stdout, _) ← powershell_report os label file_path;
     mret (file_info ++ nl ++ nl ++ stdout))
    (fun e => Ok (file_info ++ nl ++ nl ++ label ++ U "抽出エラー: "
                  ++ exn_str e)).

Definition _extract_pdf_fallback := extract_fallback (U "PDF").
Definition _extract_docx_fallback := extract_fallback (U "Word").
Definition _extract_xlsx_fallback := extract_fallback (U "Excel").
Definition _extract_pptx_fallback := extract_fallback (U "PowerPoint").

(** Pages 1 to 10 of a PDF; a page whose extraction raises aborts. *)
Fixpoint pdf_page_lines (i : nat) (pages : list (result text))
  : result (list text) :=
  match pages with
  | [] => Ok []
  | page :: rest =>
    if (i <? 10)%nat
    then
      t ← page;
      more ← pdf_page_lines (S i) rest;
      mret (match t with
            | [] => more
            | _ => (U "--- ページ " ++ str_of_nat (S i) ++ U " ---")
                   :: t :: more
            end)
    else pdf_page_lines (S i) rest
  end.

Definition _extract_pdf (file_path : text) : result text :=
  let file_info := _get_file_info file_path in
  if imports_pdf self
  then
    match
      (reader ← open_pdf os file_path;
       let head :=
         match pdf_metadata reader with
         | Some (title, author, created) =>
           [U "タイトル: " ++ title; U "作成者: " ++ author;
            U "作成日: " ++ created]
         | None => []
         end in
       let num_pages := length (pdf_pages reader) in
       pages ← pdf_page_lines 0 (pdf_pages reader);
       let tail :=
         if (10 <? num_pages)%nat
         then [nl ++ U "...(残り " ++ str_of_nat (num_pages - 10)
               ++ U " ページは省略)..."]
         else [] in
       mret (file_info ++ nl ++ nl
             ++ join nl (head ++ [U "ページ数: " ++ str_of_nat num_pages;
                                  separator_line] ++ pages ++ tail)))
    with
    | Ok s => Ok s
    | Raise _ => _extract_pdf_fallback file_path file_info
    end
  else _extract_pdf_fallback file_path file_info.

Definition or_unknown (s : text) : text :=
  match s with [] => unknown | _ => s end.

Definition docx_table_lines (i : nat) (table : list (list text))
  : list text :=
  if (i <? 5)%nat
  then (U "テーブル " ++ str_of_nat (S i) ++ U ":")
       :: map (fun row => join (U " | ") (map strip_ws row)) table ++ [[]]
  else [].

Definition _extract_docx (file_path : text) : result text :=
  let file_info := _get_file_info file_path in
  if imports_docx self
  then
    match
      (doc ← open_docx os file_path;
       let props :=
         match docx_core_properties doc with
         | Some (title, author, last_modified_by) =>
           [U "タイトル: " ++ or_unknown title;
            U "作成者: " ++ or_unknown author;
            U "最終更新者: " ++ or_unknown last_modified_by]
         | None => []
         end in
       let paras :=
         filter (fun p => strip_ws p <> []) (docx_paragraphs doc) in
       let tables :=
         match docx_tables doc with
         | [] => []
         | ts => (nl ++ U "--- テーブル内容 ---")
                 :: concat (imap docx_table_lines ts)
         end in
       mret (file_info ++ nl ++ nl
             ++ join nl (props ++ [separator_line; U "文書内容:"]
                         ++ paras ++ tables)))
    with
    | Ok s => Ok s
    | Raise _ => _extract_docx_fallback file_path file_info
    end
  else _extract_docx_fallback file_path file_info.

(** The first five sheets, fifty rows each. *)
Fixpoint xlsx_sheet_lines (book : xlsx_workbook) (names : list text)
  : result (list text) :=
  match names with
  | [] => Ok []
  | sheet_name :: rest =>
    rows ← xlsx_rows book sheet_name;
    let rows := take 50 rows in
    more ← xlsx_sheet_lines book rest;
    mret ((U "--- シート: " ++ sheet_name ++ U " ---")
          :: map (join [9%N]) rows
          ++ (if (length rows =? 50)%nat then [U "...(以降省略)..."] else [])
          ++ [[]] ++ more)
  end.

Definition _extract_xlsx (file_path : text) : result text :=
  let file_info := _get_file_info file_path in
  if imports_xlsx self
  then
    match
      (workbook ← open_xlsx os file_path;
       let names := xlsx_sheetnames workbook in
       sheets ← xlsx_sheet_lines workbook (take 5 names);
       mret (file_info ++ nl ++ nl
             ++ join nl ([U "ブック名: " ++ path_basename os file_path;
                          U "シート数: " ++ str_of_nat (length names);
                          U "シート一覧: " ++ join (U ", ") names;
                          separator_line] ++ sheets)))
    with
    | Ok s => Ok s
    | Raise _ => _extract_xlsx_fallback file_path file_info
    end
  else _extract_xlsx_fallback file_path file_info.

Definition pptx_slide_lines (i : nat) (slide : pptx_slide) : list text :=
  if (i <? 20)%nat
  then (U "--- スライド " ++ str_of_nat (S i) ++ U " ---")
       :: match slide_title slide with
          | Some t => [U "タイトル: " ++ t]
          | None => []
          end
       ++ slide_paragraphs slide ++ [[]]
  else [].

Definition _extract_pptx (file_path : text) : result text :=
  let file_info := _get_file_info file_path in
  if imports_pptx self
  then
    match
      (slides ← open_pptx os file_path;
       let n := length slides in
       let tail :=
         if (20 <? n)%nat
         then [U "...(残り " ++ str_of_nat (n - 20) ++ U " スライドは省略)..."]
         else [] in
       mret (file_info ++ nl ++ nl
             ++ join nl ([U "プレゼンテーション名: "
                            ++ path_basename os file_path;
                          U "スライド数: " ++ str_of_nat n;
                          separator_line]
                         ++ concat (imap pptx_slide_lines slides) ++ tail)))
    with
    | Ok s => Ok s
    | Raise _ => _extract_pptx_fallback file_path file_info
    end
  else _extract_pptx_fallback file_path file_info.

Definition text_extensions : list text :=
  [U ".txt"; U ".md"; U ".csv"; U ".json"; U ".xml"; U ".html"; U ".htm";
   U ".log"; U ".py"; U ".js"; U ".css"].

Definition quote_name (file_path : text) : text :=
  U "ファイル '" ++ path_basename os file_path ++ U "' ".

Definition extract_file_content (file_path : text) : result text :=
  let body : result text :=
    if negb (path_exists os file_path)
    then Ok (quote_name file_path
             ++ U "が見つかりません。削除または移動された可能性があります。")
    else
      file_size ← path_getsize os file_path;
      if (100 * 1024 * 1024 <? file_size)%Z
      then Ok (quote_name file_path ++ U "は"
               ++ format_1f os file_size (1024 * 1024)
               ++ U "MBと大きすぎるため、処理できません。")
      else if negb (access_read os file_path)
      then Ok (quote_name file_path ++ U "へのアクセス権限がありません。")
      else
        let ext := snd (path_splitext os (str_lower os file_path)) in
        if text_eqb ext (U ".pdf") then _extract_pdf file_path
        else if text_eqb ext (U ".docx") then _extract_docx file_path
        else if text_eqb ext (U ".xlsx") then _extract_xlsx file_path
        else if text_eqb ext (U ".pptx") then _extract_pptx file_path
        else if existsb (text_eqb ext) text_extensions
        then _extract_text file_path
        else Ok (U "未対応のファイル形式 (" ++ ext ++ U "):" ++ nl
                 ++ _get_file_info file_path) in
  try_except body
    (fun e =>
       match exn_cls e with
       | PermissionError =>
         Ok (quote_name file_path
             ++ U "へのアクセス権限がありません。システム管理者に確認してください。")
       | _ => Ok (U "ファイル抽出エラー: " ++ exn_str e)
       end).

End Extract.

(** The beginnings by which every output of the extractor is labelled. *)
Definition output_labels : list text :=
  [U "ファイル '"; U "ファイル名: "; U "未対応のファイル形式 (";
   U "ファイル抽出エラー: "; U "テキストファイル読み込みエラー: "].

Definition labelled (s : text) : bool :=
  existsb (fun l => starts_with l s) output_labels.

End FileExtractor.

(** Vocabulary for stating properties of the extractor. *)
Module ExtractorSpec.
Import FileExtractor.

(** An output that begins with a label is labelled and not empty. *)
Definition good (r : result text) : Prop :=
  exists s, r = Ok s /\ s <> [] /\ labelled s = true.

End ExtractorSpec.

(** ** onedrive_search.py: OneDriveSearch *)
Module OneDriveSearch.
Import FileExtractor.

(** One search result: the dict with keys path, name, modified, size. *)
Record FileRecord : Type := {
  path : text;
  name : text;
  modified : text;
  size : Z
}.

(** One value of [self.search_cache]; [time.time()] is a rational number
    of seconds. *)
Record CacheEntry : Type := {
  results : list FileRecord;
  timestamp : Q
}.

Record OneDriveSearch : Type := {
  base_directory : text;
  file_types : list text;
  max_results : Z;
  search_cache : gmap (list N) CacheEntry;
  file_extractor : FileExtractor;
  (* not in the source: counts the runs of [os.walk], for stating that a
     call did or did not walk the directory *)
  walk_count : nat
}.

Definition cache_expiry : Q := 300.

(** What the outside world answers during one call. *)
Record Env : Type := {
  env_os : OS;
  time_at_check : Q;                       (* time.time() at the cache test *)
  time_at_store : Q;                       (* time.time() when storing *)
  (* os.walk(top): the (root, files) pairs in walk order *)
  os_walk : text -> result (list (text * list text));
  path_join : text -> text -> text         (* os.path.join *)
}.

(** [keywords] is a string or a list of strings. *)
Inductive keywords_arg : Type :=
| KwStr (s : text)
| KwList (l : list text).

Definition str_of_list (repr : text -> text) (l : list text) : text :=
  U "[" ++ join (U ", ") (map repr l) ++ U "]".

Definition str_of_keywords (repr : text -> text) (k : keywords_arg) : text :=
  match k with
  | KwStr s => s
  | KwList l => str_of_list repr l
  end.

(** [datetime(y, m, d)] raises [ValueError] unless the date exists. *)
Definition is_leap (y : Z) : bool :=
  ((y mod 4 =? 0) && negb (y mod 100 =? 0) || (y mod 400 =? 0))%Z.

Definition days_in_month (y m : Z) : Z :=
  if (m =? 2)%Z then (if is_leap y then 29 else 28)
  else if ((m =? 4) || (m =? 6) || (m =? 9) || (m =? 11))%Z then 30
  else 31.

Definition valid_date (y m d : Z) : bool :=
  ((1 <=? y) && (y <=? 9999) && (1 <=? m) && (m <=? 12)
   && (1 <=? d) && (d <=? days_in_month y m))%Z.

(** The three spellings a date keyword is expanded into. *)
Definition date_variants (date_pattern year month day : text) : list text :=
  [date_pattern;
   year ++ U "-" ++ month ++ U "-" ++ day;
   year ++ U "/" ++ month ++ U "/" ++ day].

(** Which arm of the [if]/[elif] chain of the keyword loop ran. *)
Inductive branch : Type :=
| BrJapanese     (* if japanese_date_match *)
| BrSlash        (* elif slash_date_match *)
| BrNumeric      (* elif numeric_date_match *)
| BrToken        (* elif k.isdigit() and len(k) == 8 *)
| BrPlain.       (* else *)

Definition has_japanese_script (k : text) : bool :=
  bool_decide (is_Some (re_search japanese_script_re k)).

(** One round of the keyword loop: the arm taken, what it appends to
    [date_keywords] and what it appends to [search_terms]. *)
Definition classify_keyword (k : text) : branch * list text * list text :=
  match re_search japanese_date_re k with
  | Some m =>
    let year := group m 1 in
    let month := zfill 2 (group m 2) in
    let day := zfill 2 (group m 3) in
    (BrJapanese, date_variants (year ++ month ++ day) year month day, [])
  | None =>
    match re_search slash_date_re k with
    | Some m =>
      let year := group m 1 in
      let month := zfill 2 (group m 2) in
      let day := zfill 2 (group m 3) in
      (BrSlash, date_variants (year ++ month ++ day) year month day, [])
    | None =>
      match re_search anchored_numeric_date_re k with
      | Some m =>
        let year := group m 1 in
        let month := group m 2 in
        let day := group m 3 in
        (BrNumeric, date_variants (year ++ month ++ day) year month day, [])
      | None =>
        if str_isdigit k && (length k =? 8)%nat
        then
          let year := take 4 k in
          let month := take 2 (drop 4 k) in
          let day := take 2 (drop 6 k) in
          let checked :=
            match py_int year, py_int month, py_int day with
            | Some y, Some m, Some d => valid_date y m d
            | _, _, _ => false       (* ValueError from int() *)
            end in
          if checked
          then (BrToken, date_variants k year month day, [])
          else (BrToken, [],
                if (2 <? length k)%nat && has_japanese_script k
                then [k] else [])
        else (BrPlain, [], [k])
      end
    end
  end.

Fixpoint classify_keywords (keywords : list text) : list text * list text :=
  match keywords with
  | [] => ([], [])
  | k :: rest =>
    let '(_, dates, terms) := classify_keyword k in
    let '(dates', terms') := classify_keywords rest in
    (dates ++ dates', terms ++ terms')
  end.

Section Search.
(** [repr] of a [str], the same function in every call, and the
    environment of the call at hand. *)
Context (repr_str : text -> text) (env : Env).

Definition cache_key (keywords : keywords_arg) (file_types : list text)
    (max_results : Z) : text :=
  str_of_keywords repr_str keywords ++ U "_"
  ++ str_of_list repr_str file_types ++ U "_" ++ str_of_Z max_results.

(** The extension filter and the match test of the walk, for one file. *)
Definition extension_ok (file_types : list text) (file : text) : bool :=
  match file_types with
  | [] => true
  | _ => existsb (fun ext => ends_with (str_lower (env_os env) ext)
                                       (str_lower (env_os env) file))
                 file_types
  end.

Fixpoint date_match (date_keywords : list text) (file file_path : text)
  : bool :=
  match date_keywords with
  | [] => false
  | date_key :: rest =>
    if contains date_key file || contains date_key file_path then true
    else if (length date_key =? 8)%nat && str_isdigit date_key
              && contains (take 4 date_key) file_path
              && contains (take 2 (drop 4 date_key)) file_path
              && contains (take 2 (drop 6 date_key)) file_path
    then true
    else date_match rest file file_path
  end.

Definition file_matches (date_keywords search_terms : list text)
    (file file_path : text) : bool :=
  date_match date_keywords file file_path
  || existsb (fun term => contains term file) search_terms.

Definition make_record (file file_path : text) : FileRecord :=
  match ('(st_size, st_mtime) ← os_stat (env_os env) file_path;
         m ← strftime (env_os env) (U "%Y-%m-%d %H:%M:%S") st_mtime;
         mret (m, st_size)) with
  | Ok (m, sz) => {| path := file_path; name := file; modified := m;
                     size := sz |}
  | Raise _ => {| path := file_path; name := file; modified := [];
                  size := 0 |}
  end.

(** The inner loop over the files of one directory; it breaks as soon as
    [count >= max_results] after an append. *)
Fixpoint scan_dir (file_types date_keywords search_terms : list text)
    (max_results : Z) (root : text) (files : list text)
    (results : list FileRecord) (count : Z) : list FileRecord * Z :=
  match files with
  | [] => (results, count)
  | file :: rest =>
    let file_path := path_join env root file in
    if extension_ok file_types file
       && file_matches date_keywords search_terms file file_path
    then
      let results' := results ++ [make_record file file_path] in
      let count' := (count + 1)%Z in
      if (max_results <=? count')%Z then (results', count')
      else scan_dir file_types date_keywords search_terms max_results
                    root rest results' count'
    else scan_dir file_types date_keywords search_terms max_results
                  root rest results count
  end.

(** The outer loop over [os.walk]; it breaks when [count >= max_results]
    after a directory. *)
Fixpoint scan_walk (file_types date_keywords search_terms : list text)
    (max_results : Z) (dirs : list (text * list text))
    (results : list FileRecord) (count : Z) : list FileRecord :=
  match dirs with
  | [] => results
  | (root, files) :: rest =>
    let '(results', count') :=
      scan_dir file_types date_keywords search_terms max_results
               root files results count in
    if (max_results <=? count')%Z then results'
    else scan_walk file_types date_keywords search_terms max_results
                   rest results' count'
  end.

(** The part of [search_files] after the cache test. *)
Definition search_uncached (self : OneDriveSearch) (key : text)
    (keywords : keywords_arg) (file_types : list text) (max_results : Z)
  : list FileRecord * OneDriveSearch :=
  let keywords :=
    match keywords with
    | KwStr s => split_ws s
    | KwList l => l
    end in
  let '(date_keywords, search_terms) := classify_keywords keywords in
  let search_terms := search_terms ++ date_keywords in
  let search_terms :=
    match search_terms with
    | [] => take 2 keywords
    | _ => search_terms
    end in
  (* the next test of the source needs [keywords] to be a [str] still,
     which it no longer is, and never changes [search_terms] *)
  let walked :=
    {| base_directory := base_directory self;
       file_types := OneDriveSearch.file_types self;
       max_results := OneDriveSearch.max_results self;
       search_cache := search_cache self;
       file_extractor := file_extractor self;
       walk_count := S (walk_count self) |} in
  match os_walk env (base_directory self) with
  | Ok dirs =>
    let results :=
      scan_walk file_types date_keywords search_terms max_results
                dirs [] 0 in
    (results,
     {| base_directory := base_directory self;
        file_types := OneDriveSearch.file_types self;
        max_results := OneDriveSearch.max_results self;
        search_cache :=
          <[key := {| results := results;
                      timestamp := time_at_store env |}]>
            (search_cache self);
        file_extractor := file_extractor self;
        walk_count := S (walk_count self) |})
  | Raise _ => ([], walked)
  end.

Definition search_files (self : OneDriveSearch) (keywords : keywords_arg)
    (file_types : option (list text)) (max_results : option Z)
    (use_cache : bool) : list FileRecord * OneDriveSearch :=
  let file_types := default (OneDriveSearch.file_types self) file_types in
  let max_results := default (OneDriveSearch.max_results self) max_results in
  let key := cache_key keywords file_types max_results in
  let miss := search_uncached self key keywords file_types max_results in
  if use_cache
  then
    match search_cache self !! key with
    | Some cache_entry =>
      if Qlt_le_dec (time_at_check env - timestamp cache_entry) cache_expiry
      then (results cache_entry, self)
      else miss
    | None => miss
    end
  else miss.

(** *** get_relevant_content *)

Definition stop_words : list text :=
  [U "について"; U "とは"; U "の"; U "を"; U "に"; U "は"; U "で"; U "が";
   U "と"; U "から"; U "へ"; U "より"; U "内容"; U "知りたい"; U "あったのか";
   U "何"; U "教えて"; U "どのような"; U "どんな"; U "ありました";
   U "the"; U "a"; U "an"; U "and"; U "or"; U "of"; U "to"; U "in";
   U "for"; U "on"; U "by"].

Definition nippo : text := U "日報".

(** The date of the query as [(date_str, date_pattern)]. *)
Definition query_date (query : text) : option (text * text) :=
  let fmt := fun year month day =>
    (year ++ U "年" ++ month ++ U "月" ++ day ++ U "日",
     year ++ month ++ day) in
  match re_search japanese_date_re query with
  | Some m => Some (fmt (group m 1) (zfill 2 (group m 2))
                        (zfill 2 (group m 3)))
  | None =>
    match re_search slash_date_re query with
    | Some m => Some (fmt (group m 1) (zfill 2 (group m 2))
                          (zfill 2 (group m 3)))
    | None =>
      match re_search numeric_date_re query with
      | Some m => Some (fmt (group m 1) (group m 2) (group m 3))
      | None => None
      end
    end
  end.

(** The characters of [word.strip(...)]: punctuation, brackets and both
    quotation marks. *)
Definition strip_set : text := U ",.;:!?()[]{}" ++ [34%N; 39%N].

(** The keywords taken from the words of the query. *)
Definition query_words (date_str : option text) (query : text)
  : list text :=
  omap (fun word =>
          let clean_word := strip_chars strip_set word in
          if bool_decide (clean_word <> [])
             && (1 <? length clean_word)%nat
             && negb (existsb (text_eqb (str_lower (env_os env) clean_word))
                              stop_words)
          then match date_str with
               | Some d => if contains d clean_word then None
                           else Some clean_word
               | None => Some clean_word
               end
          else None)
       (split_ws query).

Definition extract_keywords (query : text) : option text * list text :=
  let date_str := fst <$> query_date query in
  let keywords :=
    match date_str with Some d => [d] | None => [] end
    ++ query_words date_str query in
  let keywords :=
    if (length keywords <? 2)%nat
       && negb (contains nippo (str_lower (env_os env) query))
       && negb (existsb (fun k => bool_decide (k <> []))
                        (filter (fun k => contains nippo k = true) keywords))
    then keywords ++ [nippo]
    else keywords in
  (date_str, keywords).

Definition read_file_content (self : OneDriveSearch) (file_path : text)
  : text :=
  match extract_file_content (env_os env) (file_extractor self) file_path
  with
  | Ok content => content
  | Raise e => U "ファイル読み込みエラー: " ++ exn_str e
  end.

(** The block of file number [i] (counted from 0) of the result list. *)
Definition file_block (self : OneDriveSearch) (i : nat) (r : FileRecord)
  : text :=
  let content := read_file_content self (path r) in
  let preview_length := Z.min 2000 (len content) in
  let preview := take (Z.to_nat preview_length) content in
  U "=== ファイル " ++ str_of_nat (i + 1) ++ U ": " ++ name r ++ U " ==="
  ++ nl ++ U "更新日時: " ++ modified r ++ nl ++ preview ++ nl ++ nl.

Definition cut_mark : text := U "..." ++ nl.

Definition omission_line (remaining_files : nat) : text :=
  nl ++ U "（残り" ++ str_of_nat remaining_files
  ++ U "件のファイルは文字数制限のため表示されません）".

(** The loop over [enumerate(search_results)]; [n] is
    [len(search_results)] and [i] the index of the head of [rest]. *)
Fixpoint content_loop (self : OneDriveSearch) (max_chars : Z) (n i : nat)
    (rest : list FileRecord) (relevant_content : text) (total_chars : Z)
  : text :=
  match rest with
  | [] => relevant_content
  | result :: rest' =>
    let file_content := file_block self i result in
    if (max_chars <? total_chars + len file_content)%Z
    then
      let remaining := (max_chars - total_chars - 100)%Z in
      if (0 <? remaining)%Z
      then
        let file_content :=
          take (Z.to_nat remaining) file_content ++ cut_mark in
        content_loop self max_chars n (S i) rest'
          (relevant_content ++ file_content)
          (total_chars + len file_content)
      else relevant_content ++ omission_line (n - i)
    else
      content_loop self max_chars n (S i) rest'
        (relevant_content ++ file_content)
        (total_chars + len file_content)
  end.

Definition found_header (n : nat) : text :=
  U "--- " ++ str_of_nat n ++ U "件の関連ファイルが見つかりました ---"
  ++ nl ++ nl.

Definition no_keywords_message : text :=
  U "検索キーワードが見つかりませんでした。具体的な日付や単語で検索してください。".

Definition not_found_message (date_str : option text) (keywords : list text)
  : text :=
  match date_str with
  | Some d => d ++ U "の日報は見つかりませんでした。日付の表記が正しいか確認してください。"
  | None => U "キーワード '" ++ join (U ", ") keywords
            ++ U "' に関連するファイルは見つかりませんでした。"
  end.

Definition get_relevant_content (self : OneDriveSearch) (query : text)
    (max_files : option Z) (max_chars : Z) : text * OneDriveSearch :=
  let max_files := default (OneDriveSearch.max_results self) max_files in
  let '(date_str, keywords) := extract_keywords query in
  match keywords with
  | [] => (no_keywords_message, self)
  | _ =>
    let '(search_results, self') :=
      search_files self (KwList keywords) None (Some max_files) true in
    match search_results with
    | [] => (not_found_message date_str keywords, self')
    | _ =>
      let relevant_content := found_header (length search_results) in
      (content_loop self' max_chars (length search_results) 0
         search_results relevant_content (len relevant_content),
       self')
    end
  end.

End Search.
End OneDriveSearch.

(** Vocabulary for stating properties of the result cache. *)
Module CacheSpec.
Import OneDriveSearch.

Section Key.
Context (repr_str : text -> text).

(** The arguments after defaulting and the key they are cached under. *)
Definition key_of (self : OneDriveSearch.OneDriveSearch)
    (keywords : keywords_arg) (file_types : option (list text))
    (max_results : option Z) : text :=
  cache_key repr_str keywords
    (default (OneDriveSearch.file_types self) file_types)
    (default (OneDriveSearch.max_results self) max_results).

End Key.

(** No entry, or one that is 300 seconds old or older. *)
Definition stale (env : Env) (self : OneDriveSearch.OneDriveSearch)
    (key : text) : Prop :=
  match search_cache self !! key with
  | Some e => (300 <= time_at_check env - timestamp e)%Q
  | None => True
  end.

(** Dropping an entry from the cache. *)
Definition forget (self : OneDriveSearch.OneDriveSearch) (key : text)
  : OneDriveSearch.OneDriveSearch :=
  {| base_directory := base_directory self;
     file_types := OneDriveSearch.file_types self;
     max_results := OneDriveSearch.max_results self;
     search_cache := delete key (search_cache self);
     file_extractor := file_extractor self;
     walk_count := walk_count self |}.

End CacheSpec.

(** Vocabulary for stating properties of the assembled content. *)
Module ContentSpec.
Import OneDriveSearch.

(** How the block of a file appears in the output: complete, or cut to
    its first [c] characters and closed by the cut mark. *)
Definition shown_as (block s : text) : Prop :=
  s = block \/ exists c, (c < length block)%nat /\ s = take c block ++ cut_mark.

End ContentSpec.

(** Vocabulary for stating properties of the directory walk. *)
Module SearchSpec.
Import OneDriveSearch.

Section Candidates.
Context (env : Env) (file_types date_keywords search_terms : list text).

(** A file of a directory passes the extension filter and the keyword
    tests. *)
Definition matching (root file : text) : bool :=
  extension_ok env file_types file
  && file_matches date_keywords search_terms file (path_join env root file).

(** The records of the matching files of one directory, and of a walk,
    in the order of the walk. *)
Definition dir_candidates (d : text * list text) : list FileRecord :=
  map (fun file => make_record env file (path_join env d.1 file))
      (List.filter (matching d.1) d.2).

Definition candidates (dirs : list (text * list text)) : list FileRecord :=
  concat (map dir_candidates dirs).

End Candidates.
End SearchSpec.

(** ** A concrete world for worked examples

    An operating system with readable ten-byte text files, no parser
    library, an identity [repr] and [lower], and a clock and a directory
    tree chosen per call. *)
Module Demo.
Import FileExtractor OneDriveSearch.

Definition no_library {A} : result A := Raise (Exn OtherException []).

Definition demo_os (content : text -> text) : OS :=
  {| str_lower := fun s => s;
     path_exists := fun _ => true;
     path_getsize := fun _ => Ok 10%Z;
     access_read := fun _ => true;
     path_basename := fun p => p;
     path_splitext := fun p => (p, U ".txt");
     os_stat := fun _ => Ok (10%Z, 0%Z);
     strftime := fun _ _ => Ok (U "2024-10-26 09:00:00");
     format_1f := fun _ _ => U "0.0";
     read_text := fun p _ => Ok (content p);
     open_pdf := fun _ => no_library;
     open_docx := fun _ => no_library;
     open_xlsx := fun _ => no_library;
     open_pptx := fun _ => no_library;
     powershell_report := fun _ _ => no_library |}.

Definition demo_env (content : text -> text) (t_check t_store : Q)
    (dirs : list (text * list text)) : Env :=
  {| env_os := demo_os content;
     time_at_check := t_check;
     time_at_store := t_store;
     os_walk := fun _ => Ok dirs;
     path_join := fun a b => a ++ U "/" ++ b |}.

Definition demo_repr (s : text) : text := U "'" ++ s ++ U "'".

Definition demo_self (cache : gmap (list N) CacheEntry)
  : OneDriveSearch.OneDriveSearch :=
  {| base_directory := U "/data";
     file_types := [];
     max_results := 5;
     search_cache := cache;
     file_extractor := {| imports_pdf := false; imports_docx := false;
                          imports_xlsx := false; imports_pptx := false |};
     walk_count := 0 |}.

Definition hello (_ : text) : text := U "hello".

(** The tree with one report and the empty tree. *)
Definition one_report : list (text * list text) :=
  [(U "/data", [U "nippo_20241026.txt"])].

End Demo.

(** ** json

    JSON documents and [json.dumps].  A number carries the text that
    [json.dumps] prints for it. *)
Module Json.

#[local] Unset Elimination Schemes.
Inductive json : Type :=
| JNull
| JBool (b : bool)
| JNum (repr : text)
| JStr (s : text)
| JList (l : list json)
| JDict (items : list (text * json)).
#[local] Set Elimination Schemes.

Definition hex_digit (n : N) : char :=
  if (n <? 10)%N then (48 + n)%N else (87 + n)%N.

Definition u_escape (c : N) : text :=
  U "\u" ++ [hex_digit (c / 4096); hex_digit ((c / 256) mod 16);
             hex_digit ((c / 16) mod 16); hex_digit (c mod 16)].

(** One character of a string; with [ensure_ascii] everything outside
    the printable ASCII range is escaped, a character beyond the basic
    plane as a surrogate pair. *)
Definition json_escape_char (ensure_ascii : bool) (c : char) : text :=
  if (c =? 34)%N then U "\" ++ [34%N]
  else if (c =? 92)%N then U "\\"
  else if (c =? 10)%N then U "\n"
  else if (c =? 13)%N then U "\r"
  else if (c =? 9)%N then U "\t"
  else if (c =? 8)%N then U "\b"
  else if (c =? 12)%N then U "\f"
  else if (c <? 32)%N then u_escape c
  else if ensure_ascii && (126 <? c)%N
  then if (c <? 65536)%N then u_escape c
       else u_escape (55296 + (c - 65536) / 1024)
            ++ u_escape (56320 + (c - 65536) mod 1024)
  else [c].

Definition json_string (ensure_ascii : bool) (s : text) : text :=
  [34%N] ++ concat (map (json_escape_char ensure_ascii) s) ++ [34%N].

(** Order of [str] values: by code points, a prefix first. *)
Fixpoint text_ltb (a b : text) : bool :=
  match a, b with
  | [], _ :: _ => true
  | _, [] => false
  | x :: a', y :: b' => (x <? y)%N || ((x =? y)%N && text_ltb a' b')
  end.

Fixpoint insert_by_key {A} (kv : text * A) (l : list (text * A))
  : list (text * A) :=
  match l with
  | [] => [kv]
  | kv' :: rest =>
    if text_ltb (fst kv') (fst kv) || text_eqb (fst kv') (fst kv)
    then kv' :: insert_by_key kv rest
    else kv :: l
  end.

Definition sort_by_key {A} (l : list (text * A)) : list (text * A) :=
  foldr insert_by_key [] l.

(** [json.dumps(v, ensure_ascii=.., separators=(item_sep, key_sep),
    sort_keys=..)]. *)
Fixpoint dumps (ensure_ascii : bool) (item_sep key_sep : text)
    (sort_keys : bool) (v : json) : text :=
  match v with
  | JNull => U "null"
  | JBool b => if b then U "true" else U "false"
  | JNum repr => repr
  | JStr s => json_string ensure_ascii s
  | JList l =>
    U "[" ++ join item_sep (map (dumps ensure_ascii item_sep key_sep sort_keys) l)
    ++ U "]"
  | JDict items =>
    let dumped :=
      map (fun kv => (fst kv,
                      dumps ensure_ascii item_sep key_sep sort_keys (snd kv)))
          items in
    let dumped := if sort_keys then sort_by_key dumped else dumped in
    U "{"
    ++ join item_sep
         (map (fun kv => json_string ensure_ascii (fst kv) ++ key_sep ++ snd kv)
              dumped)
    ++ U "}"
  end.

(** [key in v]: a key of a dict, an element of a list, a substring of a
    string; [TypeError] for the other values. *)
Definition py_in (key : text) (v : json) : result bool :=
  match v with
  | JDict items => Ok (existsb (fun kv => text_eqb (fst kv) key) items)
  | JList l =>
    Ok (existsb (fun x => match x with
                          | JStr s => text_eqb s key
                          | _ => false
                          end) l)
  | JStr s => Ok (contains key s)
  | _ => Raise (Exn OtherException (U "argument is not iterable"))
  end.

(** [v[key]] for a [str] key: the value of a dict, [KeyError] when the
    key is missing, [TypeError] for the other values. *)
Definition py_getitem (key : text) (v : json) : result json :=
  match v with
  | JDict items =>
    match find (fun kv => text_eqb (fst kv) key) items with
    | Some kv => Ok (snd kv)
    | None => Raise (Exn OtherException ([39%N] ++ key ++ [39%N]))
    end
  | _ => Raise (Exn OtherException (U "indices must be integers"))
  end.

End Json.

(** ** teams_webhook.py: TeamsWebhook *)
Module TeamsWebhook.

Export Json.

(** [json.dumps(v, ensure_ascii=False)]. *)
Definition json_dumps (v : json) : text :=
  dumps false (U ", ") (U ": ") false v.

(** *** _get_shortened_path *)

Definition backslash : char := 92%N.
Definition not_backslash (c : char) : bool := negb (c =? backslash)%N.
Arguments not_backslash : simpl never.

(** [OneDrive - ([^\\]+)] *)
Definition company_re : regex :=
  Cat (lits (U "OneDrive - ")) (Grp (plus not_backslash)).

(** [parts[-k:]] *)
Definition last_n {A} (k : nat) (l : list A) : list A :=
  drop (length l - k) l.

Definition _get_shortened_path (path : text) : text :=
  match path with
  | [] => U "デフォルト検索ディレクトリ"
  | _ =>
    let sep := [backslash] in
    let path_parts := split_on backslash path in
    let general :=
      if (3 <? length path_parts)%nat
      then
        let first_part := default [] (path_parts !! 0%nat) in
        let first_part :=
          if contains (U ":") first_part
          then first_part ++ sep ++ default [] (path_parts !! 1%nat)
          else first_part in
        let last_parts := last_n 2 path_parts in
        first_part ++ sep ++ U "..." ++ sep
        ++ default [] (last_parts !! 0%nat) ++ sep
        ++ default [] (last_parts !! 1%nat)
      else path in
    if (50 <? length path)%nat
    then
      if contains (U "OneDrive") path
      then
        match re_search company_re path with
        | Some m =>
          let company := group m 1 in
          let short_company :=
            if (10 <? length company)%nat then take 10 company ++ U "..."
            else company in
          if (3 <? length path_parts)%nat
          then
            let last_parts := last_n 3 path_parts in
            U "OneDrive - " ++ short_company ++ sep ++ U "..." ++ sep
            ++ default [] (last_parts !! 0%nat) ++ sep
            ++ default [] (last_parts !! 1%nat) ++ sep
            ++ default [] (last_parts !! 2%nat)
          else general
        | None => general
        end
      else general
    else path
  end.

(** *** The blocks of the answer *)

(** The rewriting of one line: [**] goes, [* ] becomes a middle dot. *)
Definition rewrite_line (line : text) : text :=
  replace (U "* ") (U "・") (replace (U "**") [] line).

(** The loop of [split_text_blocks]; the result is [blocks] followed by
    what the remaining lines add. *)
Fixpoint split_loop (max_len : nat) (lines : list text) (buf : text)
  : list text :=
  match lines with
  | [] => match buf with [] => [] | _ => [buf] end
  | line :: rest =>
    let line := rewrite_line line in
    if (max_len <? length buf + length line + 1)%nat
    then buf :: split_loop max_len rest line
    else split_loop max_len rest
           (buf ++ (match buf with [] => [] | _ => [10%N] end) ++ line)
  end.

Definition split_text_blocks (t : text) (max_len : nat) : list text :=
  split_loop max_len (split_on 10%N t) [].

(** [[\x00-\x08\x0B\x0C\x0E-\x1F\uD800-\uDFFF\uFFFE\uFFFF]] *)
Definition control_char (c : char) : bool :=
  (c <=? 8)%N || (c =? 11)%N || (c =? 12)%N
  || ((14 <=? c)%N && (c <=? 31)%N)
  || ((55296 <=? c)%N && (c <=? 57343)%N)
  || (c =? 65534)%N || (c =? 65535)%N.

Definition remove_control_chars (s : text) : text :=
  List.filter (fun c => negb (control_char c)) s.

Definition MAX_BLOCKS : nat := 10.
Definition MAX_TOTAL_LEN : Z := 9000.

(** The loop that keeps the first blocks; it breaks at the first block
    that is one too many or does not fit. *)
Fixpoint limit_loop (blocks : list text) (limited_blocks : list text)
    (total_len : Z) : list text * Z :=
  match blocks with
  | [] => (limited_blocks, total_len)
  | block :: rest =>
    if (MAX_BLOCKS <=? length limited_blocks)%nat
       || (MAX_TOTAL_LEN <? total_len + len block)%Z
    then (limited_blocks, total_len)
    else limit_loop rest (limited_blocks ++ [block])
                    (total_len + len block)%Z
  end.

Definition truncation_notice : text :=
  U "（一部省略されています。全文は管理者にお問い合わせください）".

(** [limited_blocks] as it stands when the card is built; [response] is
    the answer after [remove_control_chars]. *)
Definition answer_blocks (response : text) : list text :=
  let response_blocks := split_text_blocks response 900 in
  let '(limited_blocks, total_len) := limit_loop response_blocks [] 0 in
  if (MAX_BLOCKS <? length response_blocks)%nat
     || (total_len <? len response)%Z
  then limited_blocks ++ [truncation_notice]
  else limited_blocks.

(** The characters of a list of blocks, [sum(len(b) for b in blocks)]. *)
Definition total_length (blocks : list text) : Z :=
  foldr (fun b acc => (len b + acc)%Z) 0%Z blocks.

(** *** The payloads *)

Definition textblock (fields : list (text * json)) : json :=
  JDict ((U "type", JStr (U "TextBlock")) :: fields).

Definition adaptive_card (body : list json) : json :=
  JDict [(U "contentType",
          JStr (U "application/vnd.microsoft.card.adaptive"));
         (U "content",
          JDict [(U "type", JStr (U "AdaptiveCard"));
                 (U "body", JList body);
                 (U "$schema",
                  JStr (U "http://adaptivecards.io/schemas/adaptive-card.json"));
                 (U "version", JStr (U "1.0"))])].

Definition title_block (card_color : text) : json :=
  textblock [(U "size", JStr (U "Medium")); (U "weight", JStr (U "Bolder"));
             (U "text", JStr (U "Ollama回答")); (U "wrap", JBool true);
             (U "color", JStr card_color)].

Definition time_block (now : text) : json :=
  textblock [(U "text", JStr (U "回答生成時刻: " ++ now));
             (U "wrap", JBool true); (U "size", JStr (U "Small"));
             (U "isSubtle", JBool true)].

Definition root_body (card_color query short_path now : text)
    (blocks : list text) : list json :=
  [title_block card_color;
   textblock [(U "text", JStr (U "質問: " ++ query)); (U "wrap", JBool true);
              (U "weight", JStr (U "Bolder")); (U "color", JStr (U "Accent"))];
   textblock [(U "text", JStr (U "検索対象: " ++ short_path));
              (U "wrap", JBool true); (U "isSubtle", JBool true);
              (U "size", JStr (U "Small"))]]
  ++ map (fun block =>
            textblock [(U "text", JStr block); (U "wrap", JBool true);
                       (U "spacing", JStr (U "Medium"))]) blocks
  ++ [time_block now].

Definition too_long_body : list json :=
  [textblock [(U "text",
               JStr (U "（回答が長すぎるため一部省略されています。全文は管理者にお問い合わせください）"));
              (U "wrap", JBool true); (U "spacing", JStr (U "Medium"))]].

Definition root_attachments (body : list json) : json :=
  JDict [(U "attachments", JList [adaptive_card body])].

Definition legacy_payload (card_color query short_path now response : text)
  : json :=
  JDict [(U "body",
          JDict [(U "attachments",
                  JList [adaptive_card
                     [title_block card_color;
                      textblock [(U "text", JStr (U "質問: " ++ query));
                                 (U "wrap", JBool true);
                                 (U "weight", JStr (U "Bolder"))];
                      textblock [(U "text", JStr (U "検索対象: " ++ short_path));
                                 (U "wrap", JBool true);
                                 (U "size", JStr (U "Small"))];
                      textblock [(U "text", JStr response);
                                 (U "wrap", JBool true)];
                      time_block now]])])].

Definition nl2 : text := [10%N; 10%N].

Definition simple_payload (query short_path now response : text) : json :=
  JDict [(U "text",
          JStr (U "### Ollama回答" ++ nl2 ++ U "**質問**: " ++ query ++ nl2
                ++ U "**検索対象**: " ++ short_path ++ nl2 ++ response ++ nl2
                ++ U "*回答生成時刻: " ++ now ++ U "*"))].

(** *** send_ollama_response *)

(** The clock and the HTTP peer. *)
Record Web : Type := {
  (* datetime.now().strftime('%Y年%m月%d日 %H:%M:%S') *)
  now_string : result text;
  (* requests.post(url, json=payload, ...) for attempt number k:
     status code and body text, or the exception raised *)
  http_post : nat -> text -> json -> result (Z * text)
}.

(** The dict the method returns; a key that is not set is [None]. *)
Record send_result : Type := {
  status : text;
  code : option Z;
  format : option text;
  message : option text
}.

Definition success (c : Z) (fmt : text) : send_result :=
  {| status := U "success"; code := Some c; format := Some fmt;
     message := None |}.

Definition error_response (c : Z) (body : text) : send_result :=
  {| status := U "error"; code := Some c; format := None;
     message := Some body |}.

Definition error_exception (e : exn) : send_result :=
  {| status := U "error"; code := None; format := None;
     message := Some (exn_str e) |}.

Definition is_2xx (c : Z) : bool := ((200 <=? c) && (c <? 300))%Z.

Definition fmt_root : text := U "ルートレベルattachments".
Definition fmt_legacy : text := U "従来形式".
Definition fmt_simple : text := U "シンプル".

(** One HTTP attempt as it is observed: the payload and what came back. *)
Definition attempt : Type := json * result (Z * text).

(** A response with a status code from 200 to 299. *)
Definition response_ok (r : result (Z * text)) : bool :=
  match r with
  | Ok (c, _) => is_2xx c
  | Raise _ => false
  end.

(** The result a failed last attempt leaves: the status code and body of
    the response, or the message of the exception. *)
Definition last_error (r : result (Z * text)) : send_result :=
  match r with
  | Ok (c, body) => error_response c body
  | Raise e => error_exception e
  end.

(** The status code of a response. *)
Definition status_code (r : result (Z * text)) : Z :=
  match r with
  | Ok (c, _) => c
  | Raise _ => 0
  end.

Section Send.
Context (web : Web) (webhook_url : text).

(** The three attempts, after the payloads are built. *)
Definition deliver (root legacy simple : json)
  : send_result * list attempt :=
  let r := http_post web 1 webhook_url root in
  match r with
  | Ok (c, _) =>
    if is_2xx c then (success c fmt_root, [(root, r)])
    else
      let r2 := http_post web 2 webhook_url legacy in
      match r2 with
      | Ok (c2, _) =>
        if is_2xx c2 then (success c2 fmt_legacy, [(root, r); (legacy, r2)])
        else
          let r3 := http_post web 3 webhook_url simple in
          (match r3 with
           | Ok (c3, body) =>
             if is_2xx c3 then success c3 fmt_simple
             else error_response c3 body
           | Raise e3 => error_exception e3
           end, [(root, r); (legacy, r2); (simple, r3)])
      | Raise _ =>
        let r3 := http_post web 3 webhook_url simple in
        (match r3 with
         | Ok (c3, body) =>
           if is_2xx c3 then success c3 fmt_simple
           else error_response c3 body
         | Raise e3 => error_exception e3
         end, [(root, r); (legacy, r2); (simple, r3)])
      end
  | Raise _ =>
    let r2 := http_post web 2 webhook_url legacy in
    match r2 with
    | Ok (c2, _) =>
      if is_2xx c2 then (success c2 fmt_legacy, [(root, r); (legacy, r2)])
      else
        let r3 := http_post web 3 webhook_url simple in
        (match r3 with
         | Ok (c3, body) =>
           if is_2xx c3 then success c3 fmt_simple
           else error_response c3 body
         | Raise e3 => error_exception e3
         end, [(root, r); (legacy, r2); (simple, r3)])
    | Raise _ =>
      let r3 := http_post web 3 webhook_url simple in
      (match r3 with
       | Ok (c3, body) =>
         if is_2xx c3 then success c3 fmt_simple
         else error_response c3 body
       | Raise e3 => error_exception e3
       end, [(root, r); (legacy, r2); (simple, r3)])
    end
  end.

(** The payloads, in the order root, legacy, simple; [Raise] when the
    clock or the UTF-8 encoding of the card raises. *)
Definition build_payloads (query response : text)
    (search_path : option text) : result (json * json * json) :=
  let short_path :=
    match search_path with
    | Some (c :: p) => _get_shortened_path (c :: p)
    | _ => U "設定されたディレクトリ"
    end in
  now ← now_string web;
  let pdf_detected :=
    contains (U "PDFファイル") response
    && (contains (U "見つかりました") response
        || contains (U "存在します") response) in
  let card_color := if pdf_detected then U "Accent" else U "Default" in
  let response := remove_control_chars response in
  let root :=
    root_attachments
      (root_body card_color query short_path now (answer_blocks response)) in
  match utf8_encode (json_dumps root) with
  | None =>
    Raise (Exn OtherException (U "'utf-8' codec can't encode character"))
  | Some card_bytes =>
    let root :=
      if (25000 <? Z.of_nat (length card_bytes))%Z
      then root_attachments too_long_body else root in
    Ok (root,
        legacy_payload card_color query short_path now response,
        simple_payload query short_path now response)
  end.

Definition send_ollama_response (query response : text)
    (search_path : option text) : send_result * list attempt :=
  match build_payloads query response search_path with
  | Ok (root, legacy, simple) => deliver root legacy simple
  | Raise e => (error_exception e, [])
  end.

(** [send_direct_message] is [send_ollama_response] under another name. *)
Definition send_direct_message (query response : text)
    (search_path : option text) : send_result * list attempt :=
  send_ollama_response query response search_path.

End Send.
End TeamsWebhook.

(** Vocabulary for stating properties of the block splitting. *)
Module WebhookSpec.
Import Json TeamsWebhook.

(** The lines of a text and their separators add up to the text. *)
Definition lines_weight (lines : list text) : Z :=
  foldr (fun l acc => (len l + 1 + acc)%Z) 0%Z lines.

(** A rewriting of lines that keeps a property of their characters. *)
Definition keeps (P : char -> Prop) (f : text -> text) : Prop :=
  forall l, Forall P l -> Forall P (f l).

(** A surrogate code point, which UTF-8 cannot encode. *)
Definition surrogate (c : char) : bool :=
  (55296 <=? c)%N && (c <=? 57343)%N.

(** *** Runs of lines and their blocks *)

Definition is_empty (l : text) : bool :=
  match l with [] => true | _ => false end.

(** The block that a run of consecutive rewritten lines makes: the lines
    joined by line feeds, the empty lines at the start of the run left
    out. *)
Definition block_of (run : list text) : text :=
  join [10%N] (drop_while is_empty run).

(** The last run gives a block only when that block is not empty. *)
Definition closing (b : text) : list text :=
  match b with [] => [] | _ => [b] end.

(** The block of a run is within the limit, or the run is one line. *)
Definition fits (max_len : nat) (run : list text) : Prop :=
  (length (block_of run) <= max_len)%nat \/ exists line, run = [line].

(** A run ends only where the next line does not fit behind its block;
    that line begins the next run. *)
Definition greedy (max_len : nat) (runs : list (list text)) : Prop :=
  forall i r r', runs !! i = Some r -> runs !! S i = Some r' ->
    exists l rest, r' = l :: rest
      /\ (max_len < length (block_of r) + length l + 1)%nat.

(** *** The three shapes of a payload *)

Inductive payload_shape : Type := RootCard | LegacyCard | PlainText.

(** The value of a key of a JSON object. *)
Definition field (k : text) (v : json) : option json :=
  match v with
  | JDict items => snd <$> find (fun kv => text_eqb (fst kv) k) items
  | _ => None
  end.

(** An object whose [attachments] is a list of one adaptive card. *)
Definition holds_card (v : json) : bool :=
  match field (U "attachments") v with
  | Some (JList [card]) =>
    match field (U "contentType") card with
    | Some (JStr t) => text_eqb t (U "application/vnd.microsoft.card.adaptive")
    | _ => false
    end
  | _ => false
  end.

(** The card at the root, the card wrapped in [body], or a [text] alone. *)
Definition shape_of (v : json) : option payload_shape :=
  if holds_card v then Some RootCard
  else match field (U "body") v with
       | Some wrapped => if holds_card wrapped then Some LegacyCard else None
       | None =>
         match field (U "text") v with
         | Some (JStr _) => Some PlainText
         | _ => None
         end
       end.

End WebhookSpec.

(** A peer that answers 500 to the first two attempts and 200 to the
    third, and a fixed clock. *)
Module WebDemo.
Import TeamsWebhook.

Definition third_time_lucky : Web :=
  {| now_string := Ok (U "2024年10月26日 09:00:00");
     http_post := fun k _ _ =>
       match k with
       | 3%nat => Ok (200%Z, U "ok")
       | _ => Ok (500%Z, U "busy")
       end |}.

Definition demo_url : text := U "https://example.invalid/workflow".

End WebDemo.

(** ** hashlib, hmac and base64

    The digests and encodings of the Python standard library that the
    signature check calls, on [bytes] as lists of octets. *)
Module Crypto.

Abbreviation bytes := (list N).

Local Open Scope N_scope.

Definition w32 (x : N) : N := x mod 4294967296.
Definition add32 (x y : N) : N := w32 (x + y).
Definition rotr (n x : N) : N :=
  N.lor (N.shiftr x n) (w32 (N.shiftl x (32 - n))).
Definition rotl (n x : N) : N := rotr (32 - n) x.
Definition not32 (x : N) : N := 4294967295 - x.

(** Big-endian words. *)
Definition word_of_bytes (b : bytes) : N :=
  fold_left (fun acc x => acc * 256 + x) b 0.

Definition bytes_of_word (width : nat) (w : N) : bytes :=
  map (fun i => (w / 256 ^ N.of_nat i) mod 256) (rev (seq 0 width)).

Fixpoint chunks {A} (fuel size : nat) (l : list A) : list (list A) :=
  match fuel with
  | O => []
  | S fuel' =>
    match l with
    | [] => []
    | _ => take size l :: chunks fuel' size (drop size l)
    end
  end.

(** The padding shared by SHA-1 and SHA-256: a one bit, zero bits up to
    56 modulo 64 octets, and the bit length on 64 bits. *)
Definition md_pad (msg : bytes) : bytes :=
  let l := length msg in
  let k := ((119 - l mod 64) mod 64)%nat in
  msg ++ [128] ++ replicate k 0 ++ bytes_of_word 8 (N.of_nat l * 8).

Definition blocks_of (msg : bytes) : list (list N) :=
  let padded := md_pad msg in
  map (fun blk => map word_of_bytes (chunks 16 4 blk))
      (chunks (length padded) 64 padded).

(** *** SHA-256 *)

Definition sha256_k : list N :=
  [ 1116352408; 1899447441; 3049323471; 3921009573; 961987163; 1508970993;
    2453635748; 2870763221; 3624381080; 310598401; 607225278; 1426881987;
    1925078388; 2162078206; 2614888103; 3248222580; 3835390401; 4022224774;
    264347078; 604807628; 770255983; 1249150122; 1555081692; 1996064986;
    2554220882; 2821834349; 2952996808; 3210313671; 3336571891; 3584528711;
    113926993; 338241895; 666307205; 773529912; 1294757372; 1396182291;
    1695183700; 1986661051; 2177026350; 2456956037; 2730485921; 2820302411;
    3259730800; 3345764771; 3516065817; 3600352804; 4094571909; 275423344;
    430227734; 506948616; 659060556; 883997877; 958139571; 1322822218;
    1537002063; 1747873779; 1955562222; 2024104815; 2227730452; 2361852424;
    2428436474; 2756734187; 3204031479; 3329325298 ].

Definition sha256_h0 : list N :=
  [ 1779033703; 3144134277; 1013904242; 2773480762;
    1359893119; 2600822924; 528734635; 1541459225 ].

(** The message schedule: 48 more words after the 16 of the block. *)
Fixpoint sha256_schedule (n : nat) (w : list N) : list N :=
  match n with
  | O => w
  | S n' =>
    let i := length w in
    let at_ := fun j => nth (i - j) w 0 in
    let s0 := N.lxor (N.lxor (rotr 7 (at_ 15%nat)) (rotr 18 (at_ 15%nat)))
                     (N.shiftr (at_ 15%nat) 3) in
    let s1 := N.lxor (N.lxor (rotr 17 (at_ 2%nat)) (rotr 19 (at_ 2%nat)))
                     (N.shiftr (at_ 2%nat) 10) in
    sha256_schedule n'
      (w ++ [add32 (add32 (at_ 16%nat) s0) (add32 (at_ 7%nat) s1)])
  end.

Definition sha256_round (st : list N) (kw : N * N) : list N :=
  match st with
  | [a; b; c; d; e; f; g; h] =>
    let s1 := N.lxor (N.lxor (rotr 6 e) (rotr 11 e)) (rotr 25 e) in
    let ch := N.lxor (N.land e f) (N.land (not32 e) g) in
    let t1 := add32 (add32 (add32 h s1) (add32 ch (fst kw))) (snd kw) in
    let s0 := N.lxor (N.lxor (rotr 2 a) (rotr 13 a)) (rotr 22 a) in
    let maj := N.lxor (N.lxor (N.land a b) (N.land a c)) (N.land b c) in
    let t2 := add32 s0 maj in
    [add32 t1 t2; a; b; c; add32 d t1; e; f; g]
  | _ => st
  end.

Definition sha256_block (h : list N) (blk : list N) : list N :=
  let w := sha256_schedule 48 blk in
  let st := fold_left sha256_round (combine sha256_k w) h in
  map (fun p => add32 (fst p) (snd p)) (combine h st).

Definition sha256 (msg : bytes) : bytes :=
  concat (map (bytes_of_word 4)
              (fold_left sha256_block (blocks_of msg) sha256_h0)).

(** *** SHA-1 *)

Definition sha1_h0 : list N :=
  [ 1732584193; 4023233417; 2562383102; 271733878; 3285377520 ].

Fixpoint sha1_schedule (n : nat) (w : list N) : list N :=
  match n with
  | O => w
  | S n' =>
    let i := length w in
    let at_ := fun j => nth (i - j) w 0 in
    sha1_schedule n'
      (w ++ [rotl 1 (N.lxor (N.lxor (at_ 3%nat) (at_ 8%nat))
                            (N.lxor (at_ 14%nat) (at_ 16%nat)))])
  end.

Definition sha1_round (st : list N) (iw : nat * N) : list N :=
  match st with
  | [a; b; c; d; e] =>
    let i := fst iw in
    let '(f, k) :=
      if (i <? 20)%nat
      then (N.lor (N.land b c) (N.land (not32 b) d), 1518500249)
      else if (i <? 40)%nat
      then (N.lxor (N.lxor b c) d, 1859775393)
      else if (i <? 60)%nat
      then (N.lor (N.lor (N.land b c) (N.land b d)) (N.land c d), 2400959708)
      else (N.lxor (N.lxor b c) d, 3395469782) in
    [add32 (add32 (add32 (rotl 5 a) f) (add32 e k)) (snd iw);
     a; rotl 30 b; c; d]
  | _ => st
  end.

Definition sha1_block (h : list N) (blk : list N) : list N :=
  let w := sha1_schedule 64 blk in
  let st := fold_left sha1_round (combine (seq 0 80) w) h in
  map (fun p => add32 (fst p) (snd p)) (combine h st).

Definition sha1 (msg : bytes) : bytes :=
  concat (map (bytes_of_word 4)
              (fold_left sha1_block (blocks_of msg) sha1_h0)).

(** *** HMAC (block size 64 for both digests) *)

Definition hmac (hash : bytes -> bytes) (key msg : bytes) : bytes :=
  let key := if (64 <? length key)%nat then hash key else key in
  let key := key ++ replicate (64 - length key) 0 in
  hash (map (N.lxor 92) key ++ hash (map (N.lxor 54) key ++ msg)).

(** *** base64 and hex *)

Definition b64_char (n : N) : N :=
  if n <? 26 then 65 + n
  else if n <? 52 then 71 + n
  else if n <? 62 then n - 4
  else if n =? 62 then 43 else 47.

(** [base64.b64encode(b).decode('utf-8')] *)
Fixpoint b64encode (b : bytes) : text :=
  match b with
  | x :: y :: z :: rest =>
    let n := x * 65536 + y * 256 + z in
    [b64_char (n / 262144); b64_char ((n / 4096) mod 64);
     b64_char ((n / 64) mod 64); b64_char (n mod 64)] ++ b64encode rest
  | [x; y] =>
    let n := x * 65536 + y * 256 in
    [b64_char (n / 262144); b64_char ((n / 4096) mod 64);
     b64_char ((n / 64) mod 64); 61]
  | [x] =>
    let n := x * 65536 in
    [b64_char (n / 262144); b64_char ((n / 4096) mod 64); 61; 61]
  | [] => []
  end.

Definition b64_value (c : N) : option N :=
  if (65 <=? c) && (c <=? 90) then Some (c - 65)
  else if (97 <=? c) && (c <=? 122) then Some (c - 71)
  else if (48 <=? c) && (c <=? 57) then Some (c + 4)
  else if c =? 43 then Some 62
  else if c =? 47 then Some 63
  else None.

(** [binascii.a2b_base64] without strict mode: characters outside the
    alphabet are skipped, a padding sequence that completes a quad ends
    the input, and an incomplete last quad is an error ([None]). *)
Fixpoint a2b_base64 (s : text) (quad_pos : nat) (leftchar : N) (pads : nat)
    (out : bytes) : option bytes :=
  match s with
  | [] => match quad_pos with O => Some (rev out) | _ => None end
  | c :: s' =>
    if c =? 61
    then
      if (2 <=? quad_pos)%nat && (4 <=? quad_pos + S pads)%nat
      then Some (rev out)
      else a2b_base64 s' quad_pos leftchar
             (if (2 <=? quad_pos)%nat then S pads else pads) out
    else
      match b64_value c with
      | None => a2b_base64 s' quad_pos leftchar pads out
      | Some v =>
        match quad_pos with
        | 0%nat => a2b_base64 s' 1 v 0 out
        | 1%nat => a2b_base64 s' 2 (v mod 16) 0
                     ((leftchar * 4 + v / 16) :: out)
        | 2%nat => a2b_base64 s' 3 (v mod 4) 0
                     ((leftchar * 16 + v / 4) :: out)
        | _ => a2b_base64 s' 0 0 0 ((leftchar * 64 + v) :: out)
        end
      end
  end.

(** [base64.b64decode(s)] for a [str]: an error for a character that is
    not ASCII. *)
Definition b64decode (s : text) : option bytes :=
  if forallb (fun c => c <? 128) s then a2b_base64 s 0 0 0 [] else None.

Definition hex_char (n : N) : N := if n <? 10 then 48 + n else 87 + n.

(** [digest.hex()] *)
Definition hex (b : bytes) : text :=
  concat (map (fun x => [hex_char (x / 16); hex_char (x mod 16)]) b).

Arguments sha256 : simpl never.
Arguments sha1 : simpl never.
Arguments hmac : simpl never.
Arguments b64encode : simpl nomatch.
Arguments b64decode : simpl never.
Arguments hex : simpl never.

End Crypto.

(** ** teams_auth.py *)
Module TeamsAuth.
Import Json Crypto.

Local Open Scope N_scope.

Definition continuation (y : N) : bool := (128 <=? y) && (y <=? 191).

(** [b.decode('utf-8')]; [None] is [UnicodeDecodeError]. *)
Fixpoint utf8_decode (b : bytes) : option text :=
  match b with
  | [] => Some []
  | x :: r =>
    if x <? 128 then cons x <$> utf8_decode r
    else
      match r with
      | [] => None
      | y :: r2 =>
        if (194 <=? x) && (x <=? 223) && continuation y
        then cons ((x - 192) * 64 + (y - 128)) <$> utf8_decode r2
        else
          match r2 with
          | [] => None
          | z :: r3 =>
            let c3 := (x - 224) * 4096 + (y - 128) * 64 + (z - 128) in
            if (224 <=? x) && (x <=? 239) && continuation y && continuation z
               && (2048 <=? c3) && negb ((55296 <=? c3) && (c3 <=? 57343))
            then cons c3 <$> utf8_decode r3
            else
              match r3 with
              | [] => None
              | w :: r4 =>
                let c4 := (x - 240) * 262144 + (y - 128) * 4096
                          + (z - 128) * 64 + (w - 128) in
                if (240 <=? x) && (x <=? 244) && continuation y
                   && continuation z && continuation w
                   && (65536 <=? c4) && (c4 <=? 1114111)
                then cons c4 <$> utf8_decode r4
                else None
              end
          end
      end
  end.

(** [s.encode('utf-8')] where [UnicodeEncodeError] propagates. *)
Definition encode (s : text) : result bytes :=
  match utf8_encode s with
  | Some b => Ok b
  | None =>
    Raise (Exn OtherException (U "'utf-8' codec can't encode character"))
  end.

Definition is_ascii (s : text) : bool := forallb (fun c => c <? 128) s.

(** [hmac.compare_digest(a, b)] on two [str]: [TypeError] unless both are
    ASCII. *)
Definition compare_digest (a b : text) : result bool :=
  if is_ascii a && is_ascii b then Ok (text_eqb a b)
  else Raise (Exn OtherException
                (U "comparing strings with non-ASCII characters is not supported")).

(** The request data is [bytes] (what the route passes) or a [str]. *)
Inductive request_data : Type :=
| DataBytes (b : bytes)
| DataStr (s : text).

Inductive digest_algo : Type := Sha256 | Sha1.
Inductive output_format : Type := Base64 | Base64NoPadding | Hex.

Definition digest_algos : list digest_algo := [Sha256; Sha1].
Definition output_formats : list output_format :=
  [Base64; Base64NoPadding; Hex].

Definition hmac_digest (algo : digest_algo) (key msg : bytes) : bytes :=
  match algo with
  | Sha256 => hmac sha256 key msg
  | Sha1 => hmac sha1 key msg
  end.

Definition format_func (f : output_format) (digest : bytes) : text :=
  match f with
  | Base64 => b64encode digest
  | Base64NoPadding => rstrip_char 61 (b64encode digest)
  | Hex => hex digest
  end.

(** [while len(t) % 4 != 0: t += '='] *)
Definition pad_to_4 (t : text) : text :=
  t ++ replicate ((4 - length t mod 4) mod 4)%nat 61.

(** [token_variants], in the order of the source. *)
Definition token_variants (teams_outgoing_token : text) : list text :=
  let ends_eq := ends_with [61] teams_outgoing_token in
  [teams_outgoing_token]
  ++ (if negb ends_eq then [pad_to_4 teams_outgoing_token] else [])
  ++ (if ends_eq then [rstrip_char 61 teams_outgoing_token] else [])
  ++ match b64decode teams_outgoing_token with
     | Some decoded => [b64encode decoded]
     | None => []
     end.

Section Verify.
(** [json.loads]; [None] when it raises. *)
Context (json_loads : text -> option json).

(** The variants added inside the [try] around the JSON handling; an
    exception keeps what was appended before it. *)
Definition json_variants (request_str : text) : list bytes :=
  match json_loads request_str with
  | None => []
  | Some json_data =>
    let enc := fun s => default [] (utf8_encode s) in
    let first :=
      [enc (dumps true (U ",") (U ":") false json_data);
       enc (dumps true (U ",") (U ":") true json_data);
       enc (List.filter (fun c => negb (isspace c)) request_str)] in
    let text_only : result (list bytes) :=
      has ← py_in (U "text") json_data;
      if has : bool
      then v ← py_getitem (U "text") json_data;
           mret [enc (dumps true (U ", ") (U ": ") false v)]
      else mret [] in
    match text_only with
    | Raise _ => first
    | Ok t =>
      let body_only : result (list bytes) :=
        has ← py_in (U "body") json_data;
        if has : bool
        then v ← py_getitem (U "body") json_data;
             mret [enc (dumps true (U ",") (U ":") false v)]
        else mret [] in
      match body_only with
      | Raise _ => first ++ t
      | Ok b => first ++ t ++ b
      end
    end
  end.

(** [data_variants] without their names. *)
Definition data_variants (request_bytes : bytes)
    (request_str : option text) : list bytes :=
  [request_bytes]
  ++ match request_str with
     | Some (c :: s) =>
       default [] (utf8_encode (c :: s)) :: json_variants (c :: s)
     | _ => []
     end.

(** The comparison in the innermost loop; an exception there is passed
    over. *)
Definition candidate_matches (clean_signature : text) (token_bytes : bytes)
    (data : bytes) (algo : digest_algo) (f : output_format) : bool :=
  match compare_digest (format_func f (hmac_digest algo token_bytes data))
                       clean_signature with
  | Ok b => b
  | Raise _ => false
  end.

(** The four nested loops; encoding the token is outside every [try]. *)
Fixpoint main_loop (clean_signature : text) (datas : list bytes)
    (tokens : list text) : result bool :=
  match tokens with
  | [] => Ok false
  | token :: rest =>
    token_bytes ← encode token;
    if existsb (fun data =>
         existsb (fun algo =>
           existsb (candidate_matches clean_signature token_bytes data algo)
                   output_formats)
                 digest_algos)
         datas
    then Ok true
    else main_loop clean_signature datas rest
  end.

(** The loop of the special case; an exception in it ends the whole
    block. *)
Fixpoint special_loop (clean_signature : text) (request_bytes : bytes)
    (tokens : list text) : result bool :=
  match tokens with
  | [] => Ok false
  | token :: rest =>
    token_bytes ← encode token;
    let raw_hmac := hmac sha256 token_bytes request_bytes in
    let b64_signature := b64encode raw_hmac in
    eq1 ← compare_digest b64_signature clean_signature;
    if eq1 : bool then Ok true
    else
      eq2 ← compare_digest (rstrip_char 61 b64_signature) clean_signature;
      if eq2 : bool then Ok true
      else
        match b64decode clean_signature with
        | Some binary_sig =>
          if bool_decide (raw_hmac = binary_sig) then Ok true
          else special_loop clean_signature request_bytes rest
        | None => special_loop clean_signature request_bytes rest
        end
  end.

Definition hmac_prefix : text := U "HMAC ".

Definition clean (signature : text) : text :=
  if starts_with hmac_prefix signature then drop 5 signature else signature.

Definition verify_teams_token (data : request_data) (signature : text)
    (teams_outgoing_token : text) : result bool :=
  match teams_outgoing_token, signature with
  | [], _ => Ok false
  | _, [] => Ok false
  | _, _ =>
    let clean_signature := clean signature in
    let tokens := token_variants teams_outgoing_token in
    '(request_bytes, request_str) ←
      match data with
      | DataStr s => b ← encode s; mret (b, Some s)
      | DataBytes b => mret (b, utf8_decode b)
      end;
    found ← main_loop clean_signature
               (data_variants request_bytes request_str) tokens;
    if found : bool then Ok true
    else
      match special_loop clean_signature request_bytes tokens with
      | Ok true => Ok true
      | _ => Ok false
      end
  end.

End Verify.

(** *** bypass_teams_token *)

(** The values a configuration entry takes. *)
Inductive config_value : Type :=
| CBool (b : bool)
| CInt (z : Z)
| CStr (s : text)
| CList (l : list text)
| CNone.

Definition truthy (v : config_value) : bool :=
  match v with
  | CBool b => b
  | CInt z => negb (z =? 0)%Z
  | CStr s => negb (text_eqb s [])
  | CList l => match l with [] => false | _ => true end
  | CNone => false
  end.

Definition K_SKIP_VERIFICATION : text := U "SKIP_VERIFICATION".
Definition K_DEBUG : text := U "DEBUG".

(** [skip_verification or debug_mode]: the value of the first operand
    when it is truthy, the second otherwise. *)
Definition bypass_teams_token (config : gmap (list N) config_value)
  : config_value :=
  let skip_verification :=
    default (CBool false) (config !! K_SKIP_VERIFICATION) in
  let debug_mode := default (CBool false) (config !! K_DEBUG) in
  if truthy skip_verification then skip_verification else debug_mode.

End TeamsAuth.

(** ** routes.py: the webhook handler *)
Module Routes.
Import Json Crypto TeamsAuth.

(** [re.sub(r'<.*?>|\r\n', ' ', s)]: a tag is the shortest run from [<]
    to the next [>] on the same line. *)
Fixpoint find_close (s : text) : option nat :=
  match s with
  | [] => None
  | c :: s' =>
    if (c =? 62)%N then Some 0%nat
    else if (c =? 10)%N then None
    else S <$> find_close s'
  end.

Fixpoint strip_tags_aux (skip : nat) (s : text) : text :=
  match s with
  | [] => []
  | c :: s' =>
    match skip with
    | S k => strip_tags_aux k s'
    | O =>
      if (c =? 60)%N
      then match find_close s' with
           | Some n => 32%N :: strip_tags_aux (S n) s'
           | None => c :: strip_tags_aux 0 s'
           end
      else if (c =? 13)%N && bool_decide (head s' = Some 10%N)
      then 32%N :: strip_tags_aux 1 s'
      else c :: strip_tags_aux 0 s'
    end
  end.

Definition strip_tags (s : text) : text := strip_tags_aux 0 s.

(** What the handler reads from the request. *)
Record request : Type := {
  authorization : option text;      (* request.headers.get('Authorization') *)
  get_data : bytes;                 (* request.get_data() *)
  get_json : result json            (* request.json *)
}.

(** [jsonify(body), status]. *)
Record response : Type := {
  status_code : Z;
  body : json
}.

(** How the verification step ends. *)
Inductive gate : Type :=
| Reject (r : response)     (* return 403 *)
| Verified                  (* the signature was accepted *)
| AllowedInDebug            (* verification failed, warning, continue *)
| Skipped.                  (* verification bypassed, warning *)

Definition unauthorized : response :=
  {| status_code := 403;
     body := JDict [(U "error", JStr (U "Unauthorized"))] |}.

(** [KeyError(k)]; its [str] is the key between single quotes. *)
Definition key_error (k : text) : exn :=
  Exn OtherException ([39%N] ++ k ++ [39%N]).

(** [config[k]]. *)
Definition config_get (config : gmap (list N) config_value) (k : text)
  : result config_value :=
  match config !! k with
  | Some v => Ok v
  | None => Raise (key_error k)
  end.

Definition K_TOKEN : text := U "TEAMS_OUTGOING_TOKEN".
Definition K_OLLAMA_URL : text := U "OLLAMA_URL".
Definition K_OLLAMA_MODEL : text := U "OLLAMA_MODEL".
Definition K_OLLAMA_TIMEOUT : text := U "OLLAMA_TIMEOUT".

Section Handler.
Context (json_loads : text -> option json).

(** [verify_teams_token] on a configuration value: the two falsy tests
    come first, and a token that is not a string raises after them. *)
Definition verify_config_token (data : bytes) (signature : option text)
    (token : config_value) : result bool :=
  if negb (truthy token) then Ok false
  else
    match default [] signature, token with
    | [], _ => Ok false
    | sig, CStr s => verify_teams_token json_loads (DataBytes data) sig s
    | _, _ => Raise (Exn OtherException (U "object is not subscriptable"))
    end.

(** The verification step, lines 42 to 62, for a given value of the
    local [skip_verification].  [debug_teams_signature] catches every
    exception and its result goes to the log only. *)
Definition verification_gate (config : gmap (list N) config_value)
    (req : request) (skip_verification : config_value) : result gate :=
  if negb (truthy skip_verification)
  then
    token ← config_get config K_TOKEN;
    verified ← verify_config_token (get_data req) (authorization req) token;
    if verified : bool then Ok Verified
    else
      debug ← config_get config K_DEBUG;
      if negb (truthy debug) then Ok (Reject unauthorized)
      else Ok AllowedInDebug
  else Ok Skipped.

Definition accepted (onedrive_search : bool) : response :=
  {| status_code := 200;
     body :=
       JDict [(U "type", JStr (U "message"));
              (U "text",
               JStr (U "リクエストを受け付けました。回答を生成中です..."
                     ++ (if onedrive_search
                         then U "  しばらくお待ちください..." else [])))] |}.

Definition no_text : response :=
  {| status_code := 400;
     body := JDict [(U "error",
                     JStr (U "テキストフィールドが見つかりません"))] |}.

Definition server_error (e : exn) : response :=
  {| status_code := 500;
     body := JDict [(U "error", JStr (exn_str e))] |}.

(** The handler: its response and, when a worker thread is started, the
    query text the worker gets. *)
Definition teams_webhook_handler (config : gmap (list N) config_value)
    (onedrive_search : bool) (req : request) : response * option text :=
  let run : result (response * option text) :=
    g ← verification_gate config req (bypass_teams_token config);
    match g with
    | Reject r => Ok (r, None)
    | _ =>
      data ← get_json req;
      has_text ← py_in (U "text") data;
      if has_text : bool
      then
        t ← py_getitem (U "text") data;
        match t with
        | JStr s =>
          (* the arguments of the worker thread, lines 82 and 83 *)
          config_get config K_OLLAMA_URL;;
          config_get config K_OLLAMA_MODEL;;
          config_get config K_OLLAMA_TIMEOUT;;
          Ok (accepted onedrive_search, Some (strip_tags s))
        | _ => Raise (Exn OtherException
                        (U "expected string or bytes-like object"))
        end
      else Ok (no_text, None)
    end in
  match run with
  | Ok out => out
  | Raise e => (server_error e, None)
  end.

End Handler.
End Routes.

(** Vocabulary for stating properties of the signature check. *)
Module AuthSpec.
Import Json Crypto TeamsAuth.

(** A text without surrogate code points, which is what has a UTF-8
    encoding. *)
Definition encodable (s : text) : Prop :=
  Forall (fun c => negb ((55296 <=? c)%N && (c <=? 57343)%N) = true) s.

Definition key_of_token (token : text) : bytes :=
  default [] (utf8_encode token).

(** The characters of base64 text: ASCII, and never a blank. *)
Definition b64_alphabet_char (c : N) : Prop :=
  (c < 128)%N /\ c <> 32%N.

(** One token variant matches some body variant under some digest and
    some output encoding. *)
Definition token_hits (clean_signature : text) (datas : list bytes)
    (tok : text) : bool :=
  existsb (fun data =>
    existsb (fun algo =>
      existsb (fun f =>
        text_eqb (format_func f (hmac_digest algo (key_of_token tok) data))
                 clean_signature)
        output_formats)
      digest_algos)
    datas.

Section Candidates.
Context (json_loads : text -> option json).

(** The signature equals one of the candidates computed over the token
    variants, the body variants, the two digests and the three output
    encodings. *)
Definition among_candidates (request_bytes : bytes) (clean_signature : text)
    (token : text) : bool :=
  existsb (fun tok =>
    existsb (fun data =>
      existsb (fun algo =>
        existsb (fun f =>
          text_eqb (format_func f (hmac_digest algo (key_of_token tok) data))
                   clean_signature)
          output_formats)
        digest_algos)
      (data_variants json_loads request_bytes (utf8_decode request_bytes)))
    (token_variants token).

(** The signature, read as base64 with every character outside the
    alphabet skipped, is the HMAC-SHA256 digest of the raw body under one
    of the token variants. *)
Definition binary_accepts (request_bytes : bytes) (clean_signature : text)
    (token : text) : bool :=
  existsb (fun tok =>
    bool_decide (b64decode clean_signature
                 = Some (hmac sha256 (key_of_token tok) request_bytes)))
    (token_variants token).

End Candidates.

(** A small request: no JSON reading, the body [hello], the secret
    [secret], and the base64 digest with a blank in front. *)
Definition no_json : text -> option json := fun _ => None.
Definition demo_body : bytes := U "hello".
Definition demo_secret : text := U "secret".
Definition demo_blank_signature : text :=
  32%N :: b64encode (hmac sha256 (key_of_token demo_secret) demo_body).

End AuthSpec.
(** A production configuration and a request with a wrong signature. *)
Module RoutesDemo.
Import Json Crypto TeamsAuth AuthSpec Routes.

Definition production_config : gmap (list N) config_value :=
  <[K_TOKEN := CStr demo_secret]>
  (<[K_DEBUG := CBool false]>
  (<[K_SKIP_VERIFICATION := CBool false]> ∅)).

(** The same configuration with the DEBUG flag set. *)
Definition debug_config : gmap (list N) config_value :=
  <[K_TOKEN := CStr demo_secret]>
  (<[K_DEBUG := CBool true]>
  (<[K_SKIP_VERIFICATION := CBool false]>
  (<[K_OLLAMA_URL := CStr (U "http://localhost:11434/api/generate")]>
  (<[K_OLLAMA_MODEL := CStr (U "llama3")]>
  (<[K_OLLAMA_TIMEOUT := CInt 60]> ∅))))).

Definition unsigned_request : request :=
  {| authorization := None;
     get_data := demo_body;
     get_json := Ok (JDict []) |}.

(** A carriage return followed by a line feed. *)
Definition crlf : text := [13%N; 10%N].

(** A token that is one surrogate code point, and a signature. *)
Definition surrogate_token : text := [55296%N].
Definition some_signature : text := U "x".

Definition wrong_signature_request : request :=
  {| authorization := Some (U "HMAC AAAA");
     get_data := demo_body;
     get_json := Ok (JDict [(U "text", JStr (U "hi"))]) |}.

End RoutesDemo.

(** ** config.py: parse_file_types *)
Module Config.
Import TeamsAuth.

(** The loop that fills [valid_types]. *)
Fixpoint valid_types_loop (types : list text) : list text :=
  match types with
  | [] => []
  | t :: rest =>
    match t with
    | [] => valid_types_loop rest
    | _ =>
      let t := if negb (starts_with (U ".") t) then U "." ++ t else t in
      t :: valid_types_loop rest
    end
  end.

Definition parse_file_types (file_types_str : text) : list text :=
  match file_types_str with
  | [] => []
  | _ =>
    let types := map strip_ws (split_on 44%N file_types_str) in
    valid_types_loop types
  end.

(** *** load_config *)

(** The process environment as [load_config] meets it. *)
Record Environ : Type := {
  (* lines 20 to 32: the .env file is looked for and loaded; an exception
     of [load_dotenv], or the exit, leaves the function *)
  dotenv_prelude : result unit;
  getenv : text -> option text;          (* os.getenv, after the loading *)
  (* the lines that the direct reading of the .env file yields before
     the file ends or the reading raises *)
  env_lines : list text
}.

(** [s.split(sep, 1)] unpacked into two names; [None] is the
    [ValueError] of a text without the separator. *)
Fixpoint split_once (sep : char) (s : text) : option (text * text) :=
  match s with
  | [] => None
  | c :: s' =>
    if (c =? sep)%N then Some ([], s')
    else (fun kv => (c :: fst kv, snd kv)) <$> split_once sep s'
  end.

(** [not v] for a value that is [None] or a string. *)
Definition unset (v : option text) : bool :=
  match v with
  | Some (_ :: _) => false
  | _ => true
  end.

(** The loop over the lines of the .env file, lines 90 to 99: the
    workflow URL and the token as they stand when the loop ends or a line
    without [=] raises. *)
Fixpoint read_env_loop (lines : list text) (url token : option text)
  : option text * option text :=
  match lines with
  | [] => (url, token)
  | line :: rest =>
    if bool_decide (strip_ws line <> []) && negb (starts_with (U "#") line)
    then
      match split_once 61%N (strip_ws line) with
      | None => (url, token)
      | Some (key, value) =>
        if text_eqb key (U "TEAMS_WORKFLOW_URL")
        then read_env_loop rest (Some value) token
        else if text_eqb key (U "TEAMS_OUTGOING_TOKEN") && unset token
        then read_env_loop rest url (Some value)
        else read_env_loop rest url token
      end
    else read_env_loop rest url token
  end.

(** [int(os.getenv(name, d))]. *)
Definition int_setting (v : option text) (d : Z) : result Z :=
  match v with
  | None => Ok d
  | Some s =>
    match py_int s with
    | Some z => Ok z
    | None => Raise (Exn OtherException
                       (U "invalid literal for int() with base 10"))
    end
  end.

Definition flag (v : option text) : bool := text_eqb (default (U "0") v) (U "1").

Section Load.
(** The two literals of lines 106 and 110 are credentials; they are
    parameters here. *)
Context (hardcoded_workflow_url hardcoded_outgoing_token : text).
Context (environ : Environ).

Definition or_default (v : option text) (d : text) : text :=
  if unset v then d else default [] v.

Definition load_config : result (gmap (list N) config_value) :=
  _ ← dotenv_prelude environ;
  ollama_timeout ← int_setting (getenv environ (U "OLLAMA_TIMEOUT")) 60%Z;
  port ← int_setting (getenv environ (U "PORT")) 5010%Z;
  max_files ← int_setting (getenv environ (U "ONEDRIVE_MAX_FILES")) 5%Z;
  let ollama_url :=
    or_default (getenv environ (U "OLLAMA_URL"))
               (U "http://localhost:11434/api/generate") in
  let ollama_model :=
    or_default (getenv environ (U "OLLAMA_MODEL")) (U "llama3") in
  let url := getenv environ (U "TEAMS_WORKFLOW_URL") in
  let token := getenv environ (U "TEAMS_OUTGOING_TOKEN") in
  let '(url, token) :=
    if unset url then read_env_loop (env_lines environ) url token
    else (url, token) in
  let url := or_default url hardcoded_workflow_url in
  let token := or_default token hardcoded_outgoing_token in
  Ok (list_to_map
        [(U "OLLAMA_URL", CStr ollama_url);
         (U "OLLAMA_MODEL", CStr ollama_model);
         (U "OLLAMA_TIMEOUT", CInt ollama_timeout);
         (U "TEAMS_OUTGOING_TOKEN", CStr token);
         (U "TEAMS_WORKFLOW_URL", CStr url);
         (U "HOST", CStr (default (U "0.0.0.0") (getenv environ (U "HOST"))));
         (U "PORT", CInt port);
         (U "DEBUG", CBool (flag (getenv environ (U "FLASK_DEBUG"))));
         (U "ONEDRIVE_SEARCH_ENABLED",
          CBool (flag (getenv environ (U "ONEDRIVE_SEARCH_ENABLED"))));
         (U "ONEDRIVE_SEARCH_DIR",
          CStr (default [] (getenv environ (U "ONEDRIVE_SEARCH_DIR"))));
         (U "ONEDRIVE_MAX_FILES", CInt max_files);
         (U "ONEDRIVE_FILE_TYPES",
          CList (parse_file_types
                   (default [] (getenv environ (U "ONEDRIVE_FILE_TYPES")))));
         (U "SKIP_VERIFICATION",
          CBool (flag (getenv environ (U "SKIP_VERIFICATION"))))]).

End Load.
End Config.

(** Vocabulary for stating properties of the configuration. *)
Module ConfigSpec.

(** A text that [strip()] leaves as it is and that has no comma. *)
Definition trimmed (s : text) : Prop := strip_ws s = s.
Definition comma_free (s : text) : Prop := Forall (fun c => c <> 44%N) s.

(** An extension as the search filter expects it: a dot, then the rest. *)
Definition extension (s : text) : Prop :=
  starts_with (U ".") s = true /\ trimmed s /\ comma_free s.

End ConfigSpec.

(** ** ollama_client.py *)
Module OllamaClient.
Import FileExtractor OneDriveSearch TeamsWebhook.

(** *** has_date_in_query *)

(** The loop over [query.split()]. *)
Fixpoint has_date_token_loop (words : list text)
  : bool * option (text * text * text) :=
  match words with
  | [] => (false, None)
  | word :: rest =>
    if str_isdigit word && (length word =? 8)%nat
    then
      let year := take 4 word in
      let month := take 2 (drop 4 word) in
      let day := take 2 (drop 6 word) in
      match py_int month with
      | None => has_date_token_loop rest
      | Some month_int =>
        match py_int day with
        | None => has_date_token_loop rest
        | Some day_int =>
          if ((1 <=? month_int) && (month_int <=? 12)
              && (1 <=? day_int) && (day_int <=? 31))%Z
          then (true, Some (year, month, day))
          else has_date_token_loop rest
        end
      end
    else has_date_token_loop rest
  end.

Definition has_date_in_query (query : text)
  : bool * option (text * text * text) :=
  match re_search japanese_date_re query with
  | Some m =>
    (true, Some (group m 1, zfill 2 (group m 2), zfill 2 (group m 3)))
  | None =>
    match re_search slash_date_re query with
    | Some m =>
      (true, Some (group m 1, zfill 2 (group m 2), zfill 2 (group m 3)))
    | None =>
      match re_search numeric_date_re query with
      | Some m => (true, Some (group m 1, group m 2, group m 3))
      | None => has_date_token_loop (split_ws query)
      end
    end
  end.

(** *** get_shortened_path *)

Definition get_shortened_path (path : text) : text :=
  match path with
  | [] => U "デフォルト検索ディレクトリ"
  | _ =>
    let sep := [backslash] in
    let path_parts := split_on backslash path in
    let general :=
      if (3 <? length path_parts)%nat
      then
        let first_part := default [] (path_parts !! 0%nat) in
        let first_part :=
          if contains (U ":") first_part
          then first_part ++ sep ++ default [] (path_parts !! 1%nat)
          else first_part in
        let last_parts := last_n 2 path_parts in
        first_part ++ sep ++ U "..." ++ sep
        ++ default [] (last_parts !! 0%nat) ++ sep
        ++ default [] (last_parts !! 1%nat)
      else path in
    if (50 <? length path)%nat
    then
      if contains (U "OneDrive") path
      then
        match re_search company_re path with
        | Some m =>
          let company := group m 1 in
          let short_company :=
            if (10 <? length company)%nat then take 10 company ++ U "..."
            else company in
          if (3 <? length path_parts)%nat
          then
            let last_parts := last_n 3 path_parts in
            U "OneDrive - " ++ short_company ++ sep ++ U "..." ++ sep
            ++ default [] (last_parts !! 0%nat) ++ sep
            ++ default [] (last_parts !! 1%nat) ++ sep
            ++ default [] (last_parts !! 2%nat)
          else general
        | None => general
        end
      else general
    else path
  end.

(** *** get_fallback_response *)

Definition ollama_description : text :=
  U "Ollamaは、大規模言語モデル（LLM）をローカル環境で実行するためのオープンソースフレームワークです。"
  ++ nl ++ nl
  ++ U "主な特徴:" ++ nl
  ++ U "1. ローカル実行: インターネット接続不要で自分のコンピュータ上でAIモデルを実行できます"
  ++ nl
  ++ U "2. 複数モデル対応: Llama2, Llama3, Mistral, Gemmaなど様々なモデルを利用できます"
  ++ nl
  ++ U "3. APIインターフェース: 他のアプリケーションから簡単に利用できるRESTful APIを提供します"
  ++ nl
  ++ U "4. 軽量設計: 一般的なハードウェアでも動作するよう最適化されています"
  ++ nl ++ nl
  ++ U "Ollamaを使うと、プライバシーを保ちながら、AI機能を様々なソフトウェアに統合できます。"
  ++ nl
  ++ U "詳細は公式サイト: https://ollama.ai/ をご覧ください。".

Definition get_fallback_response (query : text) (is_about_ollama : bool)
    (search_path : text) : text :=
  let short_path := get_shortened_path search_path in
  if is_about_ollama then ollama_description
  else if contains nippo query
  then
    match has_date_in_query query with
    | (true, Some (year, month, day)) =>
      year ++ U "年" ++ month ++ U "月" ++ day
      ++ U "日の日報データを取得できませんでした。サーバーの応答に問題があるか、該当する日報が検索ディレクトリ（"
      ++ short_path
      ++ U "）に存在しない可能性があります。時間をおいて再度お試しいただくか、システム管理者にお問い合わせください。"
    | _ =>
      U "日報データを取得できませんでした。具体的な日付（例：2024年10月26日、2024/10/26、20241026）を指定して再度お試しください。検索ディレクトリ: "
      ++ short_path
    end
  else
    U "「" ++ query
    ++ U "」についてのご質問ありがとうございます。ただいまOllamaサーバーの処理に時間がかかっています。少し時間をおいてから再度お試しいただくか、より具体的な質問を入力してください。".

(** *** generate_ollama_response *)

(** The search object as this module uses it: its directory and its
    [get_relevant_content] with the default limits. *)
Record search_handle : Type := {
  handle_base_directory : text;
  handle_relevant_content : text -> result text
}.

(** What [requests.post] to the model server does. *)
Inductive post_outcome : Type :=
| RaisedTimeout                        (* requests.exceptions.Timeout *)
| RaisedConnectionError        (* requests.exceptions.ConnectionError *)
| RaisedOther (e : exn)                (* any other exception *)
| Response (status : Z) (body : result json).   (* status_code, .json() *)

Record World : Type := {
  lower : text -> text;                                     (* str.lower *)
  requests_post : text -> json -> Z -> post_outcome;
  (* [str(e)] of the AttributeError or TypeError that a decoded value
     raises when it is used as a dict or as a string *)
  str_of_misuse : json -> text
}.

Definition found_marker : text := U "件の関連ファイルが見つかりました".

(** Lines 33 to 66: [(onedrive_context, search_path)]. *)
Definition search_context (clean_query : text)
    (onedrive_search : option search_handle) : text * text :=
  match onedrive_search, clean_query with
  | Some h, _ :: _ =>
    let search_path := handle_base_directory h in
    let short_path := get_shortened_path search_path in
    let onedrive_context :=
      match handle_relevant_content h clean_query with
      | Ok relevant_content =>
        if bool_decide (relevant_content <> [])
           && contains found_marker relevant_content
        then nl ++ nl ++ U "参考資料（OneDriveから取得 - " ++ short_path
             ++ U "）:" ++ nl ++ relevant_content
        else
          match has_date_in_query clean_query with
          | (true, Some (year, month, day)) =>
            let date_str := year ++ U "年" ++ month ++ U "月" ++ day ++ U "日" in
            nl ++ nl ++ U "注意: " ++ date_str
            ++ U "の日報は検索ディレクトリ（" ++ short_path
            ++ U "）から見つかりませんでした。"
          | _ =>
            nl ++ nl ++ U "注意: 関連する日報ファイルは検索ディレクトリ（"
            ++ short_path ++ U "）から見つかりませんでした。"
          end
      | Raise _ =>
        nl ++ nl
        ++ U "注意: OneDriveでの検索中にエラーが発生しました。検索パス: "
        ++ short_path
      end in
    (onedrive_context, search_path)
  | _, _ => ([], [])
  end.

Section Generate.
Context (w : World).

Definition is_about_ollama (clean_query : text) : bool :=
  contains (U "ollama") (lower w clean_query)
  && (contains (U "とは") clean_query || contains (U "什么") clean_query
      || contains (U "what") (lower w clean_query)).

Definition polite_head (clean_query : text) : text :=
  U "以下の質問に日本語で丁寧に回答してください。" ++ nl ++ nl
  ++ U "質問: " ++ clean_query ++ nl ++ nl.

(** Lines 72 to 134. *)
Definition build_prompt (clean_query onedrive_context search_path : text)
  : text :=
  if is_about_ollama clean_query
  then
    U "以下の質問に正確に回答してください。Ollamaはビデオ共有プラットフォームではなく、"
    ++ nl
    ++ U "大規模言語モデル（LLM）をローカル環境で実行するためのオープンソースフレームワークです。"
    ++ nl ++ nl
    ++ U "質問: " ++ clean_query ++ nl ++ nl
    ++ U "回答は以下のような正確な情報を含めてください:" ++ nl
    ++ U "- Ollamaは大規模言語モデルをローカルで実行するためのツール" ++ nl
    ++ U "- ローカルコンピュータでLlama、Mistral、Gemmaなどのモデルを実行できる"
    ++ nl
    ++ U "- プライバシーを保ちながらAI機能を利用できる" ++ nl
    ++ U "- APIを通じて他のアプリケーションから利用できる"
    ++ onedrive_context
  else if contains nippo clean_query
          && bool_decide (onedrive_context <> [])
          && contains found_marker onedrive_context
  then
    polite_head clean_query ++ onedrive_context ++ nl ++ nl
    ++ U "上記の参考資料を基に具体的に回答してください。特に日付や内容を明確に述べてください。"
    ++ nl
    ++ U "ファイルから抽出した情報を正確に使用し、日付、報告者、作業内容、時間などの情報を具体的に引用してください。"
    ++ nl
    ++ U "参考資料に示された情報のみを使用し、ない情報は「資料には記載がありません」と正直に答えてください。"
  else if contains nippo clean_query
          && negb (contains found_marker onedrive_context)
  then
    let short_path := get_shortened_path search_path in
    match has_date_in_query clean_query with
    | (true, Some (year, month, day)) =>
      polite_head clean_query
      ++ year ++ U "年" ++ month ++ U "月" ++ day
      ++ U "日の日報データは検索ディレクトリ（" ++ short_path
      ++ U "）から見つかりませんでした。" ++ nl
      ++ U "以下のいずれかの理由が考えられます：" ++ nl
      ++ U "1. 指定された日付の日報が存在しない" ++ nl
      ++ U "2. 検索可能な場所に保存されていない" ++ nl
      ++ U "3. ファイル名が通常と異なる形式で保存されている" ++ nl
      ++ U "4. アクセス権限の問題でファイルが見つけられない" ++ nl ++ nl
      ++ U "この日付の日報内容については情報がないため、お答えできません。別の日付をお試しいただくか、システム管理者にお問い合わせください。"
    | _ =>
      polite_head clean_query
      ++ U "ご質問の日報データは検索ディレクトリ（" ++ short_path
      ++ U "）から見つかりませんでした。具体的な日付（例：2024年10月26日、2024/10/26、20241026など）を指定すると検索できる可能性があります。"
      ++ nl
      ++ U "日報検索には、日付を含めた形で質問していただくとより正確に検索できます。"
    end
  else
    match onedrive_context with
    | [] => clean_query
    | _ =>
      polite_head clean_query ++ onedrive_context ++ nl ++ nl
      ++ U "上記の参考資料を基に質問に回答してください。ファイル内容から抽出された情報を正確に引用し、具体的に説明してください。"
      ++ nl
      ++ U "参考資料に関連情報がない場合は、あなたの知識を使って回答してください。"
    end.

Definition request_payload (ollama_model prompt : text) : json :=
  JDict [(U "model", JStr ollama_model);
         (U "prompt", JStr prompt);
         (U "stream", JBool false);
         (U "options",
          JDict [(U "num_predict", JNum (U "1024"));
                 (U "temperature", JNum (U "0.7"));
                 (U "top_k", JNum (U "40"));
                 (U "top_p", JNum (U "0.9"));
                 (U "num_ctx", JNum (U "4096"));
                 (U "seed", JNum (U "42"))])].

Definition no_answer : text :=
  U "申し訳ありませんが、回答を生成できませんでした。".
Definition no_valid_answer : text :=
  U "申し訳ありませんが、有効な回答を生成できませんでした。".

(** Lines 160 to 171: the text read from the decoded body; a body that
    is no dict, or a value that is no string, raises. *)
Definition read_answer (result : json) : Py.result text :=
  match result with
  | JDict items =>
    let generated_text :=
      match find (fun kv => text_eqb (fst kv) (U "response")) items with
      | Some kv => snd kv
      | None => JStr no_answer
      end in
    match generated_text with
    | JStr s =>
      Ok (match strip_ws s with [] => no_valid_answer | _ => s end)
    | v => Raise (Exn OtherException (str_of_misuse w v))
    end
  | v => Raise (Exn OtherException (str_of_misuse w v))
  end.

Definition error_text (e : exn) : text :=
  U "エラーが発生しました: " ++ exn_str e.

Definition clean_query_of (query : text) : text :=
  strip_ws (replace (U "ollama質問") [] query).

Definition generate_ollama_response (query ollama_url ollama_model : text)
    (ollama_timeout : Z) (onedrive_search : option search_handle) : text :=
  let clean_query := clean_query_of query in
  let '(onedrive_context, search_path) :=
    search_context clean_query onedrive_search in
  let about := is_about_ollama clean_query in
  let prompt := build_prompt clean_query onedrive_context search_path in
  let payload := request_payload ollama_model prompt in
  match requests_post w ollama_url payload ollama_timeout with
  | Response status body =>
    if (status =? 200)%Z
    then
      match (result ← body; read_answer result) with
      | Ok generated_text => generated_text
      | Raise e => error_text e
      end
    else get_fallback_response clean_query about search_path
  | RaisedTimeout | RaisedConnectionError =>
    get_fallback_response clean_query about search_path
  | RaisedOther e => error_text e
  end.

End Generate.
End OllamaClient.

(** ** async_processor.py: process_query_async *)
Module ProcessQuery.
Import FileExtractor OneDriveSearch TeamsWebhook OllamaClient.

(** The [teams_webhook] object: its URL and the peer behind it. *)
Record teams_webhook : Type := {
  webhook_url : text;
  webhook_web : Web
}.

Record Runtime : Type := {
  world : World;
  (* time.strftime('%Y年%m月%d日 %H:%M:%S') of the retry *)
  retry_strftime : result text;
  (* requests.post(url, json=payload, ...) of the retry *)
  retry_post : text -> json -> result (Z * text)
}.

(** What a run does that can be observed from outside, in order. *)
Inductive event : Type :=
| Generated (searched : bool) (response : text)
| PipInstall
| Sent (query response : text) (search_path : option text)
       (result : send_result) (attempts : list attempt)
| Retried (payload : json) (outcome : result (Z * text))
| RetryAbandoned (e : exn).

Definition apology : text :=
  U "申し訳ありません。有効な回答を生成できませんでした。しばらく経ってから再度お試しください。".

Definition pdf_unsupported : text :=
  U "PDFファイルからテキスト抽出がサポートされていない".

Definition retry_payload (clean_query response now : text) : json :=
  JDict [(U "text",
          JStr (U "### Ollama回答 (再送)" ++ nl ++ nl ++ U "**質問**: "
                ++ clean_query ++ nl ++ nl ++ response ++ nl ++ nl
                ++ U "*回答生成時刻: " ++ now ++ U "*"))].

Section Process.
Context (rt : Runtime).

(** Lines 83 to 124, for a webhook that is set. *)
Definition notify (hook : teams_webhook) (clean_query response : text)
    (search_path : option text) : list event :=
  let response :=
    if bool_decide (response = []) || (len (strip_ws response) <? 10)%Z
    then apology else response in
  let '(result, attempts) :=
    send_ollama_response (webhook_web hook) (webhook_url hook)
      clean_query response search_path in
  Sent clean_query response search_path result attempts
  :: (if text_eqb (status result) (U "success") then []
      else
        match retry_strftime rt with
        | Ok now =>
          let simple_payload := retry_payload clean_query response now in
          [Retried simple_payload
             (retry_post rt (webhook_url hook) simple_payload)]
        | Raise e => [RetryAbandoned e]
        end).

(** The body of the [try]; nothing in it raises, so the handler of the
    outer [except] is never entered. *)
Definition process_query_async (query_text : text)
    (ollama_url ollama_model : text) (ollama_timeout : Z)
    (hook : option teams_webhook) (onedrive_search : option search_handle)
  : list event :=
  let clean_query := strip_ws (replace (U "ollama質問") [] query_text) in
  let use_onedrive :=
    match onedrive_search with
    | Some _ => negb (contains (U "onedrive") (lower (world rt) clean_query))
    | None => false
    end in
  let search_path := handle_base_directory <$> onedrive_search in
  let response :=
    generate_ollama_response (world rt) query_text ollama_url ollama_model
      ollama_timeout (if use_onedrive then onedrive_search else None) in
  [Generated use_onedrive response]
  ++ (if contains pdf_unsupported response
         && bool_decide (is_Some onedrive_search)
      then [PipInstall] else [])
  ++ match hook with
     | Some h => notify h clean_query response search_path
     | None => []
     end.

End Process.
End ProcessQuery.

(** Vocabulary for stating properties of one run of the worker. *)
Module ProcessSpec.
Import TeamsWebhook OllamaClient ProcessQuery.

Definition is_sent (e : event) : bool :=
  match e with Sent _ _ _ _ _ => true | _ => false end.

Definition is_retry (e : event) : bool :=
  match e with Retried _ _ => true | _ => false end.

(** The POSTs to the workflow URL that an event stands for. *)
Definition posts_of (e : event) : nat :=
  match e with
  | Sent _ _ _ _ attempts => length attempts
  | Retried _ _ => 1
  | _ => 0
  end.

Definition workflow_posts (events : list event) : nat :=
  list_sum (map posts_of events).

(** Some attempt of the list was answered with a 2xx status. *)
Definition delivered (attempts : list attempt) : bool :=
  existsb (fun a => response_ok (snd a)) attempts.

(** The search object as the model client is handed it: its directory
    and [get_relevant_content] with the default limits. *)
Definition handle_of (repr_str : text -> text) (env : OneDriveSearch.Env)
    (self : OneDriveSearch.OneDriveSearch) : search_handle :=
  {| handle_base_directory := OneDriveSearch.base_directory self;
     handle_relevant_content := fun query =>
       Ok (OneDriveSearch.get_relevant_content repr_str env self query
             None 8000).1 |}.

End ProcessSpec.

(** A model server that is down, a search that found one report, and a
    search that raises. *)
Module OllamaDemo.
Import FileExtractor OneDriveSearch TeamsWebhook OllamaClient ProcessQuery.

Definition demo_world : World :=
  {| lower := fun s => s;
     requests_post := fun _ _ _ => RaisedConnectionError;
     str_of_misuse := fun _ => [] |}.

Definition demo_directory : text := U "C:\reports".

Definition demo_material : text :=
  found_header 1 ++ U "=== ファイル 1: 20241026.txt ===" ++ nl.

Definition demo_handle : search_handle :=
  {| handle_base_directory := demo_directory;
     handle_relevant_content := fun _ => Ok demo_material |}.

Definition failing_handle : search_handle :=
  {| handle_base_directory := demo_directory;
     handle_relevant_content := fun _ => Raise (Exn OtherException []) |}.

Definition demo_runtime : Runtime :=
  {| world := demo_world;
     retry_strftime := Ok (U "2024年10月26日 09:00:00");
     retry_post := fun _ _ => Ok (200%Z, []) |}.

(** An environment with no variable set and no .env file, and stand-ins
    for the two literals of the source. *)
Definition quiet_environ : Config.Environ :=
  {| Config.dotenv_prelude := Ok ();
     Config.getenv := fun _ => None;
     Config.env_lines := [] |}.

Definition stand_in_url : text := U "https://example.invalid/workflow".
Definition stand_in_token : text := U "secret".

(** The configuration loaded from it. *)
Definition quiet_config : gmap (list N) TeamsAuth.config_value :=
  match Config.load_config stand_in_url stand_in_token quiet_environ with
  | Ok config => config
  | Raise _ => ∅
  end.

End OllamaDemo.

(** ** main.py and OneDriveSearch.__init__: the search directory *)
Module Main.
Import FileExtractor OneDriveSearch.

(** The machine as the start-up code sees it. *)
Record Host : Type := {
  exists_path : text -> bool;            (* os.path.exists *)
  env_username : text;                   (* os.getenv("USERNAME", "owner") *)
  expanduser : text -> text              (* os.path.expanduser *)
}.

Section Startup.
Context (h : Host).

(** The loops [for path in paths: if os.path.exists(path): ...; break]:
    the first path that exists, or the value the variable had. *)
Fixpoint first_existing (paths : list text) (current : text) : text :=
  match paths with
  | [] => current
  | p :: rest => if exists_path h p then p else first_existing rest current
  end.

(** main.py, lines 88 to 96. *)
Definition alt_paths : list text :=
  [U "C:\Users\" ++ env_username h ++ U "\OneDrive\日報";
   U "C:\Users\" ++ env_username h ++ U "\OneDrive\report";
   U "C:\Users\" ++ env_username h
     ++ U "\OneDrive - 株式会社　共立電機製作所\日報";
   U "C:\Users\" ++ env_username h
     ++ U "\OneDrive - 株式会社　共立電機製作所\共立電機\019.総務部\日報"].

(** main.py, lines 75 to 116: the [base_directory] handed to
    [OneDriveSearch], [None] for an empty setting. *)
Definition search_directory (configured : text) : option text :=
  match configured with
  | [] => None
  | _ =>
    if exists_path h configured then Some configured
    else
      let base_directory := first_existing alt_paths configured in
      if negb (exists_path h base_directory)
      then
        let onedrive_root := expanduser h (U "~/OneDrive") in
        if exists_path h onedrive_root then Some onedrive_root
        else Some (expanduser h (U "~"))
      else Some base_directory
  end.

(** onedrive_search.py, lines 32 to 39. *)
Definition init_alt_paths : list text :=
  [expanduser h (U "~/OneDrive - Company");
   expanduser h (U "~/OneDrive - Personal");
   U "C:\Users\" ++ env_username h ++ U "\OneDrive";
   U "D:\OneDrive";
   U "C:\Users\" ++ env_username h
     ++ U "\OneDrive - 株式会社　共立電機製作所"].

(** [self.onedrive_root] after lines 25 to 44. *)
Definition onedrive_root : text :=
  let root := expanduser h (U "~/OneDrive") in
  if negb (exists_path h root) then first_existing init_alt_paths root
  else root.

(** [OneDriveSearch(base_directory, file_types, max_results)] with the
    extractor it creates. *)
Definition init (base_directory : option text)
    (file_types : option (list text)) (max_results : Z)
    (extractor : FileExtractor) : OneDriveSearch.OneDriveSearch :=
  {| base_directory :=
       match base_directory with
       | Some (c :: d) => c :: d
       | _ => onedrive_root
       end;
     OneDriveSearch.file_types :=
       match file_types with
       | Some (t :: ts) => t :: ts
       | _ => []
       end;
     OneDriveSearch.max_results := max_results;
     search_cache := ∅;
     file_extractor := extractor;
     walk_count := 0 |}.

(** The search object that main.py creates, lines 75 to 123. *)
Definition startup_search (configured : text) (file_types : list text)
    (max_files : Z) (extractor : FileExtractor)
  : OneDriveSearch.OneDriveSearch :=
  init (search_directory configured) (Some file_types) max_files extractor.

End Startup.
End Main.
(** * Properties *)

(** ** Facts about the text functions *)
Module TextProofs.
Import TextSpec.

Lemma drop_while_head {A} (p : A -> bool) l x :
  head (drop_while p l) = Some x -> p x = false.
Proof.
  induction l as [|y l IH]; simpl; [done|].
  destruct (p y) eqn:E; [exact IH|]. simpl. by intros [= <-].
Qed.

Lemma drop_while_id {A} (p : A -> bool) l :
  (forall x, head l = Some x -> p x = false) -> drop_while p l = l.
Proof.
  destruct l as [|y l]; [done|]. simpl. intros H. by rewrite (H y eq_refl).
Qed.

Lemma drop_while_split {A} (p : A -> bool) l :
  exists k, l = k ++ drop_while p l /\ forallb p k = true.
Proof.
  induction l as [|y l (k & Hk & Hp)]; simpl; [by exists []|].
  destruct (p y) eqn:E.
  - exists (y :: k). simpl. rewrite E, Hp. split; [by f_equal|done].
  - by exists [].
Qed.

Lemma head_rev {A} (l : list A) : head (rev l) = last l.
Proof.
  induction l as [|x l IH]; [done|]. simpl.
  destruct l as [|y l]; [done|].
  change (last (x :: y :: l)) with (last (y :: l)). rewrite <- IH.
  simpl. by destruct (rev l ++ [y]) eqn:E; [destruct (rev l); discriminate E|].
Qed.

Lemma last_rev {A} (l : list A) : last (rev l) = head l.
Proof. rewrite <- head_rev. by rewrite rev_involutive. Qed.

(** [strip()] leaves no white space at either end. *)
Lemma strip_ws_head s c : head (strip_ws s) = Some c -> isspace c = false.
Proof.
  unfold strip_ws. rewrite head_rev.
  destruct (drop_while_split isspace (rev (drop_while isspace s)))
    as (k & Hk & _).
  intros Hlast.
  apply (drop_while_head isspace s).
  rewrite <- last_rev, Hk, last_app, Hlast. done.
Qed.

Lemma strip_ws_last s c : last (strip_ws s) = Some c -> isspace c = false.
Proof. unfold strip_ws. rewrite last_rev. apply drop_while_head. Qed.

Lemma strip_ws_fixed s :
  (forall c, head s = Some c -> isspace c = false) ->
  (forall c, last s = Some c -> isspace c = false) ->
  strip_ws s = s.
Proof.
  intros Hh Hl. unfold strip_ws.
  rewrite (drop_while_id isspace s Hh).
  rewrite (drop_while_id isspace (rev s)); [apply rev_involutive|].
  intros c. rewrite head_rev. apply Hl.
Qed.

Lemma strip_ws_idem s : strip_ws (strip_ws s) = strip_ws s.
Proof. apply strip_ws_fixed; [apply strip_ws_head|apply strip_ws_last]. Qed.

Lemma drop_while_Forall {A} (P : A -> Prop) (p : A -> bool) l :
  Forall P l -> Forall P (drop_while p l).
Proof.
  induction 1 as [|x l Hx Hl IH]; simpl; [constructor|].
  destruct (p x); [done|by constructor].
Qed.

Lemma strip_ws_Forall (P : char -> Prop) s :
  Forall P s -> Forall P (strip_ws s).
Proof.
  intros H. unfold strip_ws.
  apply Forall_rev, drop_while_Forall, Forall_rev, drop_while_Forall, H.
Qed.

(** The pieces of a split do not hold the separator. *)
Lemma split_on_aux_free sep s :
  forall cur, Forall (fun c => c <> sep) cur ->
  Forall (Forall (fun c => c <> sep)) (split_on_aux sep cur s).
Proof.
  induction s as [|c s IH]; intros cur Hcur; simpl.
  - repeat constructor. by apply Forall_rev.
  - destruct (c =? sep)%N eqn:E.
    + constructor; [by apply Forall_rev|]. by apply IH.
    + apply IH. constructor; [|done]. by apply N.eqb_neq.
Qed.

Lemma split_on_free sep s :
  Forall (Forall (fun c => c <> sep)) (split_on sep s).
Proof. by apply split_on_aux_free. Qed.

Lemma split_on_aux_run sep x rest :
  Forall (fun c => c <> sep) x ->
  forall cur, split_on_aux sep cur (x ++ rest)
              = split_on_aux sep (rev x ++ cur) rest.
Proof.
  induction 1 as [|c x Hc Hx IH]; intros cur; [done|].
  simpl. apply N.eqb_neq in Hc. rewrite Hc, IH. by rewrite <- app_assoc.
Qed.

Lemma split_on_aux_join sep xs :
  forall x cur,
  Forall (Forall (fun c => c <> sep)) (x :: xs) ->
  split_on_aux sep cur (join [sep] (x :: xs)) = (rev cur ++ x) :: xs.
Proof.
  induction xs as [|y xs IH]; intros x cur H.
  - apply Forall_inv in H. simpl.
    rewrite <- (app_nil_r x) at 1. rewrite split_on_aux_run by done.
    simpl. by rewrite rev_app_distr, rev_involutive.
  - apply Forall_cons in H as [Hx H].
    change (join [sep] (x :: y :: xs)) with (x ++ sep :: join [sep] (y :: xs)).
    rewrite split_on_aux_run by done.
    cbn [split_on_aux]. rewrite N.eqb_refl.
    rewrite rev_app_distr, rev_involutive. f_equal.
    by rewrite IH.
Qed.

(** Splitting what [join] put together gives the parts back. *)
Lemma split_on_join sep x xs :
  Forall (Forall (fun c => c <> sep)) (x :: xs) ->
  split_on sep (join [sep] (x :: xs)) = x :: xs.
Proof. intros H. unfold split_on. by rewrite split_on_aux_join. Qed.

Lemma map_fixed {A} (f : A -> A) l :
  Forall (fun x => f x = x) l -> map f l = l.
Proof. induction 1 as [|x l Hx Hl IH]; simpl; [done|]. by rewrite Hx, IH. Qed.

Lemma join_nonempty sep x xs : x <> [] -> join sep (x :: xs) <> [].
Proof. destruct x; [done|]. by destruct xs. Qed.

Lemma nonblank_app_l a b : nonblank a = true -> nonblank (a ++ b) = true.
Proof. unfold nonblank. rewrite existsb_app. by intros ->. Qed.

Lemma nonblank_app_r a b : nonblank b = true -> nonblank (a ++ b) = true.
Proof. unfold nonblank. rewrite existsb_app. intros ->. apply orb_true_r. Qed.

Lemma nonblank_drop_while s :
  nonblank (drop_while isspace s) = nonblank s.
Proof.
  induction s as [|c s IH]; [done|]. simpl.
  destruct (isspace c) eqn:E; [by rewrite IH|]. simpl. by rewrite E.
Qed.

Lemma nonblank_rev s : nonblank (rev s) = nonblank s.
Proof.
  unfold nonblank. induction s as [|c s IH]; [done|].
  simpl. rewrite existsb_app, IH. simpl. rewrite orb_false_r. apply orb_comm.
Qed.

(** [strip()] keeps a text that is not blank from becoming empty. *)
Lemma nonblank_strip s : nonblank (strip_ws s) = nonblank s.
Proof.
  unfold strip_ws.
  by rewrite nonblank_rev, nonblank_drop_while, nonblank_rev,
             nonblank_drop_while.
Qed.

Lemma strip_ws_nonblank s : nonblank s = true -> strip_ws s <> [].
Proof.
  intros H E. rewrite <- nonblank_strip, E in H. discriminate H.
Qed.

Lemma nonblank_of_strip s : strip_ws s <> [] -> nonblank s = true.
Proof.
  intros H. rewrite <- nonblank_strip.
  destruct (strip_ws s) as [|c t] eqn:E; [done|].
  simpl. by rewrite (strip_ws_head s c) by (by rewrite E).
Qed.

Ltac nonblank_lit :=
  repeat first
    [ apply nonblank_app_l; by vm_compute
    | apply nonblank_app_r ].

Lemma starts_with_prefix p s : starts_with p (p ++ s) = true.
Proof.
  induction p as [|c p IH]; [done|]. simpl. by rewrite N.eqb_refl, IH.
Qed.

Lemma starts_with_app_l p a b :
  starts_with p a = true -> starts_with p (a ++ b) = true.
Proof.
  revert a. induction p as [|c p IH]; intros [|d a] H; simpl in *;
    try done.
  apply andb_true_iff in H as [-> H]. by apply IH.
Qed.

Lemma contains_app_l p a b :
  contains p a = true -> contains p (a ++ b) = true.
Proof.
  induction a as [|d a IH].
  - simpl. rewrite orb_false_r. destruct p; [|done]. intros _. by destruct b.
  - change (contains p (d :: a))
      with (starts_with p (d :: a) || contains p a).
    change (contains p ((d :: a) ++ b))
      with (starts_with p ((d :: a) ++ b) || contains p (a ++ b)).
    intros [H|H]%orb_true_iff.
    + by rewrite (starts_with_app_l p (d :: a) b H).
    + rewrite (IH H). apply orb_true_r.
Qed.

Lemma contains_app_r p a b :
  contains p b = true -> contains p (a ++ b) = true.
Proof.
  intros H. induction a as [|d a IH]; [done|].
  change (contains p ((d :: a) ++ b))
    with (starts_with p ((d :: a) ++ b) || contains p (a ++ b)).
  rewrite IH. apply orb_true_r.
Qed.

Lemma contains_prefix p s : contains p (p ++ s) = true.
Proof.
  destruct p as [|c p]; [by destruct s|].
  change (contains (c :: p) ((c :: p) ++ s))
    with (starts_with (c :: p) ((c :: p) ++ s) || contains (c :: p) (p ++ s)).
  by rewrite starts_with_prefix.
Qed.

Lemma contains_refl p : contains p p = true.
Proof. rewrite <- (app_nil_r p) at 2. apply contains_prefix. Qed.

Ltac find_part :=
  repeat first
    [ apply contains_refl
    | apply contains_prefix
    | apply contains_app_r ].

End TextProofs.

(** ** Date recognition (async_processor.py) *)
Module AsyncProcessorProofs.

Lemma char_eqb_refl c : char_eqb c c = true.
Proof. apply N.eqb_refl. Qed.

Lemma char_eqb_eq c d : char_eqb c d = true -> d = c.
Proof. intros H. symmetry. by apply N.eqb_eq. Qed.

Lemma isdecimal_gatsu : isdecimal c_gatsu = false.
Proof. reflexivity. Qed.

Lemma isdecimal_nichi : isdecimal c_nichi = false.
Proof. reflexivity. Qed.

Lemma isdecimal_nen : isdecimal c_nen = false.
Proof. reflexivity. Qed.

Lemma all_decimal_cons c s :
  all_decimal (c :: s) -> isdecimal c = true /\ all_decimal s.
Proof. intros H. by inversion H. Qed.

Lemma all_decimal_check s : forallb isdecimal s = true -> all_decimal s.
Proof. intros H. apply Forall_forall. intros c Hc.
  rewrite forallb_forall in H. apply H. by apply list_elem_of_In. Qed.

(** Case analysis on every list and test a matcher run inspects. *)
Ltac crack H :=
  repeat (match type of H with
          | context [match ?s with [] => _ | _ :: _ => _ end] =>
              is_var s; destruct s
          | context [if ?b then _ else _] => destruct b eqn:?
          end; cbn in H; try discriminate H).

Ltac literals :=
  repeat match goal with
  | H : char_eqb _ _ = true |- _ => apply char_eqb_eq in H; subst
  end.

Ltac absurd_decimal :=
  exfalso;
  match goal with
  | H : isdecimal c_gatsu = true |- _ => rewrite isdecimal_gatsu in H
  | H : isdecimal c_nichi = true |- _ => rewrite isdecimal_nichi in H
  | H : isdecimal c_nen = true |- _ => rewrite isdecimal_nen in H
  end; discriminate.

Ltac decimals :=
  repeat match goal with
  | H : all_decimal (_ :: _) |- _ =>
      apply all_decimal_cons in H; destruct H as [? H]
  end.

Ltac one_or_two m H :=
  destruct H as [H|H];
  [ destruct m as [|? [|]]; try discriminate H
  | destruct m as [|? [|? [|]]]; try discriminate H ].

(** The pattern of style 1 matches at a position exactly when a long-form
    phrase begins there, and its groups are the fields of the phrase. *)
Lemma japanese_match_complete prev y m d post :
  is_year y -> is_md m -> is_md d ->
  match_here japanese_date_re prev (long_form_phrase y m d ++ post)
  = Some [y; m; d].
Proof.
  intros [Hy Dy] [Hm Dm] [Hd Dd].
  destruct y as [|y1 [|y2 [|y3 [|y4 [|]]]]]; try discriminate Hy.
  one_or_two m Hm; one_or_two d Hd; decimals;
    unfold long_form_phrase, match_here; cbn;
    repeat match goal with
           | H : isdecimal _ = true |- _ => rewrite H; clear H
           end;
    rewrite ?char_eqb_refl, ?isdecimal_gatsu, ?isdecimal_nichi; cbn;
    rewrite ?char_eqb_refl, ?isdecimal_gatsu, ?isdecimal_nichi; cbn;
    reflexivity.
Qed.

Lemma japanese_match_sound prev s caps :
  match_here japanese_date_re prev s = Some caps ->
  exists y m d post,
    s = long_form_phrase y m d ++ post /\ is_year y /\ is_md m /\ is_md d
    /\ caps = [y; m; d].
Proof.
  unfold match_here. cbn. intros H.
  crack H; literals; try absurd_decimal;
    match type of H with
    | Some [?y; ?m; ?d] = Some _ => exists y, m, d
    end;
    eexists; (split; [reflexivity|]);
    injection H as <-;
    unfold is_year, is_md, all_decimal;
    repeat split; auto.
Qed.

(** [re.search] passes over a prefix in which no attempt succeeds. *)
Lemma search_from_skip r pre s caps :
  forall prev,
  (forall j p, (j < length pre)%nat ->
               match_here r p (drop j (pre ++ s)) = None) ->
  (forall p, match_here r p s = Some caps) ->
  search_from r prev (pre ++ s) = Some caps.
Proof.
  induction pre as [|c pre IH]; intros prev Hnone Hsome.
  - destruct s; simpl; by rewrite Hsome.
  - pose proof (Hnone 0%nat prev ltac:(simpl; lia)) as H0.
    simpl in *. rewrite H0.
    apply IH; [|done]. intros j p Hj. apply (Hnone (S j)). simpl; lia.
Qed.

Lemma no_phrase_before_check q i :
  forallb (fun j => negb (bool_decide
     (is_Some (match_here japanese_date_re None (drop j q))))) (seq 0 i)
  = true ->
  forall j y m d, (j < i)%nat -> ~ phrase_at q j y m d.
Proof.
  intros Hall j y m d Hj (Hy & Hm & Hd & post & Hq).
  rewrite forallb_forall in Hall. specialize (Hall j).
  rewrite Hq, (japanese_match_complete _ y m d post) in Hall by done.
  assert (In j (seq 0 i)) as Hin by (apply in_seq; lia).
  apply Hall in Hin. rewrite bool_decide_true in Hin; [done|by eexists].
Qed.

(** C7. Style 1 is tried first and the first match wins: when a long-form
    phrase YYYY年M月D日 begins at index [i] of the query and none begins
    earlier, that phrase is the date extracted, zero-padded and labelled
    with the long-form style, whatever else the query contains (an
    8-digit numeral before or after it in particular). *)
Theorem extract_date_long_form_wins (q : text) (i : nat) (y m d : text) :
  phrase_at q i y m d ->
  (forall j y' m' d', (j < i)%nat -> ~ phrase_at q j y' m' d') ->
  extract_date_from_query q
  = Some (y, zfill 2 m, zfill 2 d, fmt_japanese).
Proof.
  intros (Hy & Hm & Hd & post & Hq) Hfirst.
  assert (i <= length q)%nat as Hi.
  { destruct (decide (i <= length q)%nat) as [|Hn]; [done|].
    rewrite drop_ge in Hq by lia.
    destruct y; [destruct Hy; discriminate | discriminate Hq]. }
  unfold extract_date_from_query, re_search.
  rewrite <- (take_drop i q) at 1. rewrite Hq.
  rewrite (search_from_skip _ _ _ [y; m; d]); [reflexivity| |].
  - intros j p Hj. rewrite length_take in Hj.
    destruct (match_here japanese_date_re p _) as [caps|] eqn:E; [|done].
    apply japanese_match_sound in E
      as (y' & m' & d' & post' & E & Hy' & Hm' & Hd' & _).
    exfalso. apply (Hfirst j y' m' d'); [lia|].
    split; [done|]. split; [done|]. split; [done|]. exists post'.
    by rewrite <- E, <- Hq, take_drop.
  - intros p. by apply japanese_match_complete.
Qed.

(** Witness for C7: an 8-digit numeral that style 3 would accept stands
    before the long-form phrase, and the phrase is what is extracted. *)
Lemma extract_date_long_form_wins_witness :
  re_search numeric_date_re (U "20230101 2024年1月5日の日報")
  = Some [U "2023"; U "01"; U "01"] /\
  extract_date_from_query (U "20230101 2024年1月5日の日報")
  = Some (U "2024", U "01", U "05", fmt_japanese).
Proof.
  split; [by vm_compute|].
  apply (extract_date_long_form_wins (U "20230101 2024年1月5日の日報") 9
           (U "2024") (U "1") (U "5")).
  - split; [split; [by vm_compute | apply all_decimal_check; by vm_compute]|].
    split; [split; [left; by vm_compute
                   | apply all_decimal_check; by vm_compute]|].
    split; [split; [left; by vm_compute
                   | apply all_decimal_check; by vm_compute]|].
    exists (U "の日報"). by vm_compute.
  - apply no_phrase_before_check. by vm_compute.
Defined.

(** C8 (the code departs from the claim). The scan of style 3 comes first
    and has no range test, so the single token 20241332 is reported as a
    date with month 13 and day 32, although the token loop of style 4
    rejects the same token; 20241026 is reported as (2024, 10, 26). *)
Theorem extract_date_unvalidated_token :
  extract_date_from_query (U "20241332")
  = Some (U "2024", U "13", U "32", fmt_numeric) /\
  token_date_loop (split_ws (U "20241332")) = None /\
  extract_date_from_query (U "20241026")
  = Some (U "2024", U "10", U "26", fmt_numeric).
Proof. repeat split; by vm_compute. Qed.

End AsyncProcessorProofs.

(** ** Content extraction (file_extractor.py) *)
Module FileExtractorProofs.
Import FileExtractor ExtractorSpec.

Lemma starts_with_app p s : starts_with p (p ++ s) = true.
Proof.
  induction p as [|c p IH]; [done|]. simpl. by rewrite N.eqb_refl, IH.
Qed.

Lemma labels_nonempty l : In l output_labels -> l <> [].
Proof.
  assert (forallb (fun l => negb (bool_decide (l = []))) output_labels
          = true) as H by (by vm_compute).
  rewrite forallb_forall in H. intros Hin. specialize (H l Hin).
  apply negb_true_iff, bool_decide_eq_false in H. exact H.
Qed.

Lemma good_label (l s : text) : In l output_labels -> good (Ok (l ++ s)).
Proof.
  intros Hin. exists (l ++ s). split; [done|]. split.
  - pose proof (labels_nonempty l Hin). destruct l; [done|discriminate].
  - unfold labelled. apply existsb_exists. exists l.
    split; [done|apply starts_with_app].
Qed.

(** Close a goal whose output begins with label number [i]. *)
Tactic Notation "label" integer(i) :=
  rewrite <- ?app_assoc;
  apply good_label; unfold output_labels;
  do i (apply in_cons); apply in_eq.

Section Extract.
Context (os : OS) (self : FileExtractor).

Lemma _get_file_info_label file_path :
  exists rest, _get_file_info os file_path = U "ファイル名: " ++ rest.
Proof.
  unfold _get_file_info.
  destruct (os_stat os file_path) as [[sz mt]|e]; simpl; [|by eexists].
  destruct (strftime os _ mt); simpl; by eexists.
Qed.

Lemma good_file_info file_path s :
  good (Ok (_get_file_info os file_path ++ s)).
Proof.
  destruct (_get_file_info_label file_path) as [rest ->]. label 1.
Qed.

Lemma good_fallback label file_path :
  good (extract_fallback os label file_path (_get_file_info os file_path)).
Proof.
  unfold extract_fallback, try_except.
  destruct (powershell_report os label file_path) as [[out err]|e]; simpl;
    apply good_file_info.
Qed.

Lemma good_extract_text file_path : good (_extract_text os file_path).
Proof.
  unfold _extract_text, try_except.
  generalize [U "utf-8"; U "shift-jis"; U "cp932"; U "euc-jp";
              U "iso-2022-jp"].
  intros encodings.
  assert (forall r, (good r \/ exists e, r = Raise e) ->
            good match r with
                 | Ok a => Ok a
                 | Raise e => Ok (U "テキストファイル読み込みエラー: " ++ exn_str e)
                 end) as Hwrap.
  { intros r [H|[e ->]]; [destruct H as (s & -> & H); by exists s|]. label 4. }
  apply Hwrap.
  induction encodings as [|enc rest IH]; simpl.
  - destruct (read_text os file_path _); simpl;
      [left; apply good_file_info | right; by eexists].
  - destruct (read_text os file_path enc) as [c|e];
      [left; apply good_file_info|].
    destruct (exn_cls e); [right; by eexists | apply IH | right; by eexists].
Qed.

Lemma good_extract_pdf file_path : good (_extract_pdf os self file_path).
Proof.
  unfold _extract_pdf, _extract_pdf_fallback.
  destruct (imports_pdf self); [|apply good_fallback].
  destruct (open_pdf os file_path) as [reader|e]; simpl;
    [|apply good_fallback].
  destruct (pdf_page_lines _ _); simpl;
    [apply good_file_info | apply good_fallback].
Qed.

Lemma good_extract_docx file_path : good (_extract_docx os self file_path).
Proof.
  unfold _extract_docx, _extract_docx_fallback.
  destruct (imports_docx self); [|apply good_fallback].
  destruct (open_docx os file_path) as [doc|e]; simpl;
    [apply good_file_info | apply good_fallback].
Qed.

Lemma good_extract_xlsx file_path : good (_extract_xlsx os self file_path).
Proof.
  unfold _extract_xlsx, _extract_xlsx_fallback.
  destruct (imports_xlsx self); [|apply good_fallback].
  destruct (open_xlsx os file_path) as [book|e]; simpl;
    [|apply good_fallback].
  destruct (xlsx_sheet_lines _ _); simpl;
    [apply good_file_info | apply good_fallback].
Qed.

Lemma good_extract_pptx file_path : good (_extract_pptx os self file_path).
Proof.
  unfold _extract_pptx, _extract_pptx_fallback.
  destruct (imports_pptx self); [|apply good_fallback].
  destruct (open_pptx os file_path) as [slides|e]; simpl;
    [apply good_file_info | apply good_fallback].
Qed.

(** C3. Whatever the operating system and the parser libraries answer
    (missing file, more than 100 MiB, no read access, a parser or a read
    that raises, an unknown extension), [extract_file_content] returns
    normally, and what it returns is a non-empty text that begins with one
    of the labels of the extractor: a file-information header, a quoted
    file name with its message, or an error or unsupported-format label. *)
Theorem extract_file_content_total (file_path : text) :
  exists s, extract_file_content os self file_path = Ok s
            /\ s <> [] /\ labelled s = true.
Proof.
  change (good (extract_file_content os self file_path)).
  unfold extract_file_content, try_except, quote_name.
  destruct (path_exists os file_path); simpl; [|label 0].
  destruct (path_getsize os file_path) as [file_size|e]; simpl.
  2: { destruct (exn_cls e); [label 0 | label 3 | label 3]. }
  destruct (100 * 1024 * 1024 <? file_size)%Z; [label 0|].
  destruct (access_read os file_path); simpl; [|label 0].
  assert (forall r, good r ->
            good match r with
                 | Ok a => Ok a
                 | Raise e =>
                   match exn_cls e with
                   | PermissionError =>
                     Ok ((U "ファイル '" ++ path_basename os file_path ++ U "' ")
                         ++ U "へのアクセス権限がありません。システム管理者に確認してください。")
                   | _ => Ok (U "ファイル抽出エラー: " ++ exn_str e)
                   end
                 end) as Hwrap.
  { intros r (s & -> & H). by exists s. }
  destruct (text_eqb _ (U ".pdf")); [apply Hwrap, good_extract_pdf|].
  destruct (text_eqb _ (U ".docx")); [apply Hwrap, good_extract_docx|].
  destruct (text_eqb _ (U ".xlsx")); [apply Hwrap, good_extract_xlsx|].
  destruct (text_eqb _ (U ".pptx")); [apply Hwrap, good_extract_pptx|].
  match goal with
  | |- context [if ?c then _extract_text _ _ else _] => destruct c
  end; [apply Hwrap, good_extract_text|].
  label 2.
Qed.

End Extract.
End FileExtractorProofs.

(** ** The pages of a PDF (file_extractor.py) *)
Module PageProofs.
Import FileExtractor.

Lemma pdf_page_lines_late pages :
  forall i, (10 <= i)%nat -> pdf_page_lines i pages = Ok [].
Proof.
  induction pages as [|page rest IH]; intros i Hi; [done|].
  cbn [pdf_page_lines]. apply Nat.ltb_ge in Hi as Hb. rewrite Hb.
  apply IH. lia.
Qed.

Lemma pdf_page_lines_take pages :
  forall i, pdf_page_lines i pages = pdf_page_lines i (take (10 - i) pages).
Proof.
  induction pages as [|page rest IH]; intros i; [by rewrite take_nil|].
  destruct (10 - i)%nat as [|k] eqn:Hk.
  - rewrite take_0. apply pdf_page_lines_late. lia.
  - cbn [take pdf_page_lines].
    assert ((i <? 10)%nat = true) as -> by (apply Nat.ltb_lt; lia).
    rewrite (IH (S i)). by replace (10 - S i)%nat with k by lia.
Qed.

Lemma pdf_page_lines_length pages :
  forall i lines, pdf_page_lines i pages = Ok lines ->
  (length lines <= 2 * (10 - i))%nat.
Proof.
  induction pages as [|page rest IH]; intros i lines.
  - intros [= <-]. simpl. lia.
  - cbn [pdf_page_lines]. destruct (i <? 10)%nat eqn:Hi.
    + apply Nat.ltb_lt in Hi.
      destruct page as [t|e]; [|done]. cbn [mbind result_bind Py.bind].
      destruct (pdf_page_lines (S i) rest) as [more|e] eqn:E; [|done].
      cbn [mbind mret result_bind result_ret Py.bind].
      specialize (IH (S i) more E).
      destruct t; intros [= <-]; simpl; lia.
    + intros H. apply IH in H. lia.
Qed.

(** X18. Only the first ten pages of a PDF are read: the page lines
    are those of its first ten pages, a later page is never extracted, so
    an exception it would raise is not seen, and at most twenty lines come
    from the pages. *)
Theorem pdf_pages_first_ten (pages : list (result text)) :
  pdf_page_lines 0 pages = pdf_page_lines 0 (take 10 pages)
  /\ (forall lines, pdf_page_lines 0 pages = Ok lines ->
                    (length lines <= 20)%nat).
Proof.
  split; [apply pdf_page_lines_take|].
  intros lines H. apply pdf_page_lines_length in H. lia.
Qed.

Lemma concat_imap_nil {A B} (f : nat -> A -> list B) l :
  (forall i x, f i x = []) -> concat (imap f l) = [].
Proof.
  revert f. induction l as [|x l IH]; intros f Hf; [done|].
  cbn [imap concat]. rewrite Hf. cbn [app]. apply IH.
  intros i y. apply Hf.
Qed.

Lemma concat_imap_cut {A B} (f : nat -> A -> list B) l :
  forall k, (forall i x, (k <= i)%nat -> f i x = []) ->
  concat (imap f l) = concat (imap f (take k l)).
Proof.
  revert f. induction l as [|x l IH]; intros f k Hf; [by rewrite take_nil|].
  destruct k as [|k].
  - rewrite take_0. apply concat_imap_nil. intros i y. apply Hf. lia.
  - cbn [take imap concat]. f_equal. apply IH.
    intros i y Hi. apply Hf. lia.
Qed.

(** X27. Only the first twenty slides of a presentation and the first
    five tables of a Word document give lines: a later slide or table adds
    nothing to the extracted text. *)
Theorem rich_document_limits :
  (forall slides : list pptx_slide,
     concat (imap pptx_slide_lines slides)
     = concat (imap pptx_slide_lines (take 20 slides)))
  /\ (forall tables : list (list (list text)),
        concat (imap docx_table_lines tables)
        = concat (imap docx_table_lines (take 5 tables))).
Proof.
  split; intros l; apply concat_imap_cut; intros i x Hi.
  - unfold pptx_slide_lines.
    by assert ((i <? 20)%nat = false) as -> by (apply Nat.ltb_ge; lia).
  - unfold docx_table_lines.
    by assert ((i <? 5)%nat = false) as -> by (apply Nat.ltb_ge; lia).
Qed.

End PageProofs.

(** ** File search (onedrive_search.py) *)
Module OneDriveSearchProofs.
Import FileExtractor OneDriveSearch TextSpec.
Import AsyncProcessorProofs.

(** *** Facts about the character tables *)

(** Arithmetic on the boolean comparisons of code points. *)
Ltac blia :=
  rewrite ?orb_true_iff, ?orb_false_iff, ?andb_true_iff, ?andb_false_iff,
          ?N.ltb_lt, ?N.leb_le, ?N.eqb_eq, ?N.ltb_ge, ?N.leb_gt, ?N.eqb_neq
    in *;
  lia.

Lemma in_ranges_apart t1 t2 c :
  ranges_apart t1 t2 = true ->
  in_ranges t1 c = true -> in_ranges t2 c = false.
Proof.
  unfold ranges_apart, in_ranges. intros Hd H1.
  apply existsb_exists in H1 as (r1 & Hin1 & Hc1).
  rewrite forallb_forall in Hd. specialize (Hd r1 Hin1).
  rewrite forallb_forall in Hd.
  apply not_true_is_false. intros H2.
  apply existsb_exists in H2 as (r2 & Hin2 & Hc2).
  specialize (Hd r2 Hin2). blia.
Qed.

Lemma in_ranges_cons r t c :
  in_ranges (r :: t) c
  = ((fst r <=? c)%N && (c <=? snd r)%N) || in_ranges t c.
Proof. reflexivity. Qed.

Lemma isdecimal_not_space c : isdecimal c = true -> isspace c = false.
Proof. apply (in_ranges_apart decimal_ranges space_ranges). by vm_compute. Qed.

Lemma digit_extra_not_space c :
  in_ranges digit_extra_ranges c = true -> isspace c = false.
Proof.
  apply (in_ranges_apart digit_extra_ranges space_ranges). by vm_compute.
Qed.

Lemma digit_extra_high c :
  in_ranges digit_extra_ranges c = true -> (c <? 127)%N = false.
Proof.
  intros H. apply (in_ranges_apart _ [(0, 126)%N]) in H; [|by vm_compute].
  unfold in_ranges in H. simpl in H. blia.
Qed.

Lemma isdecimal_low c :
  isdecimal c = true -> (c <? 127)%N = true -> ascii_digit c = true.
Proof.
  unfold isdecimal. intros H Hlow.
  change decimal_ranges with ((48, 57)%N :: tl decimal_ranges) in H.
  rewrite in_ranges_cons in H. apply orb_true_iff in H as [H|H]; [done|].
  apply (in_ranges_apart _ [(0, 126)%N]) in H; [|by vm_compute].
  unfold in_ranges in H. simpl in H. blia.
Qed.

Lemma digit_value_none c : isdecimal c = false -> digit_value c = None.
Proof.
  unfold isdecimal, in_ranges, digit_value. intros H.
  destruct (find _ _) as [r|] eqn:E; [|done].
  apply find_some in E as [Hin Hc].
  assert (existsb (fun r => (fst r <=? c)%N && (c <=? snd r)%N)
                  decimal_ranges = true) as X
    by (apply existsb_exists; eauto).
  congruence.
Qed.

Lemma digit_value_some c :
  isdecimal c = true -> exists v, digit_value c = Some v /\ (v < 10)%N.
Proof.
  unfold isdecimal, in_ranges, digit_value. intros H.
  destruct (find _ _) as [r|] eqn:E.
  - eexists. split; [done|]. by apply N.mod_lt.
  - apply existsb_exists in H as (r & Hin & Hr).
    by rewrite (find_none _ _ E r Hin) in Hr.
Qed.

(** [int()] maps a decimal digit of any script to an ASCII digit and any
    other digit character to the invalid mark. *)
Lemma int_ascii_decimal c :
  isdecimal c = true -> ascii_digit (int_ascii c) = true.
Proof.
  intros H. unfold int_ascii.
  destruct (c <? 127)%N eqn:E; [by apply isdecimal_low|].
  rewrite (isdecimal_not_space c H).
  destruct (digit_value_some c H) as (v & -> & Hv).
  unfold ascii_digit. blia.
Qed.

Lemma int_ascii_nondecimal c :
  isdigit c = true -> isdecimal c = false -> int_ascii c = 63%N.
Proof.
  unfold isdigit. intros Hd Hn. rewrite Hn in Hd. simpl in Hd.
  unfold int_ascii.
  by rewrite (digit_extra_high c), (digit_extra_not_space c),
             digit_value_none.
Qed.

Lemma int_digits_mark t :
  forall acc, Forall digit_or_mark t -> In 63%N t -> int_digits acc t = None.
Proof.
  induction t as [|c t IH]; intros acc Hall Hin; [done|].
  inversion Hall as [|? ? Hc Ht]; subst. simpl.
  destruct Hc as [Hc| ->]; [|done].
  rewrite Hc. destruct Hin as [->|Hin]; [done|]. by apply IH.
Qed.

Lemma drop_while_keep {A} (p : A -> bool) l :
  Forall (fun x => p x = false) l -> drop_while p l = l.
Proof. destruct 1 as [|x l Hx _]; simpl; [done|by rewrite Hx]. Qed.

Lemma digit_or_mark_not_blank c : digit_or_mark c -> int_blank c = false.
Proof. unfold digit_or_mark, ascii_digit, int_blank. blia. Qed.

(** [int(s)] raises [ValueError] on a text of digit characters one of
    which is not a decimal digit. *)
Lemma py_int_nondecimal s :
  Forall (fun c => isdigit c = true) s ->
  Exists (fun c => isdecimal c = false) s ->
  py_int s = None.
Proof.
  intros Hall Hex.
  assert (Forall digit_or_mark (map int_ascii s)) as Hm.
  { apply Forall_map. eapply Forall_impl; [exact Hall|].
    intros c Hc. simpl. destruct (isdecimal c) eqn:E.
    - left. by apply int_ascii_decimal.
    - right. by apply int_ascii_nondecimal. }
  assert (In 63%N (map int_ascii s)) as Hin.
  { apply Exists_exists in Hex as (c & Hc & Hn).
    rewrite Forall_forall in Hall.
    apply in_map_iff. exists c. split; [|by apply list_elem_of_In].
    apply int_ascii_nondecimal; auto. }
  unfold py_int.
  assert (Forall (fun x => int_blank x = false) (map int_ascii s)) as Hnb.
  { eapply Forall_impl; [exact Hm|]. apply digit_or_mark_not_blank. }
  rewrite (drop_while_keep _ _ Hnb).
  rewrite (drop_while_keep int_blank (rev _)), rev_involutive
    by (by apply Forall_rev).
  destruct (map int_ascii s) as [|d t] eqn:E; [done|].
  inversion Hm as [|? ? Hd _]; subst.
  assert ((d =? 45)%N = false /\ (d =? 43)%N = false) as [-> ->]
    by (unfold digit_or_mark, ascii_digit in Hd; blia).
  destruct (ascii_digit d); [|done].
  by rewrite int_digits_mark.
Qed.

(** *** The keyword loop of [search_files] *)

Lemma search_from_none r s :
  forall prev,
  (forall j p, match_here r p (drop j s) = None) ->
  search_from r prev s = None.
Proof.
  induction s as [|c s IH]; intros prev H.
  - pose proof (H 0%nat prev) as H0. simpl in *. by rewrite H0.
  - simpl. pose proof (H 0%nat prev) as H0. simpl in H0. rewrite H0.
    apply IH. intros j p. apply (H (S j) p).
Qed.

Lemma decimal_not_sep c : isdecimal c = true -> slash_or_dash c = false.
Proof.
  intros H. unfold slash_or_dash.
  destruct (c =? 47)%N eqn:E1; [apply N.eqb_eq in E1; by subst|].
  destruct (c =? 45)%N eqn:E2; [apply N.eqb_eq in E2; by subst|]. done.
Qed.

(** A text of decimal digits has no long-form phrase and no separator. *)
Lemma japanese_none_on_digits k :
  all_decimal k -> re_search japanese_date_re k = None.
Proof.
  intros Hd. apply search_from_none. intros j p.
  destruct (match_here _ _ _) as [caps|] eqn:E; [|done].
  apply japanese_match_sound in E as (y & m & d & post & E & _).
  apply (Forall_drop _ j) in Hd. rewrite E in Hd.
  unfold long_form_phrase in Hd.
  rewrite <- !app_assoc in Hd.
  apply Forall_app in Hd as [_ Hd]. apply Forall_app in Hd as [Hd _].
  apply Forall_inv in Hd. by rewrite isdecimal_nen in Hd.
Qed.

Lemma slash_match_sep prev s caps :
  match_here slash_date_re prev s = Some caps ->
  Exists (fun c => slash_or_dash c = true) s.
Proof.
  unfold match_here. cbn. intros H.
  destruct s as [|c1 [|c2 [|c3 [|c4 [|c5 s]]]]]; cbn in H;
    repeat match type of H with
           | context [if ?b then _ else _] =>
             destruct b eqn:?; cbn in H; try discriminate H
           end; try discriminate H.
  all: do 4 apply Exists_cons_tl; by apply Exists_cons_hd.
Qed.

Lemma slash_none_on_digits k :
  all_decimal k -> re_search slash_date_re k = None.
Proof.
  intros Hd. apply search_from_none. intros j p.
  destruct (match_here _ _ _) as [caps|] eqn:E; [|done].
  apply slash_match_sep in E. apply (Forall_drop _ j) in Hd.
  apply Exists_exists in E as (c & Hc & Hs).
  rewrite Forall_forall in Hd.
  by rewrite (decimal_not_sep c (Hd c Hc)) in Hs.
Qed.

Ltac eight k H :=
  destruct k as [|? [|? [|? [|? [|? [|? [|? [|? [|]]]]]]]]];
  try discriminate H.

Lemma anchored_on_digits k :
  length k = 8%nat -> all_decimal k ->
  re_search anchored_numeric_date_re k
  = Some [take 4 k; take 2 (drop 4 k); take 2 (drop 6 k)].
Proof.
  intros Hl Hd. eight k Hl. decimals.
  unfold re_search, search_from, match_here. cbn.
  repeat match goal with
         | H : isdecimal _ = true |- _ => rewrite H; clear H
         end.
  reflexivity.
Qed.

Lemma split_8 (k : text) :
  length k = 8%nat ->
  take 4 k ++ take 2 (drop 4 k) ++ take 2 (drop 6 k) = k.
Proof. intros Hl. by eight k Hl. Qed.

Lemma forallb_false_Exists {A} (p : A -> bool) l :
  forallb p l = false -> Exists (fun x => p x = false) l.
Proof.
  induction l as [|x l IH]; simpl; [done|].
  destruct (p x) eqn:E; simpl; intros H.
  - apply Exists_cons_tl. by apply IH.
  - by apply Exists_cons_hd.
Qed.

Lemma japanese_script_not_digit c :
  japanese_script c = true -> isdigit c = false.
Proof.
  unfold japanese_script, isdigit, isdecimal. intros H.
  assert (in_ranges decimal_ranges c = false) as ->
    by (apply (in_ranges_apart japanese_ranges); [by vm_compute|exact H]).
  assert (in_ranges digit_extra_ranges c = false) as ->
    by (apply (in_ranges_apart japanese_ranges); [by vm_compute|exact H]).
  done.
Qed.

Lemma no_japanese_script_in_digits k :
  Forall (fun c => isdigit c = true) k -> has_japanese_script k = false.
Proof.
  intros Hd. unfold has_japanese_script.
  apply bool_decide_eq_false. intros [caps E].
  unfold re_search in E.
  rewrite search_from_none in E; [done|]. intros j p.
  apply (Forall_drop _ j) in Hd.
  unfold match_here, japanese_script_re. simpl.
  destruct (drop j k) as [|c s]; [done|].
  destruct (japanese_script c) eqn:Ej; [|done].
  apply Forall_inv in Hd.
  by rewrite (japanese_script_not_digit c Ej) in Hd.
Qed.

Lemma str_isdigit_Forall k :
  str_isdigit k = true -> Forall (fun c => isdigit c = true) k.
Proof.
  unfold str_isdigit. destruct k; [done|]. intros H.
  apply Forall_forall. intros c Hc. rewrite forallb_forall in H.
  apply H. by apply list_elem_of_In.
Qed.

(** The arm [elif k.isdigit() and len(k) == 8] runs only on a keyword
    with a digit character that is not a decimal digit, and then [int()]
    raises before anything is expanded. *)
Lemma token_branch_inert k :
  (classify_keyword k).1.1 = BrToken ->
  Exists (fun c => isdigit c = true /\ isdecimal c = false) k
  /\ classify_keyword k = (BrToken, [], []).
Proof.
  unfold classify_keyword.
  destruct (re_search japanese_date_re k); [done|].
  destruct (re_search slash_date_re k); [done|].
  destruct (re_search anchored_numeric_date_re k) eqn:Ea; [done|].
  destruct (str_isdigit k && (length k =? 8)%nat) eqn:Ed; [|done].
  intros _. apply andb_true_iff in Ed as [Hdig Hlen].
  apply Nat.eqb_eq in Hlen. apply str_isdigit_Forall in Hdig.
  assert (Exists (fun c => isdecimal c = false) k) as Hex.
  { apply forallb_false_Exists. apply not_true_is_false. intros Hall.
    rewrite (anchored_on_digits k Hlen) in Ea; [done|].
    by apply all_decimal_check. }
  split.
  { apply Exists_exists in Hex as (c & Hc & Hn).
    apply Exists_exists. exists c. split; [done|].
    rewrite Forall_forall in Hdig. auto. }
  rewrite (no_japanese_script_in_digits k Hdig), andb_false_r.
  rewrite <- (split_8 k Hlen) in Hex.
  assert (forall s, Forall (fun c => isdigit c = true) s ->
                    Exists (fun c => isdecimal c = false) s ->
                    py_int s = None) as Hint
    by apply py_int_nondecimal.
  apply Exists_app in Hex as [Hex|Hex];
    [|apply Exists_app in Hex as [Hex|Hex]].
  - rewrite (Hint (take 4 k)); [done|by apply Forall_take|done].
  - rewrite (Hint (take 2 (drop 4 k)));
      [|by apply Forall_take, Forall_drop|done].
    by destruct (py_int (take 4 k)).
  - rewrite (Hint (take 2 (drop 6 k)));
      [|by apply Forall_take, Forall_drop|done].
    by destruct (py_int (take 4 k)), (py_int (take 2 (drop 4 k))).
Qed.

(** C10, as the code has it. A keyword of exactly eight decimal digits is
    classified by the anchored numeric pattern and expanded into the
    three spellings YYYYMMDD, YYYY-MM-DD and YYYY/MM/DD whatever its month
    and day are.  The later arm with the calendar check is reached only by
    an eight-character keyword that contains a digit character which is not
    a decimal digit; there the integer conversion raises, so this arm never
    expands a keyword and adds no search term. *)
Theorem eight_digit_keyword_classification :
  (forall k : text,
     length k = 8%nat -> all_decimal k ->
     classify_keyword k
     = (BrNumeric,
        [k;
         take 4 k ++ U "-" ++ take 2 (drop 4 k) ++ U "-" ++ take 2 (drop 6 k);
         take 4 k ++ U "/" ++ take 2 (drop 4 k) ++ U "/" ++ take 2 (drop 6 k)],
        []))
  /\
  (forall k : text,
     (classify_keyword k).1.1 = BrToken ->
     Exists (fun c => isdigit c = true /\ isdecimal c = false) k
     /\ classify_keyword k = (BrToken, [], [])).
Proof.
  split; [|apply token_branch_inert].
  intros k Hl Hd. unfold classify_keyword.
  rewrite (japanese_none_on_digits k Hd), (slash_none_on_digits k Hd),
          (anchored_on_digits k Hl Hd).
  unfold date_variants, group. simpl.
  by rewrite (split_8 k Hl).
Qed.

(** Witness for C10 on 20241332 (month 13, day 32) and on ²0241326. *)
Lemma eight_digit_keyword_classification_witness :
  classify_keyword (U "20241332")
  = (BrNumeric, [U "20241332"; U "2024-13-32"; U "2024/13/32"], [])
  /\ classify_keyword (U "²0241326") = (BrToken, [], []).
Proof.
  destruct eight_digit_keyword_classification as [H1 H2]. split.
  - rewrite (H1 (U "20241332"));
      [by vm_compute | by vm_compute
      | apply all_decimal_check; by vm_compute].
  - apply (H2 (U "²0241326")). by vm_compute.
Defined.

(** Counterexample to C10 as stated: the keyword ²0241026 consists of
    eight digit characters, is not matched by the anchored pattern and does
    reach the arm with the calendar check. *)
Lemma token_branch_reached :
  str_isdigit (U "²0241026") = true
  /\ length (U "²0241026") = 8%nat
  /\ re_search anchored_numeric_date_re (U "²0241026") = None
  /\ (classify_keyword (U "²0241026")).1.1 = BrToken.
Proof. repeat split; by vm_compute. Qed.

End OneDriveSearchProofs.

(** ** The fields of an extracted date (async_processor.py) *)
Module DateShapeProofs.
Import TextSpec TextProofs AsyncProcessorProofs OneDriveSearchProofs DateShape.

Lemma slash_match_sound prev s caps :
  match_here slash_date_re prev s = Some caps ->
  exists y m d rest,
    s = y ++ rest /\ is_year y /\ is_md m /\ is_md d /\ caps = [y; m; d].
Proof.
  unfold match_here. cbn. intros H.
  crack H;
    match type of H with
    | Some [?y; ?m; ?d] = Some _ => exists y, m, d
    end;
    eexists; (split; [cbn [app]; reflexivity|]);
    injection H as <-;
    unfold is_year, is_md, all_decimal;
    repeat split; auto.
Qed.

Lemma numeric_match_sound prev s caps :
  match_here numeric_date_re prev s = Some caps ->
  exists y m d rest,
    s = y ++ rest /\ is_year y
    /\ length m = 2%nat /\ all_decimal m
    /\ length d = 2%nat /\ all_decimal d /\ caps = [y; m; d].
Proof.
  unfold match_here. cbn. intros H.
  crack H;
    match type of H with
    | Some [?y; ?m; ?d] = Some _ => exists y, m, d
    end;
    eexists; (split; [cbn [app]; reflexivity|]);
    injection H as <-;
    unfold is_year, all_decimal;
    repeat split; auto.
Qed.

(** A match found by [re.search] is a match at some position. *)
Lemma search_from_sound r s caps :
  forall prev, search_from r prev s = Some caps ->
  exists j p, match_here r p (drop j s) = Some caps.
Proof.
  induction s as [|c s IH]; intros prev; cbn [search_from].
  - destruct (match_here r prev []) eqn:E; [|done].
    intros [= <-]. by exists 0%nat, prev.
  - destruct (match_here r prev (c :: s)) eqn:E.
    + intros [= <-]. by exists 0%nat, prev.
    + intros H. destruct (IH _ H) as (j & p & Hj). by exists (S j), p.
Qed.

Lemma isdecimal_isdigit c : isdecimal c = true -> isdigit c = true.
Proof. unfold isdigit. by intros ->. Qed.

Lemma all_decimal_digits s : all_decimal s -> Forall (fun c => isdigit c = true) s.
Proof.
  intros H. eapply Forall_impl; [exact H|]. apply isdecimal_isdigit.
Qed.

Lemma zfill_md m : is_md m -> two_decimals (zfill 2 m).
Proof.
  intros [Hl Hd]. unfold two_decimals.
  destruct Hl as [Hl|Hl].
  - destruct m as [|c [|]]; try discriminate Hl.
    apply Forall_inv in Hd as Hc. unfold zfill. cbn [length Nat.leb].
    assert ((c =? 43)%N || (c =? 45)%N = false) as ->.
    { apply orb_false_iff. split; apply N.eqb_neq; intros ->;
        by vm_compute in Hc. }
    split; [done|]. constructor; [by vm_compute|done].
  - destruct m as [|c [|c2 [|]]]; try discriminate Hl. by split.
Qed.

Lemma py_int_decimal s :
  Forall (fun c => isdigit c = true) s -> is_Some (py_int s) -> all_decimal s.
Proof.
  intros Hd Hs. destruct (forallb isdecimal s) eqn:E.
  - by apply all_decimal_check.
  - apply forallb_false_Exists in E.
    rewrite (py_int_nondecimal s Hd E) in Hs. by destruct Hs.
Qed.

Lemma token_date_loop_shape words y m d f :
  token_date_loop words = Some (y, m, d, f) ->
  digit_year y /\ two_decimals m /\ two_decimals d.
Proof.
  induction words as [|word rest IH]; [done|].
  cbn [token_date_loop].
  destruct (str_isdigit word && (length word =? 8)%nat) eqn:E; [|exact IH].
  apply andb_true_iff in E as [Hdig Hlen].
  apply Nat.eqb_eq in Hlen. apply str_isdigit_Forall in Hdig.
  destruct (py_int (take 2 (drop 4 word))) as [mi|] eqn:Em; [|exact IH].
  destruct (py_int (take 2 (drop 6 word))) as [di|] eqn:Ed; [|exact IH].
  destruct (_ && _ && _ && _)%Z; [|exact IH].
  intros [= <- <- <- <-].
  split; [|split].
  - split; [rewrite length_take; lia|by apply Forall_take].
  - split; [rewrite length_take, length_drop; lia|].
    apply py_int_decimal; [by apply Forall_take, Forall_drop|by eexists].
  - split; [rewrite length_take, length_drop; lia|].
    apply py_int_decimal; [by apply Forall_take, Forall_drop|by eexists].
Qed.

(** X24. Whatever the query, a date returned by [extract_date_from_query]
    has a year of four digit characters and a month and a day of exactly
    two decimal digits each: the one-digit fields of styles 1 and 2 come
    back zero-filled. *)
Theorem extracted_date_shape (query year month day format : text) :
  extract_date_from_query query = Some (year, month, day, format) ->
  digit_year year /\ two_decimals month /\ two_decimals day.
Proof.
  unfold extract_date_from_query, re_search.
  destruct (search_from japanese_date_re None query) as [caps|] eqn:E1.
  { apply search_from_sound in E1 as (j & p & E1).
    apply japanese_match_sound in E1
      as (y & m & d & post & _ & [Hy Dy] & Hm & Hd & ->).
    intros [= <- <- <- <-]. cbn.
    split; [split; [done|by apply all_decimal_digits]|].
    split; by apply zfill_md. }
  destruct (search_from slash_date_re None query) as [caps|] eqn:E2.
  { apply search_from_sound in E2 as (j & p & E2).
    apply slash_match_sound in E2
      as (y & m & d & post & _ & [Hy Dy] & Hm & Hd & ->).
    intros [= <- <- <- <-]. cbn.
    split; [split; [done|by apply all_decimal_digits]|].
    split; by apply zfill_md. }
  destruct (search_from numeric_date_re None query) as [caps|] eqn:E3.
  { apply search_from_sound in E3 as (j & p & E3).
    apply numeric_match_sound in E3
      as (y & m & d & post & _ & [Hy Dy] & Hm & Dm & Hd & Dd & ->).
    intros [= <- <- <- <-]. cbn.
    split; [split; [done|by apply all_decimal_digits]|]. by split. }
  apply token_date_loop_shape.
Qed.

Lemma extracted_date_shape_witness :
  digit_year (U "2024") /\ two_decimals (U "01") /\ two_decimals (U "05").
Proof.
  apply (extracted_date_shape (U "2024/1/5") (U "2024") (U "01") (U "05")
           fmt_slash).
  by vm_compute.
Defined.

Lemma split_ws_aux_chars s :
  forall cur w c, In w (split_ws_aux cur s) -> In c w -> In c cur \/ In c s.
Proof.
  induction s as [|x s IH]; intros cur w c Hw Hc; cbn [split_ws_aux] in Hw.
  - destruct cur; [done|]. destruct Hw as [<-|[]].
    left. by apply in_rev.
  - destruct (isspace x).
    + destruct cur.
      * destruct (IH [] w c Hw Hc) as [[]|H]. right. by right.
      * destruct Hw as [<-|Hw]; [left; by apply in_rev|].
        destruct (IH [] w c Hw Hc) as [[]|H]. right. by right.
    + destruct (IH (x :: cur) w c Hw Hc) as [[<-|H]|H].
      * right. by left.
      * by left.
      * right. by right.
Qed.

Lemma token_date_loop_none words :
  Forall (fun w => str_isdigit w = false) words ->
  token_date_loop words = None.
Proof.
  induction 1 as [|w words Hw _ IH]; [done|].
  cbn [token_date_loop]. by rewrite Hw.
Qed.

(** X25. A query without any digit character has no date:
    [extract_date_from_query] returns [None] for it. *)
Theorem no_digit_no_date (query : text) :
  Forall (fun c => isdigit c = false) query ->
  extract_date_from_query query = None.
Proof.
  intros Hq.
  assert (forall j y rest, drop j query = y ++ rest -> is_year y -> False)
    as Hno.
  { intros j y rest E [Hl Hd]. destruct y as [|c y]; [done|].
    apply Forall_inv in Hd. apply isdecimal_isdigit in Hd.
    apply (Forall_drop _ j) in Hq. rewrite E in Hq.
    apply Forall_inv in Hq. congruence. }
  unfold extract_date_from_query, re_search.
  rewrite (search_from_none japanese_date_re).
  2:{ intros j p. destruct (match_here _ _ _) eqn:E; [|done].
      apply japanese_match_sound in E as (y & m & d & post & E & Hy & _).
      destruct (Hno j y ([c_nen] ++ m ++ [c_gatsu] ++ d ++ [c_nichi] ++ post));
        [|done].
      rewrite E. unfold long_form_phrase. by rewrite <- !app_assoc. }
  rewrite (search_from_none slash_date_re).
  2:{ intros j p. destruct (match_here _ _ _) eqn:E; [|done].
      apply slash_match_sound in E as (y & m & d & post & E & Hy & _).
      by destruct (Hno j y post). }
  rewrite (search_from_none numeric_date_re).
  2:{ intros j p. destruct (match_here _ _ _) eqn:E; [|done].
      apply numeric_match_sound in E as (y & m & d & post & E & Hy & _).
      by destruct (Hno j y post). }
  apply token_date_loop_none. apply Forall_forall. intros w Hw.
  apply list_elem_of_In in Hw.
  destruct w as [|c w]; [done|]. cbn [str_isdigit forallb].
  destruct (split_ws_aux_chars query [] (c :: w) c Hw ltac:(by left))
    as [[]|Hc].
  rewrite Forall_forall in Hq. apply list_elem_of_In in Hc.
  by rewrite (Hq c Hc).
Qed.

Lemma no_digit_no_date_witness :
  extract_date_from_query (U "日報 を 教えて") = None.
Proof.
  apply no_digit_no_date.
  apply Forall_forall. intros c Hc.
  assert (forallb (fun c => negb (isdigit c)) (U "日報 を 教えて") = true)
    as Hq by (by vm_compute).
  rewrite forallb_forall in Hq. apply negb_true_iff, Hq.
  by apply list_elem_of_In.
Defined.

End DateShapeProofs.

(** ** The result cache of [search_files] *)
Module CacheProofs.
Import FileExtractor OneDriveSearch CacheSpec Demo.

Section Cache.
Context (repr_str : text -> text).
Local Abbreviation key_of := (key_of repr_str).


(** An entry younger than 300 seconds answers the call: the stored list
    is returned, nothing is walked and the object does not change. *)
Lemma search_files_hit env self keywords file_types max_results e :
  search_cache self !! key_of self keywords file_types max_results = Some e ->
  (time_at_check env - timestamp e < 300)%Q ->
  search_files repr_str env self keywords file_types max_results true
  = (results e, self).
Proof.
  unfold key_of, search_files. intros -> Hlt.
  destruct (Qlt_le_dec _ _) as [_|Hge]; [done|].
  exfalso. unfold cache_expiry in Hge. lra.
Qed.


Lemma search_files_stale env self keywords file_types max_results :
  stale env self (key_of self keywords file_types max_results) ->
  search_files repr_str env self keywords file_types max_results true
  = search_uncached env self
      (key_of self keywords file_types max_results) keywords
      (default (OneDriveSearch.file_types self) file_types)
      (default (OneDriveSearch.max_results self) max_results).
Proof.
  unfold stale, key_of, search_files. intros H.
  destruct (search_cache self !! _) as [e|]; [|done].
  destruct (Qlt_le_dec _ _) as [Hlt|_]; [|done].
  exfalso. unfold cache_expiry in Hlt. lra.
Qed.

Lemma search_uncached_walks env self key keywords file_types max_results :
  walk_count (search_uncached env self key keywords file_types max_results).2
  = S (walk_count self).
Proof.
  unfold search_uncached.
  destruct (classify_keywords _) as [dates terms].
  by destruct (os_walk env _).
Qed.

Lemma search_uncached_stores env self key keywords file_types max_results
    dirs :
  os_walk env (base_directory self) = Ok dirs ->
  let out := search_uncached env self key keywords file_types max_results in
  search_cache out.2 !! key
  = Some {| results := out.1; timestamp := time_at_store env |}
  /\ base_directory out.2 = base_directory self
  /\ OneDriveSearch.file_types out.2 = OneDriveSearch.file_types self
  /\ OneDriveSearch.max_results out.2 = OneDriveSearch.max_results self.
Proof.
  unfold search_uncached. intros ->.
  destruct (classify_keywords _) as [dates terms]. simpl.
  by rewrite lookup_insert_eq.
Qed.


(** C4, as the code has it. The window of 300 seconds starts at the
    timestamp the walk stored, and a hit does not move it:
    (1) a call that finds an entry younger than 300 seconds returns the
        stored list and leaves the object, its walk counter included,
        as it was;
    (2) hence, after a call that walked the directory and stored its
        result, a second call with the same arguments whose clock reads
        less than 300 seconds past the stored timestamp returns the same
        list without another walk;
    (3) an entry whose timestamp is 300 seconds old or older is treated
        as absent: the result is the one computed with the entry removed,
        and the directory is walked once more. *)
Theorem search_cache_window
    (env1 env2 : Env) (self : OneDriveSearch.OneDriveSearch)
    (keywords : keywords_arg) (file_types : option (list text))
    (max_results : option Z) :
  let key := key_of self keywords file_types max_results in
  let first :=
    search_files repr_str env1 self keywords file_types max_results true in
  (forall e, search_cache self !! key = Some e ->
             (time_at_check env1 - timestamp e < 300)%Q ->
             first = (results e, self))
  /\
  (stale env1 self key ->
   (exists dirs, os_walk env1 (base_directory self) = Ok dirs) ->
   (time_at_check env2 - time_at_store env1 < 300)%Q ->
   search_files repr_str env2 first.2 keywords file_types max_results true
   = (first.1, first.2)
   /\ walk_count first.2 = S (walk_count self))
  /\
  (forall e, search_cache self !! key = Some e ->
             (300 <= time_at_check env1 - timestamp e)%Q ->
             first.1
             = (search_files repr_str env1 (forget self key) keywords
                  file_types max_results true).1
             /\ walk_count first.2 = S (walk_count self)).
Proof.
  intros key first. split; [|split].
  - intros e He Hlt. by apply search_files_hit.
  - intros Hstale [dirs Hdirs] Hlt. subst first.
    rewrite (search_files_stale env1) by done.
    pose proof (search_uncached_stores env1 self key keywords
                  (default (OneDriveSearch.file_types self) file_types)
                  (default (OneDriveSearch.max_results self) max_results)
                  dirs Hdirs) as (Hsome & _ & Hft & Hmr).
    simpl in *. fold key.
    set (out := search_uncached env1 self key keywords _ _) in *.
    split; [|apply search_uncached_walks].
    apply (search_files_hit env2 out.2 keywords file_types max_results
             {| results := out.1; timestamp := time_at_store env1 |});
      [|done].
    unfold key_of. rewrite Hft, Hmr. exact Hsome.
  - intros e He Hge. subst first.
    assert (stale env1 self key) as Hstale by (unfold stale; by rewrite He).
    rewrite (search_files_stale env1 self) by done.
    assert (stale env1 (forget self key) key) as Hstale'
      by (unfold stale, forget; simpl; by rewrite lookup_delete_eq).
    rewrite (search_files_stale env1 (forget self key)) by done.
    fold key. split; [|apply search_uncached_walks].
    unfold search_uncached, forget. simpl.
    destruct (classify_keywords _) as [dates terms].
    by destruct (os_walk env1 _).
Qed.

End Cache.

(** Witness for C4: on a fresh object the first call walks the tree with
    one report and stores the list at second 1; the call at second 200
    sees an empty tree and still returns the stored list, without a
    walk. *)
Lemma search_cache_window_witness :
  let first :=
    search_files demo_repr (demo_env hello 0 1 one_report) (demo_self ∅)
      (KwStr (U "20241026")) None None true in
  search_files demo_repr (demo_env hello 200 201 []) first.2
    (KwStr (U "20241026")) None None true
  = (first.1, first.2)
  /\ walk_count first.2 = 1%nat.
Proof.
  intros first.
  apply (search_cache_window demo_repr
           (demo_env hello 0 1 one_report) (demo_env hello 200 201 [])
           (demo_self ∅) (KwStr (U "20241026")) None None).
  - unfold stale. simpl search_cache. by rewrite lookup_empty.
  - by eexists.
  - by vm_compute.
Defined.

(** Counterexample to C4 as stated: the entry was stored at second 0;
    the call at second 299 is answered from it, and the call with the
    same arguments two seconds later finds it expired, walks the tree
    and returns a different list. *)
Lemma second_call_within_300s_rewalks :
  let key := cache_key demo_repr (KwStr (U "20241026")) [] 5 in
  let self := demo_self {[ key := {| results := []; timestamp := 0 |} ]} in
  let first :=
    search_files demo_repr (demo_env hello 299 300 one_report) self
      (KwStr (U "20241026")) None None true in
  let second :=
    search_files demo_repr (demo_env hello 301 302 one_report) first.2
      (KwStr (U "20241026")) None None true in
  (301 - 299 < 300)%Q
  /\ first.1 = []
  /\ second.1 <> first.1
  /\ walk_count second.2 = S (walk_count first.2).
Proof. by vm_compute. Qed.

End CacheProofs.

(** ** The directory walk (onedrive_search.py) *)
Module WalkProofs.
Import FileExtractor OneDriveSearch SearchSpec.

Section Walk.
Context (env : Env) (file_types date_keywords search_terms : list text).

Local Abbreviation dc := (dir_candidates env file_types date_keywords search_terms).
Local Abbreviation cands := (candidates env file_types date_keywords search_terms).
Local Abbreviation sdir := (scan_dir env file_types date_keywords search_terms).
Local Abbreviation swalk := (scan_walk env file_types date_keywords search_terms).

Lemma scan_dir_take max_results root files :
  forall results count,
  (0 <= count)%Z -> (count < max_results \/ max_results <= 0)%Z ->
  sdir max_results root files results count
  = (results ++ take (Z.to_nat (Z.max 1 (max_results - count)))
                     (dc (root, files)),
     (count + Z.of_nat (length (take (Z.to_nat (Z.max 1 (max_results - count)))
                                     (dc (root, files)))))%Z).
Proof.
  unfold dir_candidates, matching. cbn [fst snd].
  induction files as [|file rest IH]; intros results count H0 Hc;
    set (k := Z.to_nat (Z.max 1 (max_results - count))).
  - cbn. rewrite take_nil, app_nil_r. f_equal. simpl. lia.
  - cbn [scan_dir List.filter].
    destruct (extension_ok env file_types file
              && file_matches date_keywords search_terms file
                   (path_join env root file)) eqn:Hm.
    + cbn [map].
      assert (k = S (Z.to_nat (Z.max 1 (max_results - count)) - 1)) as Hk
        by (subst k; lia).
      clearbody k. subst k. cbn [take].
      destruct (max_results <=? count + 1)%Z eqn:Hb.
      * apply Z.leb_le in Hb.
        replace (Z.to_nat (Z.max 1 (max_results - count)) - 1)%nat
          with 0%nat by lia.
        rewrite take_0. simpl. f_equal; lia.
      * apply Z.leb_gt in Hb.
        rewrite IH by lia.
        replace (Z.to_nat (Z.max 1 (max_results - (count + 1))))
          with (Z.to_nat (Z.max 1 (max_results - count)) - 1)%nat by lia.
        rewrite <- app_assoc. cbn [app]. f_equal.
        cbn [length]. lia.
    + by apply IH.
Qed.

Lemma scan_walk_take max_results dirs :
  forall results count,
  (0 <= count)%Z -> (count < max_results)%Z ->
  swalk max_results dirs results count
  = results ++ take (Z.to_nat (max_results - count)) (cands dirs).
Proof.
  induction dirs as [|[root files] dirs IH]; intros results count H0 Hc.
  - cbn. by rewrite take_nil, app_nil_r.
  - cbn [scan_walk]. rewrite scan_dir_take by lia.
    replace (Z.max 1 (max_results - count)) with (max_results - count)%Z
      by lia.
    set (k := Z.to_nat (max_results - count)).
    unfold candidates. cbn [map concat]. fold (cands dirs).
    rewrite firstn_app.
    pose proof (length_take (dc (root, files)) k) as Hlen.
    destruct (max_results <=? _)%Z eqn:Hb.
    + apply Z.leb_le in Hb.
      replace (k - length (dc (root, files)))%nat with 0%nat by lia.
      by rewrite take_0, app_nil_r.
    + apply Z.leb_gt in Hb.
      rewrite IH by lia. rewrite <- app_assoc. do 2 f_equal.
      f_equal. lia.
Qed.

Lemma scan_walk_nonpositive max_results dirs :
  (max_results <= 0)%Z ->
  swalk max_results dirs [] 0 = take 1 (cands (take 1 dirs)).
Proof.
  intros Hm. destruct dirs as [|[root files] dirs]; [done|].
  cbn [scan_walk]. rewrite scan_dir_take by lia.
  replace (Z.to_nat (Z.max 1 (max_results - 0))) with 1%nat by lia.
  destruct (max_results <=? _)%Z eqn:Hb.
  - unfold candidates. cbn [take map concat app]. by rewrite app_nil_r.
  - apply Z.leb_gt in Hb. lia.
Qed.

(** X10. The walk returns the records of the first [max_results]
    matching files in the order of the walk, a matching file being one that
    passes the extension filter and a keyword test; with [max_results] at
    zero or below it looks at the first directory only and returns at most
    one file of it. *)
Theorem walk_returns_first_matches (max_results : Z)
    (dirs : list (text * list text)) :
  ((1 <= max_results)%Z ->
   scan_walk env file_types date_keywords search_terms max_results dirs [] 0
   = take (Z.to_nat max_results)
          (candidates env file_types date_keywords search_terms dirs))
  /\ ((max_results <= 0)%Z ->
      scan_walk env file_types date_keywords search_terms max_results
        dirs [] 0
      = take 1 (candidates env file_types date_keywords search_terms
                  (take 1 dirs))).
Proof.
  split.
  - intros H. rewrite scan_walk_take by lia. cbn [app]. do 2 f_equal. lia.
  - apply scan_walk_nonpositive.
Qed.

End Walk.

(** X11. A search that does not use the cache returns at most
    [max_results] records, and at most one when [max_results] is zero or
    negative, also when the walk raises. *)
Theorem fresh_search_bounded (repr_str : text -> text) (env : Env)
    (self : OneDriveSearch.OneDriveSearch) (keywords : keywords_arg)
    (types : option (list text)) (max_results : option Z) :
  (Z.of_nat (length (search_files repr_str env self keywords types
                       max_results false).1)
   <= Z.max 1 (default (OneDriveSearch.max_results self) max_results))%Z.
Proof.
  unfold search_files, search_uncached.
  destruct (classify_keywords _) as [dk st].
  destruct (os_walk env (base_directory self)) as [dirs|e];
    [|cbn [fst length]; lia].
  cbn [fst].
  set (m := default (OneDriveSearch.max_results self) max_results).
  destruct (Z_le_gt_dec 1 m) as [Hm|Hm].
  - rewrite scan_walk_take by lia. cbn [app]. rewrite length_take. lia.
  - rewrite scan_walk_nonpositive by lia. rewrite length_take. lia.
Qed.
End WalkProofs.

(** ** The assembled content of [get_relevant_content] *)
Module ContentProofs.
Import FileExtractor OneDriveSearch ContentSpec Demo.

Lemma len_app (a b : text) : len (a ++ b) = (len a + len b)%Z.
Proof. unfold len. rewrite length_app. lia. Qed.

Lemma len_cut_mark : len cut_mark = 4%Z.
Proof. by vm_compute. Qed.

Section Loop.
Context (env : Env) (self : OneDriveSearch.OneDriveSearch).
Context (max_chars : Z) (n : nat).

(** The loop, from any point on: the text so far is followed by the blocks
    of some of the remaining files, each complete or cut and marked, and
    then either nothing, all files being shown, or the omission line that
    counts the files left out.  What stands before the omission line stays
    within the budget unless the text so far was already beyond it. *)
Lemma content_loop_shape rest :
  forall i relevant_content total_chars,
  total_chars = len relevant_content ->
  (i + length rest = n)%nat ->
  exists shown tail,
    content_loop env self max_chars n i rest relevant_content total_chars
    = relevant_content ++ concat shown ++ tail
    /\ (forall j s, shown !! j = Some s ->
          exists r, rest !! j = Some r
                    /\ shown_as (file_block env self (i + j) r) s)
    /\ (tail = [] /\ length shown = length rest
        \/ tail = omission_line (n - (i + length shown))
           /\ (length shown < length rest)%nat)
    /\ (len (relevant_content ++ concat shown)
        <= Z.max max_chars total_chars)%Z.
Proof.
  induction rest as [|r rest IH]; intros i rc T HT Hn.
  - exists [], []. simpl. rewrite !app_nil_r.
    split; [done|]. split; [intros j s Hj; by destruct j|].
    split; [by left|]. lia.
  - simpl in Hn. simpl.
    set (block := file_block env self i r).
    destruct (max_chars <? T + len block)%Z eqn:Hover.
    + apply Z.ltb_lt in Hover.
      destruct (0 <? max_chars - T - 100)%Z eqn:Hroom.
      * apply Z.ltb_lt in Hroom.
        set (c := Z.to_nat (max_chars - T - 100)).
        assert (c < length block)%nat as Hc by (unfold len in Hover; lia).
        assert (len (take c block ++ cut_mark) = max_chars - T - 96)%Z
          as Hlen.
        { rewrite len_app, len_cut_mark. unfold len.
          rewrite length_take. lia. }
        destruct (IH (S i) (rc ++ take c block ++ cut_mark)
                     (T + len (take c block ++ cut_mark))%Z)
          as (shown & tail & Heq & Hshown & Htail & Hbound);
          [rewrite !len_app; lia | lia |].
        exists ((take c block ++ cut_mark) :: shown), tail.
        split; [rewrite Heq; simpl; by rewrite <- !app_assoc|].
        split.
        { intros [|j] s Hj; simpl in Hj.
          - injection Hj as <-. exists r. split; [done|].
            rewrite Nat.add_0_r. right. by exists c.
          - destruct (Hshown j s Hj) as (r' & Hr' & Hs).
            exists r'. split; [done|].
            by replace (i + S j)%nat with (S i + j)%nat by lia. }
        split.
        { simpl. destruct Htail as [[-> Hl]|[-> Hl]]; [left|right].
          - split; [done|lia].
          - split; [f_equal; lia|lia]. }
        simpl. rewrite app_assoc. rewrite ?len_app in *. lia.
      * apply Z.ltb_ge in Hroom.
        exists [], (omission_line (n - i)). simpl.
        split; [done|]. split; [intros j s Hj; by destruct j|].
        split; [right; split; [f_equal; lia|lia]|].
        rewrite app_nil_r. lia.
    + apply Z.ltb_ge in Hover.
      destruct (IH (S i) (rc ++ block) (T + len block)%Z)
        as (shown & tail & Heq & Hshown & Htail & Hbound);
        [rewrite !len_app; lia | lia |].
      exists (block :: shown), tail.
      split; [rewrite Heq; simpl; by rewrite <- !app_assoc|].
      split.
      { intros [|j] s Hj; simpl in Hj.
        - injection Hj as <-. exists r. split; [done|].
          rewrite Nat.add_0_r. by left.
        - destruct (Hshown j s Hj) as (r' & Hr' & Hs).
          exists r'. split; [done|].
          by replace (i + S j)%nat with (S i + j)%nat by lia. }
      split.
      { simpl. destruct Htail as [[-> Hl]|[-> Hl]]; [left|right].
        - split; [done|lia].
        - split; [f_equal; lia|lia]. }
      simpl. rewrite app_assoc. rewrite ?len_app in *. lia.
Qed.

End Loop.

(** C2, as the code has it. [get_relevant_content] returns the guidance
    message exactly when the query leaves no keyword, and the not-found
    message for the date and the keywords exactly when there are keywords
    and the search finds nothing, whatever [max_chars] is.  When the
    search finds files, the output is the header line with their number,
    then for the first files in search order their block, complete or cut
    and closed by the cut mark, then either nothing (every file is shown)
    or the omission line that counts the files left out.  The header and
    the blocks together do not exceed [max_chars] unless the header alone
    does. *)
Theorem relevant_content_shape (repr_str : text -> text) (env : Env)
    (self : OneDriveSearch.OneDriveSearch) (query : text)
    (max_files : option Z) (max_chars : Z) :
  let out := get_relevant_content repr_str env self query max_files max_chars in
  let date_str := (extract_keywords env query).1 in
  let keywords := (extract_keywords env query).2 in
  let found :=
    search_files repr_str env self (KwList keywords) None
      (Some (default (OneDriveSearch.max_results self) max_files)) true in
  let results := found.1 in
  (keywords = [] -> out = (no_keywords_message, self))
  /\ (keywords <> [] -> results = [] ->
      out = (not_found_message date_str keywords, found.2))
  /\ (keywords <> [] -> results <> [] ->
      out.2 = found.2
      /\ exists shown tail,
           out.1 = found_header (length results) ++ concat shown ++ tail
           /\ (forall j s, shown !! j = Some s ->
                 exists r, results !! j = Some r
                           /\ shown_as (file_block env found.2 j r) s)
           /\ (tail = [] /\ length shown = length results
               \/ tail = omission_line (length results - length shown)
                  /\ (length shown < length results)%nat)
           /\ (len (found_header (length results) ++ concat shown)
               <= Z.max max_chars (len (found_header (length results))))%Z).
Proof.
  intros out date_str keywords found results.
  subst out date_str keywords results found.
  unfold get_relevant_content.
  destruct (extract_keywords env query) as [date_str keywords].
  cbn [fst snd].
  destruct keywords as [|k keywords].
  { split; [done|]. split; intros H; by destruct H. }
  destruct (search_files _ _ _ _ _ _ _) as [results self'].
  cbn [fst snd].
  split; [done|]. destruct results as [|r results].
  { split; [done|]. intros _ H. by destruct H. }
  split; [done|]. intros _ _. split; [done|].
  destruct (content_loop_shape env self' max_chars (length (r :: results))
              (r :: results) 0 (found_header (length (r :: results)))
              (len (found_header (length (r :: results)))))
    as (shown & tail & Heq & Hshown & Htail & Hbound); [done|done|].
  exists shown, tail.
  split; [done|]. split; [exact Hshown|].
  split; [exact Htail|exact Hbound].
Qed.

Lemma relevant_content_shape_witness :
  let out :=
    get_relevant_content demo_repr (demo_env hello 0 1 one_report)
      (demo_self ∅) (U "20241026") None 8000 in
  exists shown tail,
    out.1 = found_header 1 ++ concat shown ++ tail
    /\ (length shown <= 1)%nat.
Proof.
  intros out.
  destruct (relevant_content_shape demo_repr (demo_env hello 0 1 one_report)
              (demo_self ∅) (U "20241026") None 8000) as (_ & _ & H).
  destruct H as (_ & shown & tail & Heq & _ & Htail & _);
    [by vm_compute|by vm_compute|].
  assert (length (search_files demo_repr (demo_env hello 0 1 one_report)
            (demo_self ∅)
            (KwList (extract_keywords (demo_env hello 0 1 one_report)
                       (U "20241026")).2) None
            (Some (default (OneDriveSearch.max_results (demo_self ∅)) None))
            true).1 = 1%nat) as Hn by (by vm_compute).
  rewrite Hn in Heq, Htail.
  exists shown, tail. split; [exact Heq|].
  destruct Htail as [[_ Hl]|[_ Hl]]; lia.
Defined.

(** Counterexample to C2 as stated: with a budget of 20 characters and
    an empty directory the not-found message of 46 characters comes
    back. *)
Lemma not_found_message_beyond_budget :
  let out :=
    get_relevant_content demo_repr (demo_env hello 0 1 []) (demo_self ∅)
      (U "2024年10月26日の日報") None 20 in
  out.1 = U "2024年10月26日の日報は見つかりませんでした。日付の表記が正しいか確認してください。"
  /\ (20 < len out.1)%Z.
Proof. by vm_compute. Qed.

End ContentProofs.

(** ** The keywords of [get_relevant_content] (onedrive_search.py) *)
Module KeywordProofs.
Import FileExtractor OneDriveSearch TextSpec TextProofs AsyncProcessorProofs.
Import OneDriveSearchProofs ContentProofs DateShapeProofs.

Lemma starts_with_split p s :
  starts_with p s = true -> exists b, s = p ++ b.
Proof.
  revert s. induction p as [|c p IH]; intros s H; [by exists s|].
  destruct s as [|d s]; [done|]. cbn [starts_with] in H.
  apply andb_true_iff in H as [Hc H]. apply N.eqb_eq in Hc. subst d.
  destruct (IH s H) as [b ->]. by exists b.
Qed.

Lemma contains_split p s :
  contains p s = true -> exists a b, s = a ++ p ++ b.
Proof.
  induction s as [|d s IH].
  - cbn. rewrite orb_false_r. intros H.
    apply starts_with_split in H as [b Hb]. by exists [], b.
  - change (contains p (d :: s))
      with (starts_with p (d :: s) || contains p s).
    intros [H|H]%orb_true_iff.
    + apply starts_with_split in H as [b Hb]. by exists [], b.
    + destruct (IH H) as (a & b & ->). by exists (d :: a), b.
Qed.

Lemma contains_join p a b : contains p (a ++ p ++ b) = true.
Proof. apply contains_app_r, contains_prefix. Qed.

Lemma contains_length p s :
  contains p s = true -> (length p <= length s)%nat.
Proof.
  intros H. apply contains_split in H as (a & b & ->).
  rewrite !length_app. lia.
Qed.

(** Dropping a run of characters from the front leaves an occurrence
    that does not begin with one of them. *)
Lemma drop_while_occurrence (f : char -> bool) c p b :
  f c = false ->
  forall a, exists a', drop_while f (a ++ (c :: p) ++ b) = a' ++ (c :: p) ++ b.
Proof.
  intros Hc. induction a as [|x a IH].
  - exists []. cbn. by rewrite Hc.
  - cbn [app drop_while]. destruct (f x); [exact IH|].
    by exists (x :: a).
Qed.

Lemma strip_occurrence (f : char -> bool) p s :
  (forall c, head p = Some c -> f c = false) ->
  (forall c, last p = Some c -> f c = false) ->
  p <> [] ->
  contains p s = true ->
  contains p (rev (drop_while f (rev (drop_while f s)))) = true.
Proof.
  intros Hh Hl Hp H. apply contains_split in H as (a & b & ->).
  destruct p as [|c p]; [done|].
  destruct (drop_while_occurrence f c p b (Hh c eq_refl) a) as [a' ->].
  rewrite !rev_app_distr, <- !app_assoc.
  destruct (rev (c :: p)) as [|e q] eqn:Er.
  { apply (f_equal (@length _)) in Er. rewrite length_rev in Er. done. }
  assert (f e = false) as He.
  { apply Hl. rewrite <- head_rev, Er. done. }
  destruct (drop_while_occurrence f e q (rev a') He (rev b)) as [b' ->].
  rewrite !rev_app_distr, <- !app_assoc, <- Er, !rev_involutive.
  apply contains_join.
Qed.

Lemma split_ws_aux_run x rest :
  Forall (fun c => isspace c = false) x ->
  forall cur, split_ws_aux cur (x ++ rest) = split_ws_aux (rev x ++ cur) rest.
Proof.
  induction 1 as [|c x Hc Hx IH]; intros cur; [done|].
  cbn [app split_ws_aux]. rewrite Hc, IH.
  cbn [rev]. by rewrite <- app_assoc.
Qed.

Lemma split_ws_aux_tail p b :
  p <> [] ->
  forall cur, contains p (rev cur) = true ->
  exists w, In w (split_ws_aux cur b) /\ contains p w = true.
Proof.
  intros Hp. induction b as [|x b IH]; intros cur Hcur.
  - cbn. destruct cur as [|c cur].
    + cbn in Hcur. rewrite orb_false_r in Hcur. by destruct p.
    + exists (rev (c :: cur)). split; [by left|done].
  - cbn [split_ws_aux]. destruct (isspace x).
    + destruct cur as [|c cur].
      * cbn in Hcur. rewrite orb_false_r in Hcur. by destruct p.
      * exists (rev (c :: cur)). split; [by left|done].
    + apply IH. cbn [rev]. by apply contains_app_l.
Qed.

(** A text without white space that occurs in a text occurs in one of
    its words. *)
Lemma split_ws_occurrence p s :
  p <> [] -> Forall (fun c => isspace c = false) p ->
  contains p s = true ->
  exists w, In w (split_ws s) /\ contains p w = true.
Proof.
  intros Hp Hns H. apply contains_split in H as (a & b & ->).
  unfold split_ws. generalize (@nil N) as cur.
  induction a as [|x a IH]; intros cur.
  - cbn [app]. rewrite split_ws_aux_run by done.
    apply split_ws_aux_tail; [done|].
    rewrite rev_app_distr, rev_involutive.
    apply contains_app_r, contains_refl.
  - cbn [app split_ws_aux]. destruct (isspace x).
    + destruct cur as [|c cur].
      * apply IH.
      * destruct (IH []) as (w & Hw & Hc). exists w. split; [by right|done].
    + apply IH.
Qed.

Lemma omap_hit {A B} (f : A -> option B) l x y :
  In x l -> f x = Some y -> omap f l <> [].
Proof.
  induction l as [|z l IH]; [done|].
  intros [->|Hin] Hf; cbn.
  - by rewrite Hf.
  - destruct (f z); [done|]. by apply IH.
Qed.

Section Keywords.
Context (env : Env).
Hypothesis lower_keeps :
  forall s, contains nippo (str_lower (env_os env) s) = contains nippo s.

Lemma nippo_word_kept word :
  contains nippo word = true ->
  exists cw, strip_chars strip_set word = cw
    /\ contains nippo cw = true
    /\ bool_decide (cw <> []) && (1 <? length cw)%nat
       && negb (existsb (text_eqb (str_lower (env_os env) cw)) stop_words)
       = true.
Proof using lower_keeps.
  intros Hw. eexists. split; [reflexivity|].
  assert (contains nippo (strip_chars strip_set word) = true) as Hc.
  { unfold strip_chars. apply strip_occurrence; [| | by vm_compute | done].
    - intros c Hc. assert (c = 26085%N) as -> by (by vm_compute in Hc; injection Hc).
      by vm_compute.
    - intros c Hc. assert (c = 22577%N) as -> by (by vm_compute in Hc; injection Hc).
      by vm_compute. }
  split; [exact Hc|].
  pose proof (contains_length _ _ Hc) as Hlen.
  assert (length nippo = 2%nat) as Hn by (by vm_compute). rewrite Hn in Hlen.
  rewrite bool_decide_true by (intros E; rewrite E in Hlen; simpl in Hlen; lia).
  assert ((1 <? length (strip_chars strip_set word))%nat = true) as ->
    by (apply Nat.ltb_lt; lia).
  cbn [andb]. apply negb_true_iff.
  destruct (existsb _ stop_words) eqn:E; [|done].
  apply existsb_exists in E as (sw & Hsw & Heq).
  apply bool_decide_eq_true in Heq.
  assert (forallb (fun sw => negb (contains nippo sw)) stop_words = true)
    as Hstop by (by vm_compute).
  rewrite forallb_forall in Hstop. specialize (Hstop sw Hsw).
  rewrite <- Heq, lower_keeps, Hc in Hstop. done.
Qed.

Lemma keywords_never_empty (query : text) :
  (extract_keywords env query).2 <> [].
Proof using lower_keeps.
  unfold extract_keywords. cbn [snd].
  destruct (query_date query) as [[d pat]|]; cbn [fmap option_fmap option_map fst app].
  - by destruct (_ && _ && _).
  - destruct (query_words env None query) as [|k ks] eqn:Ew.
    + cbn [app length Nat.ltb Nat.leb filter existsb negb andb].
      destruct (contains nippo (str_lower (env_os env) query)) eqn:Eq;
        cbn [negb andb]; [|done].
      exfalso. rewrite lower_keeps in Eq.
      destruct (split_ws_occurrence nippo query) as (w & Hw & Hc);
        [by vm_compute| |done|].
      { apply Forall_forall. intros c Hc.
        assert (forallb (fun c => negb (isspace c)) nippo = true) as Hs
          by (by vm_compute).
        rewrite forallb_forall in Hs. apply negb_true_iff, Hs.
        by apply list_elem_of_In. }
      destruct (nippo_word_kept w Hc) as (cw & Hcw & _ & Hok).
      unfold query_words in Ew.
      eapply omap_hit in Ew; [done|exact Hw|].
      cbv beta zeta. rewrite Hcw, Hok. reflexivity.
    + by destruct (_ && _ && _).
Qed.


Lemma year_head y rest :
  is_year y -> exists c t, y ++ rest = c :: t /\ isdecimal c = true.
Proof.
  intros [Hl Hd]. destruct y as [|c y]; [done|].
  apply Forall_inv in Hd. by exists c, (y ++ rest).
Qed.

Lemma query_date_head query d pat :
  query_date query = Some (d, pat) ->
  exists c t, d = c :: t /\ isdecimal c = true.
Proof.
  unfold query_date, re_search.
  destruct (search_from japanese_date_re None query) as [caps|] eqn:E1.
  { apply search_from_sound in E1 as (j & p & E1).
    apply japanese_match_sound in E1
      as (y & m & dd & post & _ & Hy & _ & _ & ->).
    intros [= <- <-]. cbn [group nth]. by apply year_head. }
  destruct (search_from slash_date_re None query) as [caps|] eqn:E2.
  { apply search_from_sound in E2 as (j & p & E2).
    apply slash_match_sound in E2
      as (y & m & dd & post & _ & Hy & _ & _ & ->).
    intros [= <- <-]. cbn [group nth]. by apply year_head. }
  destruct (search_from numeric_date_re None query) as [caps|] eqn:E3; [|done].
  apply search_from_sound in E3 as (j & p & E3).
  apply numeric_match_sound in E3
    as (y & m & dd & post & _ & Hy & _ & _ & _ & _ & ->).
  intros [= <- <-]. cbn [group nth]. by apply year_head.
Qed.

Lemma head_app_known (l x : text) c :
  head l = Some c -> head (l ++ x) = Some c.
Proof. by destruct l. Qed.

(** X26. Provided lower-casing neither creates nor removes an occurrence
    of the word 日報, the keyword list of [get_relevant_content] is never
    empty, and the guidance message of the empty list is never what
    [get_relevant_content] returns. *)
Theorem guidance_message_unreachable (repr_str : text -> text)
    (self : OneDriveSearch.OneDriveSearch) (query : text)
    (max_files : option Z) (max_chars : Z) :
  (extract_keywords env query).2 <> []
  /\ (get_relevant_content repr_str env self query max_files max_chars).1
     <> no_keywords_message.
Proof using lower_keeps.
  pose proof (keywords_never_empty query) as Hk.
  split; [exact Hk|].
  assert (head no_keywords_message = Some 26908%N) as Hg by (by vm_compute).
  unfold get_relevant_content.
  assert ((extract_keywords env query).1 = fst <$> query_date query) as Hd
    by reflexivity.
  destruct (extract_keywords env query) as [date_str keywords].
  cbn [fst snd] in Hk, Hd.
  destruct keywords as [|k keywords]; [done|].
  destruct (search_files _ _ _ _ _ _ _) as [results self'].
  intros E. apply (f_equal head) in E. rewrite Hg in E.
  destruct results as [|r results]; cbn [fst] in E.
  - unfold not_found_message in E. destruct date_str as [d|].
    + destruct (query_date query) as [[d' pat]|] eqn:Eq; [|done].
      cbn in Hd. injection Hd as ->.
      apply query_date_head in Eq as (c & t & -> & Hc).
      cbn in E. injection E as ->. by vm_compute in Hc.
    + rewrite (head_app_known _ _ 12461%N) in E by (by vm_compute). done.
  - destruct (content_loop_shape env self' max_chars (length (r :: results))
                (r :: results) 0 (found_header (length (r :: results)))
                (len (found_header (length (r :: results)))))
      as (shown & tail & Heq & _); [done|done|].
    rewrite Heq in E. unfold found_header in E.
    rewrite <- !app_assoc in E.
    rewrite (head_app_known _ _ 45%N) in E by (by vm_compute). done.
Qed.

End Keywords.

Lemma guidance_message_unreachable_witness :
  (extract_keywords (Demo.demo_env Demo.hello 0 0 []) (U "the")).2 <> []
  /\ (get_relevant_content Demo.demo_repr (Demo.demo_env Demo.hello 0 0 [])
        (Demo.demo_self ∅) (U "the") None 8000).1
     <> no_keywords_message.
Proof.
  apply guidance_message_unreachable. intros s. reflexivity.
Defined.

End KeywordProofs.

(** ** Delivery of the answer (teams_webhook.py) *)
Module TeamsWebhookProofs.
Import TeamsWebhook WebhookSpec TextSpec TextProofs.

(** *** Text functions *)

Lemma starts_with_length (p s : text) :
  starts_with p s = true -> (length p <= length s)%nat.
Proof.
  revert s. induction p as [|c p IH]; intros [|d s] H; simpl in *;
    try lia; try discriminate.
  apply andb_true_iff in H as [_ H]. apply IH in H. lia.
Qed.

(** Replacing by a text that is not longer does not lengthen. *)
Lemma replace_aux_length (old new : text) :
  old <> [] -> (length new <= length old)%nat ->
  forall s k, (k <= length s)%nat ->
  (length (replace_aux old new k s) + k <= length s)%nat.
Proof.
  intros Hold Hnew. induction s as [|c s IH]; intros k Hk; simpl in *.
  - lia.
  - destruct k as [|k].
    + destruct (starts_with old (c :: s)) eqn:E.
      * apply starts_with_length in E. simpl in E.
        destruct old as [|o old]; [done|]. simpl in *.
        rewrite length_app.
        specialize (IH (length old - 0)%nat). lia.
      * simpl. specialize (IH 0%nat). lia.
    + specialize (IH k). lia.
Qed.

Lemma replace_length (old new s : text) :
  old <> [] -> (length new <= length old)%nat ->
  (length (replace old new s) <= length s)%nat.
Proof.
  intros Hold Hnew.
  pose proof (replace_aux_length old new Hold Hnew s 0%nat). unfold replace.
  lia.
Qed.

Lemma rewrite_line_length (line : text) :
  (length (rewrite_line line) <= length line)%nat.
Proof.
  unfold rewrite_line.
  assert (U "**" <> []) as H1 by (by vm_compute).
  assert (U "* " <> []) as H2 by (by vm_compute).
  assert (length (U "・") <= length (U "* "))%nat as H3
    by (vm_compute; lia).
  pose proof (replace_length (U "**") [] line H1 ltac:(simpl; lia)).
  pose proof (replace_length (U "* ") (U "・")
                (replace (U "**") [] line) H2 H3).
  lia.
Qed.

Lemma split_on_aux_weight sep s :
  forall cur,
  lines_weight (split_on_aux sep cur s) = (len cur + len s + 1)%Z.
Proof.
  induction s as [|c s IH]; intros cur; simpl.
  - unfold len. rewrite length_rev. simpl. lia.
  - destruct (c =? sep)%N; simpl.
    + rewrite IH. unfold len. rewrite length_rev. simpl. lia.
    + rewrite IH. unfold len. simpl. lia.
Qed.

Lemma split_on_nonempty sep s : split_on sep s <> [].
Proof.
  unfold split_on. generalize (@nil N).
  induction s as [|c s IH]; intros cur; simpl; [done|].
  destruct (c =? sep)%N; [done|apply IH].
Qed.

(** *** The blocks *)

(** A block is within the limit unless it is one line by itself. *)
Lemma split_loop_blocks max_len (all_lines : list text) lines :
  forall buf,
  (forall l, l ∈ lines -> l ∈ all_lines) ->
  ((length buf <= max_len)%nat
   \/ exists line, line ∈ all_lines /\ buf = rewrite_line line) ->
  forall b, b ∈ split_loop max_len lines buf ->
  (length b <= max_len)%nat
  \/ exists line, line ∈ all_lines /\ b = rewrite_line line.
Proof.
  induction lines as [|l lines IH]; intros buf Hsub Hbuf b Hb; simpl in Hb.
  - destruct buf; [by apply elem_of_nil in Hb|].
    apply list_elem_of_singleton in Hb. by subst.
  - assert (l ∈ all_lines) as Hl by (apply Hsub; left).
    assert (forall l', l' ∈ lines -> l' ∈ all_lines) as Hsub'
      by (intros l' Hl'; apply Hsub; by right).
    destruct (max_len <? _)%nat eqn:E.
    + apply elem_of_cons in Hb as [->|Hb]; [done|].
      apply (IH (rewrite_line l)); [done| |done]. right. by exists l.
    + apply Nat.ltb_ge in E.
      apply (IH _ Hsub' ) in Hb; [done|]. left.
      rewrite !length_app. destruct buf; simpl in *; lia.
Qed.

(** The blocks never hold more characters than the text they are cut
    from. *)
Lemma split_loop_total max_len lines :
  forall buf,
  (total_length (split_loop max_len lines buf)
   + (match buf, lines with [], _ :: _ => 1 | _, _ => 0 end)
   <= len buf + lines_weight lines)%Z.
Proof.
  induction lines as [|l lines IH]; intros buf; simpl.
  - destruct buf; simpl; unfold len; simpl; lia.
  - pose proof (rewrite_line_length l) as Hl.
    destruct (max_len <? _)%nat.
    + specialize (IH (rewrite_line l)). simpl.
      unfold len in *. destruct buf, (rewrite_line l), lines; simpl in *; lia.
    + specialize (IH (buf ++ match buf with [] => [] | _ => [10%N] end
                      ++ rewrite_line l)).
      unfold len in *. rewrite !length_app in IH.
      destruct buf; simpl in *.
      * destruct (rewrite_line l), lines; simpl in *; lia.
      * destruct lines; simpl in *; lia.
Qed.

Lemma split_text_blocks_total (t : text) (max_len : nat) :
  (total_length (split_text_blocks t max_len) <= len t)%Z.
Proof.
  unfold split_text_blocks.
  pose proof (split_loop_total max_len (split_on 10%N t) []) as H.
  pose proof (split_on_nonempty 10%N t) as Hne.
  unfold split_on in *. rewrite split_on_aux_weight in H.
  destruct (split_on_aux 10%N [] t); [done|].
  unfold len in *. simpl in *. lia.
Qed.

Lemma total_length_app a b :
  total_length (a ++ b) = (total_length a + total_length b)%Z.
Proof. induction a as [|x a IH]; simpl; lia. Qed.

Lemma total_length_nonneg a : (0 <= total_length a)%Z.
Proof. induction a as [|x a IH]; simpl; unfold len; lia. Qed.

(** The blocks that are kept are the first of the list; when one is not
    kept, there were more than ten or they do not fit in 9000
    characters. *)
Lemma limit_loop_spec blocks :
  forall limited total,
  total = total_length limited ->
  (length limited <= 10)%nat -> (total <= 9000)%Z ->
  exists more,
    (limit_loop blocks limited total).1 = limited ++ more
    /\ more `prefix_of` blocks
    /\ (limit_loop blocks limited total).2 = total_length (limited ++ more)
    /\ (length (limited ++ more) <= 10)%nat
    /\ (total_length (limited ++ more) <= 9000)%Z
    /\ (more = blocks
        \/ (10 < length (limited ++ blocks))%nat
        \/ (total_length (limited ++ more)
            < total_length (limited ++ blocks))%Z).
Proof.
  induction blocks as [|b blocks IH]; intros limited total Ht Hn Hsz.
  - simpl. exists []. rewrite app_nil_r.
    split; [done|]. split; [done|]. split; [done|]. split; [done|].
    split; [lia|by left].
  - cbn [limit_loop]. unfold MAX_BLOCKS, MAX_TOTAL_LEN.
    destruct (10 <=? length limited)%nat eqn:E1; cbn [orb fst snd].
    { apply Nat.leb_le in E1. exists []. rewrite app_nil_r.
      split; [done|]. split; [apply prefix_nil|].
      split; [done|]. split; [done|]. split; [lia|].
      right; left. rewrite length_app. simpl. lia. }
    destruct (9000 <? total + len b)%Z eqn:E2; cbn [fst snd].
    { apply Z.ltb_lt in E2. exists []. rewrite app_nil_r.
      split; [done|]. split; [apply prefix_nil|].
      split; [done|]. split; [done|]. split; [lia|].
      right; right. rewrite total_length_app. simpl.
      pose proof (total_length_nonneg blocks). lia. }
    apply Nat.leb_gt in E1. apply Z.ltb_ge in E2.
    destruct (IH (limited ++ [b]) (total + len b)%Z)
      as (more & H1 & H2 & H3 & H4 & H5 & H6).
    { rewrite total_length_app. simpl. lia. }
    { rewrite length_app. simpl. lia. }
    { lia. }
    rewrite <- app_assoc in *. simpl in *.
    exists (b :: more). split; [done|].
    split; [by apply prefix_cons|]. split; [done|]. split; [done|].
    split; [done|].
    destruct H6 as [->|[H6|H6]]; [by left|right; by left|right; right].
    by rewrite <- app_assoc in H6.
Qed.

(** *** Runs of lines *)

Lemma join_snoc sep (l : list text) x :
  l <> [] -> join sep (l ++ [x]) = join sep l ++ sep ++ x.
Proof.
  induction l as [|y l IH]; [done|]. intros _.
  destruct l as [|z l]; [done|].
  change (join sep ((y :: z :: l) ++ [x]))
    with (y ++ sep ++ join sep ((z :: l) ++ [x])).
  rewrite IH by done.
  change (join sep (y :: z :: l)) with (y ++ sep ++ join sep (z :: l)).
  by rewrite <- !app_assoc.
Qed.

Lemma block_of_single l : block_of [l] = l.
Proof. by destruct l. Qed.

(** What the buffer becomes when a line is added to it. *)
Lemma block_of_snoc run l :
  block_of (run ++ [l])
  = block_of run ++ match block_of run with [] => [] | _ => [10%N] end ++ l.
Proof.
  induction run as [|x run IH].
  - by destruct l.
  - destruct x as [|c x].
    + exact IH.
    + unfold block_of.
      change (drop_while is_empty (((c :: x) :: run) ++ [l]))
        with (((c :: x) :: run) ++ [l]).
      change (drop_while is_empty ((c :: x) :: run)) with ((c :: x) :: run).
      rewrite join_snoc by done.
      destruct (join [10%N] ((c :: x) :: run)) eqn:E; [|done].
      by apply join_nonempty in E.
Qed.

(** The loop, from any point on: the buffer is the block of the run read
    so far, and the lines that follow extend that run and open the next
    ones. *)
Lemma split_loop_runs max_len lines :
  forall run, fits max_len run ->
  exists runs last more,
    head (runs ++ [last]) = Some (run ++ more)
    /\ concat (runs ++ [last]) = run ++ map rewrite_line lines
    /\ split_loop max_len lines (block_of run)
       = map block_of runs ++ closing (block_of last)
    /\ Forall (fits max_len) (runs ++ [last])
    /\ greedy max_len (runs ++ [last]).
Proof.
  induction lines as [|line lines IH]; intros run Hrun.
  - exists [], run, []. cbn [app map concat head]. rewrite !app_nil_r.
    split; [done|]. split; [done|]. split; [done|].
    split; [by constructor|]. intros [|i] r r' _ H; discriminate H.
  - cbn [split_loop map]. set (l := rewrite_line line).
    destruct (max_len <? _)%nat eqn:E.
    + apply Nat.ltb_lt in E.
      destruct (IH [l]) as (runs & last & more & Hh & Hc & Hs & Hf & Hg).
      { right. by exists l. }
      rewrite block_of_single in Hs.
      exists (run :: runs), last, []. cbn [app map concat head].
      rewrite app_nil_r. split; [done|].
      split; [by rewrite Hc|]. split; [by rewrite Hs|].
      split; [by constructor|].
      intros [|i] r r' Hr Hr'.
      * injection Hr as <-.
        change ((runs ++ [last]) !! 0%nat = Some r') in Hr'.
        rewrite <- head_lookup, Hh in Hr'. injection Hr' as <-.
        by exists l, more.
      * exact (Hg i r r' Hr Hr').
    + apply Nat.ltb_ge in E.
      destruct (IH (run ++ [l]))
        as (runs & last & more & Hh & Hc & Hs & Hf & Hg).
      { left. rewrite block_of_snoc, !length_app.
        destruct (block_of run); simpl in *; lia. }
      rewrite block_of_snoc in Hs.
      exists runs, last, (l :: more).
      rewrite <- app_assoc in Hh, Hc. by repeat split.
Qed.

(** C6, as the code has it. The answer is cut at line ends only. Its
    lines, each with [**] removed and [* ] rewritten to a middle dot, fall
    into consecutive runs; every run but the last gives the block of its
    lines joined by line feeds (empty lines at its start left out), and
    the last run gives one unless that block is empty.  A run ends only
    where the next line would bring the block over 900 characters, so a
    block is at most 900 characters long unless it is a single rewritten
    line, which is never split.  The blocks that are kept are the first
    of the list, at most 10 and at most 9000 characters in total; the
    list handed to the card is these blocks, followed by the notice block
    whenever a block was left out. *)
Theorem answer_blocks_shape (response : text) :
  let lines := map rewrite_line (split_on 10%N response) in
  let blocks := split_text_blocks response 900 in
  (exists runs last,
     concat (runs ++ [last]) = lines
     /\ blocks = map block_of runs ++ closing (block_of last)
     /\ Forall (fits 900) (runs ++ [last])
     /\ greedy 900 (runs ++ [last]))
  /\ (forall b, b ∈ blocks ->
        (length b <= 900)%nat
        \/ exists line, line ∈ split_on 10%N response /\ b = rewrite_line line)
  /\ exists kept,
       kept `prefix_of` blocks
       /\ (length kept <= 10)%nat
       /\ (total_length kept <= 9000)%Z
       /\ (answer_blocks response = kept
           \/ answer_blocks response = kept ++ [truncation_notice])
       /\ (kept <> blocks ->
           answer_blocks response = kept ++ [truncation_notice]).
Proof.
  intros lines blocks. split; [|split].
  - destruct (split_loop_runs 900 (split_on 10%N response) [])
      as (runs & last & more & _ & Hc & Hs & Hf & Hg).
    { left. simpl. lia. }
    by exists runs, last.
  - intros b Hb.
    apply (split_loop_blocks 900 (split_on 10%N response)
             (split_on 10%N response) []); auto.
    left. simpl. lia.
  - destruct (limit_loop_spec blocks [] 0%Z) as
      (kept & H1 & H2 & H3 & H4 & H5 & H6); [done|simpl; lia|lia|].
    simpl in *. exists kept.
    split; [done|]. split; [done|]. split; [done|].
    unfold answer_blocks. fold blocks.
    destruct (limit_loop blocks [] 0) as [limited total_len].
    simpl in *. subst limited total_len.
    split; [destruct (_ || _); auto|].
    intros Hcut.
    assert (((MAX_BLOCKS <? length blocks)%nat
             || (total_length kept <? len response)%Z) = true) as ->;
      [|done].
    apply orb_true_iff.
    destruct H6 as [->|[H6|H6]]; [done|left|right].
    + apply Nat.ltb_lt. unfold MAX_BLOCKS. lia.
    + apply Z.ltb_lt.
      pose proof (split_text_blocks_total response 900). fold blocks in H.
      lia.
Qed.

(** Counterexample to C6 as stated: an answer that is one line of 2000
    characters gives an empty block and a block of 2000 characters, and no
    notice. *)
Lemma long_line_block :
  answer_blocks (replicate 2000 97%N) = [[]; replicate 2000 97%N].
Proof. by vm_compute. Qed.

(** *** The fallback chain *)

Lemma shape_root body : shape_of (root_attachments body) = Some RootCard.
Proof. by vm_compute. Qed.

Lemma shape_legacy c q s n r :
  shape_of (legacy_payload c q s n r) = Some LegacyCard.
Proof. by vm_compute. Qed.

Lemma shape_simple q s n r :
  shape_of (simple_payload q s n r) = Some PlainText.
Proof. by vm_compute. Qed.

Section Send.
Context (web : Web) (webhook_url : text).

Lemma build_payloads_shapes query response search_path root legacy simple :
  build_payloads web query response search_path = Ok (root, legacy, simple) ->
  shape_of root = Some RootCard /\ shape_of legacy = Some LegacyCard
  /\ shape_of simple = Some PlainText.
Proof.
  unfold build_payloads.
  destruct (now_string web) as [now|e]; cbn [mbind result_bind Py.bind];
    [|done].
  destruct (utf8_encode _) as [card_bytes|]; [|done].
  intros [= <- <- <-]. split; [|split].
  - by destruct (_ <? _)%Z; apply shape_root.
  - apply shape_legacy.
  - apply shape_simple.
Qed.

(** The three attempts for payloads of the three shapes. *)
Lemma deliver_chain root legacy simple :
  shape_of root = Some RootCard -> shape_of legacy = Some LegacyCard ->
  shape_of simple = Some PlainText ->
  let out := deliver web webhook_url root legacy simple in
  (exists n, (n <= 3)%nat
     /\ map (fun a : attempt => shape_of a.1) out.2
        = take n [Some RootCard; Some LegacyCard; Some PlainText])
  /\ (forall k a, out.2 !! k = Some a ->
        a.2 = http_post web (S k) webhook_url a.1)
  /\ (forall k a, out.2 !! k = Some a ->
        if response_ok a.2
        then length out.2 = S k
             /\ exists fmt, [fmt_root; fmt_legacy; fmt_simple] !! k = Some fmt
                  /\ out.1 = success (status_code a.2) fmt
        else if (k <? 2)%nat then (S k < length out.2)%nat
             else out.1 = last_error a.2)
  /\ out.2 <> [].
Proof.
  intros H1 H2 H3 out. subst out. unfold deliver.
  destruct (http_post web 1 webhook_url root) as [[c1 b1]|e1] eqn:E1;
    [destruct (is_2xx c1) eqn:X1|];
    (try (destruct (http_post web 2 webhook_url legacy) as [[c2 b2]|e2] eqn:E2;
          [destruct (is_2xx c2) eqn:X2|]));
    (try (destruct (http_post web 3 webhook_url simple) as [[c3 b3]|e3] eqn:E3;
          [destruct (is_2xx c3) eqn:X3|]));
    cbn [fst snd map length];
    (split; [|split; [|split; [|done]]]);
    try (match goal with
         | |- exists n, _ /\ [_] = _ => exists 1%nat
         | |- exists n, _ /\ [_; _] = _ => exists 2%nat
         | |- exists n, _ /\ [_; _; _] = _ => exists 3%nat
         end; rewrite ?H1, ?H2, ?H3; split; [lia|reflexivity]);
    intros [|[|[|k]]] a Ha; try discriminate Ha; injection Ha as <-;
    cbn [fst snd response_ok status_code last_error length Nat.ltb Nat.leb];
    rewrite ?X1, ?X2, ?X3; try done; try lia;
    (split; [done|]); eexists; (split; [reflexivity|done]).
Qed.

(** C5. The POSTs of [send_ollama_response] are, in this order, the card
    at the root, the card wrapped in [body] and the plain text, each at
    most once and each recorded with what the peer answered to it.  The
    first attempt answered with a 2xx status is the last, and the result
    is a success with that status and the name of the format; an attempt
    that fails (another status or an exception) is followed by the next
    one, and after a failed third attempt the result is an error with the
    status code and body of that response, or the message of its
    exception.  So when the first two fail and the third gets a 2xx
    status, the result is a success in the simple format after exactly
    three POSTs.  No POST at all is made exactly when the payloads cannot
    be built, and the result is then an error without a status code. *)
Theorem delivery_fallback_chain (query response : text)
    (search_path : option text) :
  let out := send_ollama_response web webhook_url query response search_path in
  (exists n, (n <= 3)%nat
     /\ map (fun a : attempt => shape_of a.1) out.2
        = take n [Some RootCard; Some LegacyCard; Some PlainText])
  /\ (forall k a, out.2 !! k = Some a ->
        a.2 = http_post web (S k) webhook_url a.1)
  /\ (forall k a, out.2 !! k = Some a ->
        if response_ok a.2
        then length out.2 = S k
             /\ exists fmt, [fmt_root; fmt_legacy; fmt_simple] !! k = Some fmt
                  /\ out.1 = success (status_code a.2) fmt
        else if (k <? 2)%nat then (S k < length out.2)%nat
             else out.1 = last_error a.2)
  /\ (out.2 = []
      <-> exists e, build_payloads web query response search_path = Raise e)
  /\ (out.2 = [] ->
      status out.1 = U "error" /\ code out.1 = None /\ format out.1 = None).
Proof.
  intros out. subst out. unfold send_ollama_response.
  destruct (build_payloads web query response search_path)
    as [[[root legacy] simple]|e] eqn:Hb.
  - apply build_payloads_shapes in Hb as (H1 & H2 & H3).
    destruct (deliver_chain root legacy simple H1 H2 H3)
      as (Hshape & Hpost & Hstep & Hne).
    split; [exact Hshape|]. split; [exact Hpost|]. split; [exact Hstep|].
    split; [|done]. split; [done|]. by intros [e He].
  - cbn [fst snd].
    split; [exists 0%nat; split; [lia|done]|].
    split; [intros k a Ha; by destruct k|].
    split; [intros k a Ha; by destruct k|].
    split; [split; [by eexists|done]|done].
Qed.

End Send.

Lemma delivery_fallback_chain_witness :
  let out :=
    send_ollama_response WebDemo.third_time_lucky WebDemo.demo_url
      (U "q") (U "answer") None in
  out.1 = success 200 fmt_simple
  /\ map (fun a : attempt => shape_of a.1) out.2
     = [Some RootCard; Some LegacyCard; Some PlainText].
Proof.
  intros out.
  destruct (delivery_fallback_chain WebDemo.third_time_lucky
              WebDemo.demo_url (U "q") (U "answer") None)
    as ((n & Hn & Hshape) & Hpost & Hstep & Hnone & _).
  fold out in Hshape, Hpost, Hstep, Hnone.
  destruct out as [result attempts]. cbn [fst snd] in *.
  destruct attempts as [|a1 attempts].
  { destruct (proj1 Hnone eq_refl) as [e He].
    vm_compute in He. discriminate He. }
  pose proof (Hpost 0%nat a1 eq_refl) as P1.
  pose proof (Hstep 0%nat a1 eq_refl) as S1. rewrite P1 in S1.
  cbn in S1.
  destruct attempts as [|a2 attempts]; [simpl in S1; lia|].
  pose proof (Hpost 1%nat a2 eq_refl) as P2.
  pose proof (Hstep 1%nat a2 eq_refl) as S2. rewrite P2 in S2.
  cbn in S2.
  destruct attempts as [|a3 attempts]; [simpl in S2; lia|].
  pose proof (Hpost 2%nat a3 eq_refl) as P3.
  pose proof (Hstep 2%nat a3 eq_refl) as S3. rewrite P3 in S3.
  cbn in S3. destruct S3 as (Hlen & fmt & [= <-] & ->).
  destruct attempts; [|discriminate Hlen].
  split; [reflexivity|].
  destruct n as [|[|[|[|n]]]]; try lia; try discriminate Hshape.
  exact Hshape.
Defined.

End TeamsWebhookProofs.

(** ** The card (teams_webhook.py) *)
Module CardProofs.
Import FileExtractor OneDriveSearch TeamsWebhook WebhookSpec.
Import TextSpec TextProofs TeamsWebhookProofs.

Lemma replace_aux_Forall (P : char -> Prop) old new :
  Forall P new ->
  forall s k, Forall P s -> Forall P (replace_aux old new k s).
Proof.
  intros Hnew. induction s as [|c s IH]; intros k Hs; [constructor|].
  apply Forall_cons in Hs as [Hc Hs]. cbn [replace_aux].
  destruct k as [|k]; [|by apply IH].
  destruct (starts_with old (c :: s)).
  - apply Forall_app. split; [done|by apply IH].
  - constructor; [done|by apply IH].
Qed.

Lemma replace_Forall (P : char -> Prop) old new s :
  Forall P new -> Forall P s -> Forall P (replace old new s).
Proof. intros. by apply replace_aux_Forall. Qed.

Lemma split_on_aux_Forall (P : char -> Prop) sep s :
  forall cur, Forall P cur -> Forall P s ->
  Forall (Forall P) (split_on_aux sep cur s).
Proof.
  induction s as [|c s IH]; intros cur Hcur Hs; cbn [split_on_aux].
  - repeat constructor. by apply Forall_rev.
  - apply Forall_cons in Hs as [Hc Hs]. destruct (c =? sep)%N.
    + constructor; [by apply Forall_rev|]. by apply IH.
    + apply IH; [by constructor|done].
Qed.

Lemma split_loop_Forall (P : char -> Prop) max_len lines :
  P 10%N -> keeps P rewrite_line ->
  forall buf, Forall P buf -> Forall (Forall P) lines ->
  Forall (Forall P) (split_loop max_len lines buf).
Proof.
  intros Hnl Hrw. induction lines as [|l lines IH]; intros buf Hbuf Hlines.
  - cbn. destruct buf; [constructor|by constructor].
  - apply Forall_cons in Hlines as [Hl Hlines]. cbn [split_loop].
    destruct (max_len <? _)%nat.
    + constructor; [done|]. apply IH; [by apply Hrw|done].
    + apply IH; [|done]. apply Forall_app. split; [done|].
      apply Forall_app. split; [|by apply Hrw].
      destruct buf; [constructor|by repeat constructor].
Qed.

Lemma control_char_filtered s :
  Forall (fun c => control_char c = false) (remove_control_chars s).
Proof.
  unfold remove_control_chars. apply Forall_forall. intros c Hc.
  apply list_elem_of_In, filter_In in Hc as [_ Hc].
  by apply negb_true_iff in Hc.
Qed.

Lemma no_control_check s :
  forallb (fun c => negb (control_char c)) s = true ->
  Forall (fun c => control_char c = false) s.
Proof.
  rewrite forallb_forall, Forall_forall. intros H c Hc.
  by apply negb_true_iff, H, list_elem_of_In.
Qed.

(** X12. After [remove_control_chars], no block handed to the card holds
    a control character, a surrogate or one of U+FFFE and U+FFFF: the line
    splitting, the rewriting of the markup and the notice block bring none
    in. *)
Theorem answer_blocks_no_control_chars (response : text) :
  Forall (Forall (fun c => control_char c = false))
         (answer_blocks (remove_control_chars response)).
Proof.
  set (P := fun c => control_char c = false).
  assert (Forall (Forall P)
            (split_text_blocks (remove_control_chars response) 900)) as Hb.
  { apply split_loop_Forall; [done| |constructor|].
    - intros l Hl. unfold rewrite_line.
      apply replace_Forall; [apply no_control_check; by vm_compute|].
      apply replace_Forall; [constructor|done].
    - apply split_on_aux_Forall; [constructor|apply control_char_filtered]. }
  unfold answer_blocks.
  set (blocks := split_text_blocks (remove_control_chars response) 900) in *.
  destruct (limit_loop_spec blocks [] 0 eq_refl ltac:(simpl; lia) ltac:(lia))
    as (more & Hkept & Hpre & _).
  destruct (limit_loop blocks [] 0) as [kept total]. cbn [fst app] in Hkept.
  subst kept.
  assert (Forall (Forall P) more) as Hmore.
  { destruct Hpre as [rest ->]. by apply Forall_app in Hb as [Hb _]. }
  destruct (_ || _); [|done].
  apply Forall_app. split; [done|].
  constructor; [|constructor].
  apply no_control_check. by vm_compute.
Qed.
(** X13. Whenever the payloads are built, the card posted first
    serialises, with [ensure_ascii=False] and in UTF-8, to at most 25000
    bytes: a larger card is replaced by the fixed too-long card. *)
Theorem root_payload_within_limit (web : Web) (query response : text)
    (search_path : option text) (root legacy simple : json) :
  build_payloads web query response search_path = Ok (root, legacy, simple) ->
  exists card_bytes,
    utf8_encode (json_dumps root) = Some card_bytes
    /\ (Z.of_nat (length card_bytes) <= 25000)%Z.
Proof.
  assert (match utf8_encode (json_dumps (root_attachments too_long_body)) with
          | Some b => (Z.of_nat (length b) <=? 25000)%Z
          | None => false
          end = true) as Hsmall by (by vm_compute).
  unfold build_payloads.
  destruct (now_string web) as [now|e]; [|done].
  cbn [mbind result_bind Py.bind].
  match goal with
  | |- context [utf8_encode (json_dumps ?r)] =>
    set (full := r); destruct (utf8_encode (json_dumps full)) as [b|] eqn:E
  end; [|done].
  destruct (25000 <? Z.of_nat (length b))%Z eqn:Hbig; intros [= <- _ _].
  - destruct (utf8_encode (json_dumps (root_attachments too_long_body)))
      as [small|]; [|done].
    exists small. split; [done|]. by apply Z.leb_le.
  - exists b. split; [done|]. by apply Z.ltb_ge in Hbig.
Qed.

Lemma root_payload_within_limit_witness :
  exists root legacy simple card_bytes,
    build_payloads WebDemo.third_time_lucky (U "q") (U "answer") None
    = Ok (root, legacy, simple)
    /\ utf8_encode (json_dumps root) = Some card_bytes
    /\ (Z.of_nat (length card_bytes) <= 25000)%Z.
Proof.
  destruct (build_payloads WebDemo.third_time_lucky (U "q") (U "answer") None)
    as [[[root legacy] simple]|e] eqn:Hbuild.
  - destruct (root_payload_within_limit _ _ _ _ _ _ _ Hbuild)
      as (b & H1 & H2).
    by exists root, legacy, simple, b.
  - vm_compute in Hbuild. discriminate Hbuild.
Defined.
End CardProofs.

(** ** A question that cannot be encoded (teams_webhook.py) *)
Module SurrogateProofs.
Import FileExtractor Json TeamsWebhook WebhookSpec TextSpec TextProofs.

Lemma utf8_encode_surrogate s c :
  In c s -> surrogate c = true -> utf8_encode s = None.
Proof.
  intros Hin Hc. induction s as [|d s IH]; [done|].
  cbn [utf8_encode]. destruct Hin as [->|Hin].
  - unfold utf8_encode_char. unfold surrogate in Hc.
    apply andb_true_iff in Hc as [H1 H2].
    apply N.leb_le in H1. apply N.leb_le in H2.
    assert ((c <? 128)%N = false) as -> by (apply N.ltb_ge; lia).
    assert ((c <? 2048)%N = false) as -> by (apply N.ltb_ge; lia).
    assert ((c <? 65536)%N = true) as -> by (apply N.ltb_lt; lia).
    assert ((55296 <=? c)%N = true) as -> by (apply N.leb_le; lia).
    assert ((c <=? 57343)%N = true) as -> by (apply N.leb_le; lia).
    done.
  - rewrite (IH Hin). by destruct (utf8_encode_char d).
Qed.

Lemma in_join sep (x : text) l c : In x l -> In c x -> In c (join sep l).
Proof.
  intros Hx Hc. induction l as [|y l IH]; [done|].
  destruct l as [|z l].
  - destruct Hx as [->|[]]. done.
  - change (join sep (y :: z :: l)) with (y ++ sep ++ join sep (z :: l)).
    destruct Hx as [->|Hx].
    + apply in_or_app. by left.
    + apply in_or_app. right. apply in_or_app. right. by apply IH.
Qed.

Lemma json_string_surrogate s c :
  In c s -> surrogate c = true -> In c (json_string false s).
Proof.
  intros Hin Hc. unfold json_string.
  apply in_or_app. right. apply in_or_app. left.
  apply in_concat. exists [c]. split; [|by left].
  apply in_map_iff. exists c. split; [|done].
  unfold json_escape_char. unfold surrogate in Hc.
  apply andb_true_iff in Hc as [H1 _]. apply N.leb_le in H1.
  repeat match goal with
         | |- context [(c =? ?k)%N] =>
           assert ((c =? k)%N = false) as -> by (apply N.eqb_neq; lia)
         end.
  assert ((c <? 32)%N = false) as -> by (apply N.ltb_ge; lia).
  done.
Qed.

Section Dumps.
Context (item_sep key_sep : text) (c : char).
Local Abbreviation d := (dumps false item_sep key_sep false).

Lemma dumps_str s : In c s -> surrogate c = true -> In c (d (JStr s)).
Proof. apply json_string_surrogate. Qed.

Lemma dumps_list v l : In v l -> In c (d v) -> In c (d (JList l)).
Proof.
  intros Hv Hc. cbn [dumps].
  apply in_or_app. right. apply in_or_app. left.
  apply (in_join _ (d v)); [|done]. by apply in_map.
Qed.

Lemma dumps_dict k v items :
  In (k, v) items -> In c (d v) -> In c (d (JDict items)).
Proof.
  intros Hv Hc. cbn [dumps].
  apply in_or_app. right. apply in_or_app. left.
  apply (in_join _ (json_string false k ++ key_sep ++ d v)).
  - apply in_map_iff. exists (k, d v). split; [done|].
    apply in_map_iff. by exists (k, v).
  - apply in_or_app. right. apply in_or_app. by right.
Qed.
End Dumps.

(** X28. A question that holds a surrogate code point is not delivered by
    [send_ollama_response]: the size check of the card raises on it, the
    result is an error without a status code, and no POST is made. *)
Theorem surrogate_query_not_sent (web : Web) (webhook_url : text)
    (query response : text) (search_path : option text) (c : char) :
  In c query -> surrogate c = true ->
  let out := send_ollama_response web webhook_url query response search_path in
  status out.1 = U "error" /\ code out.1 = None /\ out.2 = [].
Proof.
  intros Hin Hc out. subst out.
  unfold send_ollama_response, build_payloads.
  destruct (now_string web) as [now|e]; cbn [mbind result_bind Py.bind];
    [|done].
  set (root := root_attachments _).
  assert (In c (json_dumps root)) as Hroot.
  { unfold json_dumps. subst root. unfold root_attachments.
    eapply dumps_dict; [by left|].
    eapply dumps_list; [by left|].
    unfold adaptive_card.
    eapply dumps_dict; [right; by left|].
    eapply dumps_dict; [right; by left|].
    unfold root_body.
    eapply dumps_list; [right; by left|].
    unfold textblock.
    eapply dumps_dict; [right; by left|].
    apply dumps_str; [|done].
    apply in_or_app. by right. }
  by rewrite (utf8_encode_surrogate _ c Hroot Hc).
Qed.

Lemma surrogate_query_not_sent_witness :
  let out := send_ollama_response WebDemo.third_time_lucky WebDemo.demo_url
               [55296%N] (U "answer") None in
  status out.1 = U "error" /\ code out.1 = None /\ out.2 = [].
Proof.
  apply (surrogate_query_not_sent _ _ _ _ _ 55296%N); [by left|reflexivity].
Defined.

End SurrogateProofs.

(** ** Signature verification (teams_auth.py, routes.py) *)
Module TeamsAuthProofs.
Import Json Crypto TeamsAuth AuthSpec.
Import OneDriveSearchProofs.

(** *** Digests and encodings *)

Lemma sha256_round_length st kw :
  length st = 8%nat -> length (sha256_round st kw) = 8%nat.
Proof.
  intros H.
  destruct st as [|a [|b [|c [|d [|e [|f [|g [|h [|]]]]]]]]];
    try discriminate H.
  reflexivity.
Qed.

Lemma sha256_rounds_length kws :
  forall st, length st = 8%nat ->
  length (fold_left sha256_round kws st) = 8%nat.
Proof.
  induction kws as [|kw kws IH]; intros st H; simpl; [done|].
  apply IH. by apply sha256_round_length.
Qed.

Lemma sha256_block_length h blk :
  length h = 8%nat -> length (sha256_block h blk) = 8%nat.
Proof.
  intros H. unfold sha256_block.
  rewrite length_map, length_combine, sha256_rounds_length by done. lia.
Qed.

Lemma sha256_blocks_length blks :
  forall h, length h = 8%nat ->
  length (fold_left sha256_block blks h) = 8%nat.
Proof.
  induction blks as [|b blks IH]; intros h H; simpl; [done|].
  apply IH. by apply sha256_block_length.
Qed.

(** A SHA-256 digest has 32 octets. *)
Lemma sha256_length msg : length (sha256 msg) = 32%nat.
Proof.
  unfold sha256.
  pose proof (sha256_blocks_length (blocks_of msg) sha256_h0 eq_refl) as H.
  destruct (fold_left sha256_block (blocks_of msg) sha256_h0)
    as [|a [|b [|c [|d [|e [|f [|g [|h [|]]]]]]]]]; try discriminate H.
  reflexivity.
Qed.

Lemma hmac_sha256_length key msg : length (hmac sha256 key msg) = 32%nat.
Proof. unfold hmac. apply sha256_length. Qed.

Lemma b64_char_ok n : b64_alphabet_char (b64_char n).
Proof.
  unfold b64_alphabet_char, b64_char.
  destruct (n <? 26)%N eqn:E1; [blia|].
  destruct (n <? 52)%N eqn:E2; [blia|].
  destruct (n <? 62)%N eqn:E3; [blia|].
  destruct (n =? 62)%N; blia.
Qed.

Lemma b64encode_chars :
  forall b, Forall b64_alphabet_char (b64encode b).
Proof.
  assert (b64_alphabet_char 61%N) as Hpad by (unfold b64_alphabet_char; lia).
  fix IH 1. intros [|x [|y [|z rest]]]; simpl.
  - constructor.
  - repeat (constructor; [apply b64_char_ok || exact Hpad|]). constructor.
  - repeat (constructor; [apply b64_char_ok || exact Hpad|]). constructor.
  - repeat (constructor; [apply b64_char_ok|]). apply IH.
Qed.

Lemma b64encode_length b : (length b <= length (b64encode b))%nat.
Proof.
  revert b. fix IH 1.
  intros [|x [|y [|z rest]]]; simpl; [lia|lia|lia|].
  specialize (IH rest). lia.
Qed.

Lemma is_ascii_b64 b : is_ascii (b64encode b) = true.
Proof.
  unfold is_ascii. apply forallb_forall. intros c Hc.
  pose proof (b64encode_chars b) as H. rewrite Forall_forall in H.
  apply list_elem_of_In in Hc. destruct (H c Hc) as [Hlt _].
  by apply N.ltb_lt.
Qed.

(** A base64 text does not begin with the scheme label, which has a
    blank. *)
Lemma no_blank_no_prefix s :
  Forall b64_alphabet_char s -> starts_with hmac_prefix s = false.
Proof.
  intros H.
  destruct s as [|c1 [|c2 [|c3 [|c4 [|c5 s]]]]];
    change hmac_prefix with [72; 77; 65; 67; 32]%N; cbn [starts_with];
    rewrite ?andb_false_r; try done.
  do 4 apply Forall_inv_tail in H. apply Forall_inv in H as [_ H].
  destruct (32 =? c5)%N eqn:E.
  - apply N.eqb_eq in E. by subst.
  - by rewrite andb_false_l, !andb_false_r.
Qed.

Lemma is_ascii_Forall s :
  is_ascii s = true <-> Forall (fun c => (c < 128)%N) s.
Proof.
  unfold is_ascii. rewrite forallb_forall, Forall_forall. split.
  - intros H c Hc. apply N.ltb_lt, H. by apply list_elem_of_In.
  - intros H c Hc. apply N.ltb_lt, H. by apply list_elem_of_In.
Qed.

Lemma is_ascii_rstrip c s : is_ascii s = true -> is_ascii (rstrip_char c s) = true.
Proof.
  rewrite !is_ascii_Forall. unfold rstrip_char. intros H.
  apply Forall_rev. apply Forall_rev in H. revert H.
  generalize (rev s). intros l H.
  induction H as [|x l Hx Hl IH]; simpl; [constructor|].
  destruct (c =? x)%N; [exact IH|by constructor].
Qed.

Lemma hex_char_ascii n : (n < 16)%N -> (hex_char n < 128)%N.
Proof. unfold hex_char. intros H. destruct (n <? 10)%N eqn:E; blia. Qed.

Lemma is_ascii_hex b : Forall (fun x => (x < 256)%N) b -> is_ascii (hex b) = true.
Proof.
  intros H. apply is_ascii_Forall. unfold hex.
  induction H as [|x l Hx Hl IH]; simpl; [constructor|].
  constructor; [apply hex_char_ascii; by apply N.Div0.div_lt_upper_bound|].
  constructor; [apply hex_char_ascii; by apply N.mod_lt|]. exact IH.
Qed.

(** Comparing with an ASCII text: an exception is raised only for a
    text that differs anyway. *)
Lemma compare_digest_ascii a b :
  is_ascii a = true ->
  match compare_digest a b with Ok x => x | Raise _ => false end
  = text_eqb a b.
Proof.
  intros Ha. unfold compare_digest. rewrite Ha. simpl.
  destruct (is_ascii b) eqn:Hb; [done|].
  symmetry. apply bool_decide_eq_false. intros <-. congruence.
Qed.

Lemma text_eqb_refl (a : text) : text_eqb a a = true.
Proof. by apply bool_decide_eq_true. Qed.

(** *** UTF-8 *)

Lemma utf8_encode_char_Some c :
  negb ((55296 <=? c)%N && (c <=? 57343)%N) = true ->
  is_Some (utf8_encode_char c).
Proof.
  intros H. unfold utf8_encode_char.
  destruct (c <? 128)%N; [by eexists|].
  destruct (c <? 2048)%N; [by eexists|].
  destruct (c <? 65536)%N; [|by eexists].
  apply negb_true_iff in H. rewrite H. by eexists.
Qed.

Lemma utf8_encode_Some s : encodable s -> is_Some (utf8_encode s).
Proof.
  induction 1 as [|c s Hc Hs IH]; simpl; [by eexists|].
  destruct (utf8_encode_char_Some c Hc) as [b ->].
  destruct IH as [bs ->]. by eexists.
Qed.

Lemma encode_key tok : encodable tok -> encode tok = Ok (key_of_token tok).
Proof.
  intros H. unfold encode, key_of_token.
  by destruct (utf8_encode_Some tok H) as [b ->].
Qed.

Lemma encodable_ascii s : is_ascii s = true -> encodable s.
Proof.
  rewrite is_ascii_Forall. unfold encodable. intros H.
  eapply Forall_impl; [exact H|]. simpl.
  intros c Hc. apply negb_true_iff. blia.
Qed.

Lemma encodable_rstrip c s : encodable s -> encodable (rstrip_char c s).
Proof.
  unfold encodable, rstrip_char. intros H.
  apply Forall_rev. apply Forall_rev in H. revert H.
  generalize (rev s). intros l H.
  induction H as [|x l Hx Hl IH]; simpl; [constructor|].
  destruct (c =? x)%N; [exact IH|by constructor].
Qed.

(** Every token variant can be encoded when the token can. *)
Lemma token_variants_encodable token :
  encodable token -> Forall encodable (token_variants token).
Proof.
  intros H. unfold token_variants.
  apply Forall_app. split; [by repeat constructor|].
  apply Forall_app. split.
  { destruct (negb _); [|constructor]. repeat constructor.
    unfold pad_to_4. apply Forall_app. split; [done|].
    apply Forall_replicate. by vm_compute. }
  apply Forall_app. split.
  { destruct (ends_with _ _); [|constructor]. repeat constructor.
    by apply encodable_rstrip. }
  destruct (b64decode token); [|constructor]. repeat constructor.
  apply encodable_ascii, is_ascii_b64.
Qed.

(** *** The loops *)

Section Verify.
Context (json_loads : text -> option json).

Lemma hmac_digest_bytes algo key msg :
  Forall (fun x => (x < 256)%N) (hmac_digest algo key msg).
Proof.
  assert (forall w, Forall (fun x => (x < 256)%N) (bytes_of_word 4 w)) as Hw.
  { intros w. unfold bytes_of_word. apply Forall_map, Forall_forall.
    intros i _. simpl. by apply N.mod_lt. }
  assert (forall ws, Forall (fun x => (x < 256)%N)
                       (concat (map (bytes_of_word 4) ws))) as Hc.
  { induction ws as [|w ws IH]; [constructor|].
    cbn [map concat]. apply Forall_app. split; [apply Hw|apply IH]. }
  destruct algo; unfold hmac_digest, hmac, sha256, sha1; apply Hc.
Qed.

Lemma format_func_ascii f algo key msg :
  is_ascii (format_func f (hmac_digest algo key msg)) = true.
Proof.
  destruct f; simpl.
  - apply is_ascii_b64.
  - apply is_ascii_rstrip, is_ascii_b64.
  - apply is_ascii_hex, hmac_digest_bytes.
Qed.

Lemma candidate_matches_eq clean_signature key data algo f :
  candidate_matches clean_signature key data algo f
  = text_eqb (format_func f (hmac_digest algo key data)) clean_signature.
Proof.
  unfold candidate_matches. apply compare_digest_ascii, format_func_ascii.
Qed.

Lemma existsb_ext {A} (g h : A -> bool) l :
  (forall x, g x = h x) -> existsb g l = existsb h l.
Proof.
  intros Hgh. induction l as [|x l IH]; simpl; [done|]. by rewrite Hgh, IH.
Qed.

Lemma main_loop_spec clean_signature datas tokens :
  Forall encodable tokens ->
  main_loop clean_signature datas tokens
  = Ok (existsb (token_hits clean_signature datas) tokens).
Proof.
  induction 1 as [|tok tokens Htok Htoks IH]; [done|].
  cbn [main_loop existsb]. rewrite (encode_key tok Htok).
  cbn [mbind result_bind Py.bind].
  rewrite (existsb_ext _ (fun data =>
    existsb (fun algo => existsb (fun f =>
      text_eqb (format_func f (hmac_digest algo (key_of_token tok) data))
               clean_signature) output_formats) digest_algos)).
  - fold (token_hits clean_signature datas tok).
    destruct (token_hits clean_signature datas tok); [done|exact IH].
  - intros d. apply existsb_ext. intros algo. apply existsb_ext. intros f.
    apply candidate_matches_eq.
Qed.

(** After the main loop has failed, the special case accepts exactly by
    its binary comparison. *)
Lemma special_loop_spec clean_signature request_bytes tokens :
  Forall encodable tokens ->
  Forall (fun tok =>
    text_eqb (b64encode (hmac sha256 (key_of_token tok) request_bytes))
             clean_signature = false
    /\ text_eqb (rstrip_char 61
                   (b64encode (hmac sha256 (key_of_token tok) request_bytes)))
                clean_signature = false) tokens ->
  match special_loop clean_signature request_bytes tokens with
  | Ok true => true
  | _ => false
  end
  = existsb (fun tok =>
      bool_decide (b64decode clean_signature
                   = Some (hmac sha256 (key_of_token tok) request_bytes)))
      tokens.
Proof.
  intros Henc Hne.
  destruct (is_ascii clean_signature) eqn:Hascii.
  - induction Henc as [|tok tokens Htok Htoks IH]; [done|].
    inversion Hne as [|? ? [H1 H2] Hne']; subst.
    cbn [special_loop existsb]. rewrite (encode_key tok Htok).
    cbn [mbind result_bind Py.bind]. unfold compare_digest.
    rewrite is_ascii_b64, (is_ascii_rstrip _ _ (is_ascii_b64 _)), Hascii.
    cbn [andb Py.bind]. rewrite H1, H2.
    destruct (b64decode clean_signature) as [binary_sig|] eqn:Ed.
    + destruct (bool_decide (hmac sha256 _ _ = binary_sig)) eqn:Eb.
      * apply bool_decide_eq_true in Eb. subst.
        by rewrite bool_decide_true.
      * apply bool_decide_eq_false in Eb.
        rewrite bool_decide_false by congruence. by apply IH.
    + rewrite bool_decide_false by done. by apply IH.
  - assert (b64decode clean_signature = None) as Hd.
    { unfold b64decode. fold (is_ascii clean_signature). by rewrite Hascii. }
    assert (existsb (fun tok =>
              bool_decide (b64decode clean_signature
                = Some (hmac sha256 (key_of_token tok) request_bytes)))
              tokens = false) as ->.
    { clear Henc Hne. induction tokens as [|t ts IH]; [done|].
      cbn [existsb]. rewrite IH, orb_false_r.
      apply bool_decide_eq_false. by rewrite Hd. }
    destruct Henc as [|tok tokens Htok Htoks]; [done|].
    cbn [special_loop]. rewrite (encode_key tok Htok).
    cbn [mbind result_bind Py.bind]. unfold compare_digest.
    rewrite is_ascii_b64, Hascii. by cbn [andb Py.bind mbind result_bind].
Qed.

Lemma existsb_false_Forall {A} (g : A -> bool) l :
  existsb g l = false -> Forall (fun x => g x = false) l.
Proof.
  induction l as [|x l IH]; simpl; [constructor|].
  intros [H1 H2]%orb_false_iff. constructor; [done|by apply IH].
Qed.

(** A token that matches nothing over a list of bodies headed by the raw
    body misses the two base64 forms of its SHA-256 digest over it. *)
Lemma token_hits_false_head clean_signature request_bytes datas tok :
  token_hits clean_signature (request_bytes :: datas) tok = false ->
  text_eqb (b64encode (hmac sha256 (key_of_token tok) request_bytes))
           clean_signature = false
  /\ text_eqb (rstrip_char 61
                 (b64encode (hmac sha256 (key_of_token tok) request_bytes)))
              clean_signature = false.
Proof.
  unfold token_hits, digest_algos, output_formats.
  cbn [existsb hmac_digest format_func].
  intros H. rewrite !orb_false_iff in H.
  destruct H as [[[H1 [H2 _]] _] _]. by split.
Qed.

(** What the check computes, for a token that has an encoding and a
    body given as octets. *)
Lemma verify_teams_token_spec (request_bytes : bytes) (signature token : text) :
  token <> [] -> signature <> [] -> encodable token ->
  verify_teams_token json_loads (DataBytes request_bytes) signature token
  = Ok (among_candidates json_loads request_bytes (clean signature) token
        || binary_accepts request_bytes (clean signature) token).
Proof.
  intros Htok Hsig Henc.
  pose proof (token_variants_encodable token Henc) as Hvars.
  unfold verify_teams_token.
  destruct token as [|t0 token]; [done|].
  destruct signature as [|s0 signature]; [done|].
  cbn [mbind mret result_bind result_ret Py.bind].
  rewrite (main_loop_spec _ _ _ Hvars).
  cbn [mbind result_bind Py.bind].
  unfold among_candidates, binary_accepts.
  fold (token_hits (clean (s0 :: signature))
          (data_variants json_loads request_bytes (utf8_decode request_bytes))).
  destruct (existsb (token_hits _ _) (token_variants (t0 :: token))) eqn:E;
    [done|].
  cbn [orb].
  rewrite <- (special_loop_spec _ _ _ Hvars).
  - by destruct (special_loop _ _ _) as [[|]|].
  - apply existsb_false_Forall in E.
    eapply Forall_impl; [exact E|]. cbn beta.
    intros tok Hmiss. eapply token_hits_false_head. exact Hmiss.
Qed.

Lemma among_candidates_standard (request_bytes : bytes) (token : text) :
  among_candidates json_loads request_bytes
    (b64encode (hmac sha256 (key_of_token token) request_bytes)) token = true.
Proof.
  unfold among_candidates, token_variants, data_variants,
    digest_algos, output_formats.
  cbn [app existsb hmac_digest format_func].
  by rewrite text_eqb_refl.
Qed.

Lemma b64_digest_nonempty key msg : b64encode (hmac sha256 key msg) <> [].
Proof.
  intros H.
  pose proof (b64encode_length (hmac sha256 key msg)) as Hl.
  rewrite H, hmac_sha256_length in Hl. simpl in Hl. lia.
Qed.

Lemma clean_b64 b : clean (b64encode b) = b64encode b.
Proof. unfold clean. by rewrite no_blank_no_prefix by apply b64encode_chars. Qed.

Lemma clean_prefixed s : clean (hmac_prefix ++ s) = s.
Proof.
  unfold clean. change hmac_prefix with [72; 77; 65; 67; 32]%N.
  cbn [app starts_with]. rewrite !N.eqb_refl. cbn [andb].
  by destruct s.
Qed.

(** C1 (corrected).  For a secret that is not empty and has a UTF-8
    encoding, and a body given as octets: the standard base64 encoding
    of HMAC-SHA256 keyed by the secret over the body is accepted, with or
    without the scheme label in front; and any other signature that is
    not empty is accepted exactly when it equals one of the candidate
    signatures or when, decoded as base64 with the characters outside the
    alphabet skipped, it gives the HMAC-SHA256 digest of the raw body under
    one of the token variants.  Equality with no candidate is therefore
    not enough for a rejection. *)
Theorem verify_teams_token_accepts (request_bytes : bytes)
    (signature token : text) :
  token <> [] -> encodable token ->
  let standard := b64encode (hmac sha256 (key_of_token token) request_bytes) in
  verify_teams_token json_loads (DataBytes request_bytes) standard token
    = Ok true
  /\ verify_teams_token json_loads (DataBytes request_bytes)
       (hmac_prefix ++ standard) token = Ok true
  /\ (signature <> [] ->
      verify_teams_token json_loads (DataBytes request_bytes) signature token
      = Ok (among_candidates json_loads request_bytes (clean signature) token
            || binary_accepts request_bytes (clean signature) token)).
Proof.
  intros Htok Henc standard.
  split; [|split].
  - rewrite verify_teams_token_spec; [|done|apply b64_digest_nonempty|done].
    unfold standard. by rewrite clean_b64, among_candidates_standard.
  - rewrite verify_teams_token_spec; [|done| |done].
    + unfold standard. by rewrite clean_prefixed, among_candidates_standard.
    + change hmac_prefix with [72; 77; 65; 67; 32]%N. done.
  - intros Hsig. by apply verify_teams_token_spec.
Qed.

End Verify.

Lemma verify_teams_token_accepts_witness :
  verify_teams_token no_json (DataBytes demo_body)
    (b64encode (hmac sha256 (key_of_token demo_secret) demo_body)) demo_secret
  = Ok true.
Proof.
  refine (proj1 (verify_teams_token_accepts no_json demo_body
                   demo_blank_signature demo_secret _ _)).
  - by vm_compute.
  - apply encodable_ascii. by vm_compute.
Defined.

(** A signature that equals no candidate and is accepted all the same:
    the base64 digest with a blank in front. *)
Lemma blank_before_signature_accepted :
  among_candidates no_json demo_body (clean demo_blank_signature) demo_secret
  = false
  /\ verify_teams_token no_json (DataBytes demo_body) demo_blank_signature
       demo_secret = Ok true.
Proof. by vm_compute. Qed.

End TeamsAuthProofs.

(** ** Tokens without an encoding (teams_auth.py) *)
Module TokenProofs.
Import Json Crypto TeamsAuth AuthSpec Routes RoutesDemo.
Import OneDriveSearchProofs TeamsAuthProofs.

Lemma utf8_encode_char_None c :
  negb ((55296 <=? c)%N && (c <=? 57343)%N) = false ->
  utf8_encode_char c = None.
Proof.
  intros H. apply negb_false_iff in H. unfold utf8_encode_char.
  destruct (c <? 128)%N eqn:E1; [blia|].
  destruct (c <? 2048)%N eqn:E2; [blia|].
  destruct (c <? 65536)%N eqn:E3; [by rewrite H|blia].
Qed.

Lemma utf8_encode_None s : ~ encodable s -> utf8_encode s = None.
Proof.
  induction s as [|c s IH]; intros H.
  - destruct H. constructor.
  - cbn [utf8_encode].
    destruct (negb ((55296 <=? c)%N && (c <=? 57343)%N)) eqn:Hc.
    + rewrite IH; [by destruct (utf8_encode_char c)|].
      intros Hs. apply H. by constructor.
    + by rewrite utf8_encode_char_None.
Qed.

Section Verify.
Context (json_loads : text -> option json).

(** X14. For a body given as octets, a token and a signature that are
    not empty, [verify_teams_token] raises exactly when the token has no
    UTF-8 encoding, that is, holds a surrogate code point; with any other
    token it returns a boolean. *)
Theorem verify_teams_token_raises_iff (request_bytes : bytes)
    (signature token : text) :
  token <> [] -> signature <> [] ->
  ((exists e, verify_teams_token json_loads (DataBytes request_bytes)
                signature token = Raise e)
   <-> ~ encodable token)
  /\ (encodable token ->
      exists b, verify_teams_token json_loads (DataBytes request_bytes)
                  signature token = Ok b).
Proof.
  intros Htok Hsig.
  assert (encodable token ->
          exists b, verify_teams_token json_loads (DataBytes request_bytes)
                      signature token = Ok b) as Hok.
  { intros Henc. eexists. by apply verify_teams_token_spec. }
  split; [|exact Hok]. split.
  - intros [e He] Henc. destruct (Hok Henc) as [b Hb]. congruence.
  - intros Hbad. unfold verify_teams_token.
    destruct token as [|t0 token]; [done|].
    destruct signature as [|s0 signature]; [done|].
    cbn [mbind mret result_bind result_ret Py.bind].
    unfold token_variants. cbn [app main_loop].
    unfold encode. rewrite (utf8_encode_None _ Hbad).
    cbn [mbind result_bind Py.bind]. by eexists.
Qed.

End Verify.

Lemma verify_teams_token_raises_iff_witness :
  exists e, verify_teams_token no_json (DataBytes demo_body) some_signature
              surrogate_token = Raise e.
Proof.
  apply (proj1 (verify_teams_token_raises_iff no_json demo_body
                  some_signature surrogate_token
                  ltac:(done) ltac:(by vm_compute))).
  intros H. apply Forall_inv in H. by vm_compute in H.
Defined.
Section Prefix.
Context (json_loads : text -> option json).

(** X23. The scheme label is optional: for a token that has an
    encoding, a signature that does not begin with the label is judged the
    same with and without the label in front. *)
Theorem hmac_prefix_optional (request_bytes : bytes)
    (signature token : text) :
  token <> [] -> encodable token -> signature <> [] ->
  starts_with hmac_prefix signature = false ->
  verify_teams_token json_loads (DataBytes request_bytes)
    (hmac_prefix ++ signature) token
  = verify_teams_token json_loads (DataBytes request_bytes) signature token.
Proof.
  intros Htok Henc Hsig Hplain.
  rewrite !verify_teams_token_spec; try done.
  rewrite clean_prefixed.
  assert (clean signature = signature) as ->; [|done].
  unfold clean. by rewrite Hplain.
Qed.

End Prefix.

Lemma hmac_prefix_optional_witness :
  verify_teams_token no_json (DataBytes demo_body)
    (hmac_prefix ++ some_signature) demo_secret
  = verify_teams_token no_json (DataBytes demo_body) some_signature
      demo_secret.
Proof.
  apply hmac_prefix_optional.
  - by vm_compute.
  - apply encodable_ascii. by vm_compute.
  - by vm_compute.
  - by vm_compute.
Defined.
End TokenProofs.
(** ** The verification step of the handler (routes.py) *)
Module RoutesProofs.
Import Json Crypto TeamsAuth AuthSpec Routes RoutesDemo.

Lemma truthy_bypass config :
  truthy (bypass_teams_token config)
  = truthy (default (CBool false) (config !! K_SKIP_VERIFICATION))
    || truthy (default (CBool false) (config !! K_DEBUG)).
Proof.
  unfold bypass_teams_token.
  by destruct (truthy (default (CBool false) (config !! K_SKIP_VERIFICATION)))
    eqn:E; [rewrite E|].
Qed.

Section Handler.
Context (json_loads : text -> option json).

(** The branch that lets a failed verification pass in debug mode is
    never taken: it needs a falsy bypass value and a truthy DEBUG flag. *)
Lemma debug_branch_dead config req :
  verification_gate json_loads config req (bypass_teams_token config)
  <> Ok AllowedInDebug.
Proof.
  unfold verification_gate.
  destruct (truthy (bypass_teams_token config)) eqn:Hb; cbn [negb]; [done|].
  rewrite truthy_bypass in Hb. apply orb_false_iff in Hb as [_ Hd].
  unfold config_get.
  destruct (config !! K_TOKEN) as [token|]; cbn [mbind result_bind Py.bind];
    [|done].
  destruct (verify_config_token _ _ _ _) as [[|]|e];
    cbn [mbind result_bind Py.bind]; [done| |done].
  destruct (config !! K_DEBUG) as [debug|]; cbn [mbind result_bind Py.bind];
    [|done].
  cbn [default] in Hd. change (id debug) with debug in Hd.
  by rewrite Hd.
Qed.

(** C9, as the code has it.  With the token and the DEBUG flag in the
    configuration and a verification that fails: the bypass value is
    truthy exactly when the skip flag or the DEBUG flag is, and is [True]
    when one of two boolean flags is.  When the bypass value is falsy, the
    DEBUG flag is falsy as well, the verification step rejects and the
    handler answers 403 [Unauthorized] and starts no worker.  When the
    DEBUG flag is truthy, the bypass value is truthy and the verification
    step is skipped.  The verification step of the handler never lets a
    failed verification pass in debug mode. *)
Theorem failed_verification_outcome (config : gmap (list N) config_value)
    (onedrive_search : bool) (req : request) (token debug : config_value) :
  config !! K_TOKEN = Some token ->
  config !! K_DEBUG = Some debug ->
  verify_config_token json_loads (get_data req) (authorization req) token
    = Ok false ->
  truthy (bypass_teams_token config)
    = truthy (default (CBool false) (config !! K_SKIP_VERIFICATION))
      || truthy debug
  /\ (forall b1 b2,
        config !! K_SKIP_VERIFICATION = Some (CBool b1) ->
        debug = CBool b2 ->
        bypass_teams_token config = CBool (b1 || b2))
  /\ (truthy (bypass_teams_token config) = false ->
      truthy debug = false
      /\ verification_gate json_loads config req (bypass_teams_token config)
         = Ok (Reject unauthorized)
      /\ teams_webhook_handler json_loads config onedrive_search req
         = (unauthorized, None))
  /\ (truthy debug = true ->
      truthy (bypass_teams_token config) = true
      /\ verification_gate json_loads config req (bypass_teams_token config)
         = Ok Skipped)
  /\ verification_gate json_loads config req (bypass_teams_token config)
     <> Ok AllowedInDebug.
Proof.
  intros Htoken Hdebug Hverify.
  assert (truthy (bypass_teams_token config)
          = truthy (default (CBool false) (config !! K_SKIP_VERIFICATION))
            || truthy debug) as Hby
    by (by rewrite truthy_bypass, Hdebug).
  split; [exact Hby|]. split.
  { intros b1 b2 H1 ->. unfold bypass_teams_token.
    rewrite H1, Hdebug. cbn [default truthy]. by destruct b1. }
  split; [|split; [|apply debug_branch_dead]].
  - intros Hbypass.
    pose proof Hbypass as Hoff. rewrite Hby in Hoff.
    apply orb_false_iff in Hoff as [_ Hoff].
    assert (verification_gate json_loads config req
              (bypass_teams_token config) = Ok (Reject unauthorized)) as Hgate.
    { unfold verification_gate, config_get.
      rewrite Hbypass, Htoken, Hdebug. cbn [negb mbind result_bind Py.bind].
      by rewrite Hverify, Hoff. }
    split; [exact Hoff|]. split; [exact Hgate|].
    unfold teams_webhook_handler. by rewrite Hgate.
  - intros Hon.
    assert (truthy (bypass_teams_token config) = true) as Hb
      by (by rewrite Hby, Hon, orb_true_r).
    split; [exact Hb|]. unfold verification_gate. by rewrite Hb.
Qed.

End Handler.

Lemma failed_verification_outcome_witness :
  teams_webhook_handler no_json production_config true wrong_signature_request
  = (unauthorized, None).
Proof.
  refine (proj2 (proj2 (proj1 (proj2 (proj2
    (failed_verification_outcome no_json production_config true
       wrong_signature_request (CStr demo_secret) (CBool false)
       _ _ _))) _))).
  - by vm_compute.
  - by vm_compute.
  - by vm_compute.
  - by vm_compute.
Defined.

(** Counterexample to C9 as stated: with the DEBUG flag set the bypass
    value is truthy, for this configuration and for every other, so a
    request whose signature does not verify is accepted with the
    verification skipped; a failed verification with the bypass off and
    the DEBUG flag on does not occur. *)
Lemma debug_mode_skips_verification :
  verify_config_token no_json (get_data wrong_signature_request)
    (authorization wrong_signature_request) (CStr demo_secret) = Ok false
  /\ truthy (bypass_teams_token debug_config) = true
  /\ verification_gate no_json debug_config wrong_signature_request
       (bypass_teams_token debug_config) = Ok Skipped
  /\ (teams_webhook_handler no_json debug_config true
        wrong_signature_request).1 = accepted true
  /\ forall config,
       truthy (default (CBool false) (config !! K_DEBUG)) = true ->
       truthy (bypass_teams_token config) = true.
Proof.
  split; [by vm_compute|]. split; [by vm_compute|].
  split; [by vm_compute|]. split; [by vm_compute|].
  intros config H. by rewrite truthy_bypass, H, orb_true_r.
Qed.

End RoutesProofs.

(** ** The list of extensions (config.py) *)
Module ConfigProofs.
Import Config ConfigSpec TextProofs.
Import Json Crypto TeamsAuth AuthSpec Routes RoutesDemo OllamaDemo.

Lemma valid_types_loop_extension types :
  Forall trimmed types -> Forall comma_free types ->
  Forall extension (valid_types_loop types).
Proof.
  induction types as [|t types IH]; intros Ht Hc; [constructor|].
  apply Forall_cons in Ht as [Ht Hts]. apply Forall_cons in Hc as [Hc Hcs].
  simpl. destruct t as [|c t]; [by apply IH|].
  constructor; [|by apply IH].
  destruct (starts_with (U ".") (c :: t)) eqn:Hdot; simpl.
  - done.
  - split; [|split].
    + change (U ".") with [46%N]. simpl. done.
    + apply strip_ws_fixed.
      * change (U ".") with [46%N]. simpl. intros ? [= <-]. by vm_compute.
      * intros x Hx. apply (strip_ws_last (c :: t)). rewrite Ht.
        change (U ".") with [46%N] in Hx. simpl in Hx. exact Hx.
    + change (U ".") with [46%N]. constructor; [done|exact Hc].
Qed.

Lemma valid_types_loop_fixed xs :
  Forall extension xs -> valid_types_loop xs = xs.
Proof.
  induction 1 as [|x xs (Hdot & _ & _) Hxs IH]; [done|].
  simpl. destruct x as [|c x]; [done|].
  rewrite Hdot. simpl. by rewrite IH.
Qed.

(** X1. Whatever the setting holds, every entry of the list that
    [parse_file_types] returns begins with a dot, has no white space at
    either end and holds no comma; empty items are dropped. *)
Theorem parse_file_types_extensions (file_types_str : text) :
  Forall extension (parse_file_types file_types_str).
Proof.
  unfold parse_file_types. destruct file_types_str as [|c s]; [constructor|].
  apply valid_types_loop_extension.
  - apply Forall_map, Forall_forall. intros t _. apply strip_ws_idem.
  - apply Forall_map. eapply Forall_impl; [apply split_on_free|].
    intros t Ht. by apply strip_ws_Forall.
Qed.

(** X2. Writing a list of extensions with commas between them and
    reading it with [parse_file_types] gives the list back. *)
Theorem parse_file_types_of_join (xs : list text) :
  Forall extension xs -> parse_file_types (join (U ",") xs) = xs.
Proof.
  intros H. destruct xs as [|x xs]; [done|].
  unfold parse_file_types.
  assert (x <> []) as Hx.
  { apply Forall_inv in H as (Hdot & _). by destruct x. }
  pose proof (join_nonempty (U ",") x xs Hx) as Hj.
  destruct (join (U ",") (x :: xs)) as [|c j] eqn:Ej; [done|].
  rewrite <- Ej. change (U ",") with [44%N].
  rewrite split_on_join.
  - rewrite map_fixed; [by apply valid_types_loop_fixed|].
    eapply Forall_impl; [exact H|]. by intros t (_ & Ht & _).
  - eapply Forall_impl; [exact H|]. by intros t (_ & _ & Ht).
Qed.

Lemma parse_file_types_of_join_witness :
  parse_file_types (join (U ",") [U ".pdf"; U ".docx"])
  = [U ".pdf"; U ".docx"].
Proof.
  apply parse_file_types_of_join.
  assert (forall s, starts_with (U ".") s = true -> strip_ws s = s ->
                    bool_decide (comma_free s) = true -> extension s) as Hext.
  { intros s H1 H2 H3. split; [done|]. split; [done|].
    by apply bool_decide_eq_true in H3. }
  apply Forall_cons. split; [apply Hext; by vm_compute|].
  apply Forall_cons. split; [apply Hext; by vm_compute|constructor].
Defined.

Lemma or_default_nonempty v d : d <> [] -> or_default v d <> [].
Proof.
  intros Hd. unfold or_default.
  destruct v as [[|c s]|]; simpl; done.
Qed.

Section Load.
Context (hw ht : text) (environ : Environ).

Lemma load_config_map config :
  load_config hw ht environ = Ok config ->
  exists url token ollama_url ollama_model,
    (hw <> [] -> url <> []) /\ (ht <> [] -> token <> [])
    /\ ollama_url <> [] /\ ollama_model <> []
    /\ config !! K_TOKEN = Some (CStr token)
    /\ config !! U "TEAMS_WORKFLOW_URL" = Some (CStr url)
    /\ config !! U "OLLAMA_URL" = Some (CStr ollama_url)
    /\ config !! U "OLLAMA_MODEL" = Some (CStr ollama_model)
    /\ config !! K_DEBUG
       = Some (CBool (flag (getenv environ (U "FLASK_DEBUG"))))
    /\ config !! K_SKIP_VERIFICATION
       = Some (CBool (flag (getenv environ (U "SKIP_VERIFICATION")))).
Proof.
  unfold load_config.
  destruct (dotenv_prelude environ) as [[]|e]; [|done].
  cbn [mbind result_bind Py.bind].
  destruct (int_setting _ 60) as [timeout|e]; [|done].
  cbn [mbind result_bind Py.bind].
  destruct (int_setting _ 5010) as [port|e]; [|done].
  cbn [mbind result_bind Py.bind].
  destruct (int_setting _ 5) as [max_files|e]; [|done].
  cbn [mbind result_bind Py.bind].
  destruct (if unset _ then _ else _) as [url token].
  intros [= <-].
  exists (or_default url hw), (or_default token ht),
    (or_default (getenv environ (U "OLLAMA_URL"))
                (U "http://localhost:11434/api/generate")),
    (or_default (getenv environ (U "OLLAMA_MODEL")) (U "llama3")).
  split; [apply or_default_nonempty|].
  split; [apply or_default_nonempty|].
  split; [apply or_default_nonempty; by vm_compute|].
  split; [apply or_default_nonempty; by vm_compute|].
  repeat split; by vm_compute.
Qed.

(** X19. Whenever [load_config] returns, the token, the workflow URL,
    the model URL and the model name are strings that are not empty (the
    hard-coded values stand in for what the environment and the .env file
    leave unset), the two flags are booleans that are true exactly for the
    setting 1, and [bypass_teams_token] is their disjunction. *)
Theorem load_config_settings (config : gmap (list N) config_value) :
  hw <> [] -> ht <> [] ->
  load_config hw ht environ = Ok config ->
  (forall k, k ∈ [K_TOKEN; U "TEAMS_WORKFLOW_URL"; U "OLLAMA_URL";
                  U "OLLAMA_MODEL"] ->
     exists s, config !! k = Some (CStr s) /\ s <> [])
  /\ config !! K_DEBUG
     = Some (CBool (flag (getenv environ (U "FLASK_DEBUG"))))
  /\ config !! K_SKIP_VERIFICATION
     = Some (CBool (flag (getenv environ (U "SKIP_VERIFICATION"))))
  /\ bypass_teams_token config
     = CBool (flag (getenv environ (U "SKIP_VERIFICATION"))
              || flag (getenv environ (U "FLASK_DEBUG"))).
Proof.
  intros Hw Ht Hload.
  destruct (load_config_map config Hload)
    as (url & token & ourl & omodel & Hurl & Htoken & Hourl & Homodel
        & L1 & L2 & L3 & L4 & L5 & L6).
  split.
  - intros k Hk. rewrite !elem_of_cons in Hk.
    destruct Hk as [->|[->|[->|[->|Hk]]]]; [..|by apply elem_of_nil in Hk].
    + exists token. split; [done|by apply Htoken].
    + exists url. split; [done|by apply Hurl].
    + by exists ourl.
    + by exists omodel.
  - split; [done|]. split; [done|].
    unfold bypass_teams_token. rewrite L5, L6. cbn [default truthy].
    by destruct (flag (getenv environ (U "SKIP_VERIFICATION"))).
Qed.

Context (json_loads : text -> option json).

(** X20. With a loaded configuration, a request without a signature is
    answered 403 and starts no worker when neither FLASK_DEBUG nor
    SKIP_VERIFICATION is 1, and is never answered 403 when one of them
    is. *)
Theorem loaded_config_unsigned_request (config : gmap (list N) config_value)
    (onedrive_search : bool) (req : request) :
  load_config hw ht environ = Ok config ->
  default [] (authorization req) = [] ->
  let bypass := flag (getenv environ (U "SKIP_VERIFICATION"))
                || flag (getenv environ (U "FLASK_DEBUG")) in
  let out := teams_webhook_handler json_loads config onedrive_search req in
  (bypass = false -> out = (unauthorized, None))
  /\ (bypass = true -> Routes.status_code out.1 <> 403%Z).
Proof.
  intros Hload Hsig bypass out. subst out.
  destruct (load_config_map config Hload)
    as (url & token & ourl & omodel & _ & _ & _ & _
        & L1 & _ & _ & _ & L5 & L6).
  assert (bypass_teams_token config = CBool bypass) as Hb.
  { unfold bypass_teams_token. rewrite L5, L6. cbn [default truthy].
    subst bypass. by destruct (flag (getenv environ (U "SKIP_VERIFICATION"))). }
  unfold teams_webhook_handler, verification_gate, config_get.
  rewrite Hb. cbn [truthy]. split; intros Hby; rewrite Hby; cbn [negb].
  - rewrite L1, L5. cbn [mbind result_bind Py.bind].
    unfold verify_config_token. rewrite Hsig.
    apply orb_false_iff in Hby as [_ Hd].
    destruct (negb (truthy (CStr token)));
      cbn [mbind result_bind Py.bind truthy]; by rewrite Hd.
  - cbn [mbind result_bind Py.bind].
    destruct (get_json req) as [data|e];
      cbn [mbind result_bind Py.bind]; [|done].
    destruct (py_in (U "text") data) as [[|]|e];
      cbn [mbind result_bind Py.bind]; [|done|done].
    destruct (py_getitem (U "text") data) as [t|e];
      cbn [mbind result_bind Py.bind]; [|done].
    destruct t as [| | |s| |]; [done|done|done| |done|done].
    destruct (config !! K_OLLAMA_URL);
      cbn [mbind result_bind Py.bind]; [|done].
    destruct (config !! K_OLLAMA_MODEL);
      cbn [mbind result_bind Py.bind]; [|done].
    by destruct (config !! K_OLLAMA_TIMEOUT).
Qed.

End Load.

Lemma quiet_config_loaded :
  load_config stand_in_url stand_in_token quiet_environ = Ok quiet_config.
Proof.
  assert (match load_config stand_in_url stand_in_token quiet_environ with
          | Ok _ => true
          | Raise _ => false
          end = true) as Hok by reflexivity.
  unfold quiet_config.
  by destruct (load_config stand_in_url stand_in_token quiet_environ).
Defined.

Lemma load_config_settings_witness :
  bypass_teams_token quiet_config = CBool false.
Proof.
  rewrite (proj2 (proj2 (proj2
    (load_config_settings stand_in_url stand_in_token quiet_environ
       quiet_config ltac:(by vm_compute) ltac:(by vm_compute)
       quiet_config_loaded)))).
  by vm_compute.
Defined.

Lemma loaded_config_unsigned_request_witness :
  teams_webhook_handler no_json quiet_config false unsigned_request
  = (unauthorized, None).
Proof.
  apply (proj1 (loaded_config_unsigned_request stand_in_url stand_in_token
                  quiet_environ no_json quiet_config false unsigned_request
                  quiet_config_loaded ltac:(by vm_compute))).
  by vm_compute.
Defined.

End ConfigProofs.

(** ** The handler as a whole (routes.py) *)
Module HandlerProofs.
Import Json Crypto TeamsAuth AuthSpec Routes RoutesDemo.

Section Handler.
Context (json_loads : text -> option json).

Lemma verification_gate_reject config req skip r :
  verification_gate json_loads config req skip = Ok (Reject r) ->
  r = unauthorized /\ truthy skip = false.
Proof.
  unfold verification_gate.
  destruct (truthy skip); [done|]. cbn [negb].
  destruct (config_get config K_TOKEN) as [token|e]; [|done].
  cbn [mbind result_bind Py.bind].
  destruct (verify_config_token _ _ _ _) as [[|]|e]; try done.
  cbn [mbind result_bind Py.bind].
  destruct (config_get config K_DEBUG) as [debug|e]; [|done].
  cbn [mbind result_bind Py.bind].
  destruct (truthy debug); cbn [negb]; [done|]. by intros [= <-].
Qed.

Ltac leaf :=
  cbn; repeat split; auto; try done;
  try (by intros [? ?]); try (by eexists).

(** X15. The handler always answers, with one of the status codes 200,
    400, 403 and 500; it starts a worker exactly when it answers 200, and
    then with the acknowledgement; it answers 403 only with the
    [Unauthorized] body and only when the bypass value is falsy. *)
Theorem handler_outcomes (config : gmap (list N) config_value)
    (onedrive_search : bool) (req : request) :
  let out := teams_webhook_handler json_loads config onedrive_search req in
  (Routes.status_code out.1 = 200 \/ Routes.status_code out.1 = 400
   \/ Routes.status_code out.1 = 403 \/ Routes.status_code out.1 = 500)%Z
  /\ (is_Some out.2 <-> Routes.status_code out.1 = 200%Z)
  /\ (Routes.status_code out.1 = 200%Z -> out.1 = accepted onedrive_search)
  /\ (Routes.status_code out.1 = 403%Z ->
      out.1 = unauthorized
      /\ truthy (bypass_teams_token config) = false).
Proof.
  intros out. subst out. unfold teams_webhook_handler.
  destruct (verification_gate json_loads config req
              (bypass_teams_token config)) as [g|e] eqn:Hg;
    cbn [mbind result_bind Py.bind]; [|leaf].
  assert (match g with Reject r => r = unauthorized
                                   /\ truthy (bypass_teams_token config) = false
                  | _ => True end) as Hrej.
  { destruct g; try done. by apply verification_gate_reject in Hg. }
  destruct g as [r| | |]; [destruct Hrej as [-> Hoff]; leaf|..];
    (destruct (get_json req) as [data|e];
       cbn [mbind result_bind Py.bind]; [|leaf];
     destruct (py_in (U "text") data) as [[|]|e];
       cbn [mbind result_bind Py.bind]; [|leaf|leaf];
     destruct (py_getitem (U "text") data) as [t|e];
       cbn [mbind result_bind Py.bind]; [|leaf];
     destruct t as [| | |s| |]; [leaf|leaf|leaf| |leaf|leaf];
     unfold config_get;
     destruct (config !! K_OLLAMA_URL);
       cbn [mbind result_bind Py.bind]; [|leaf];
     destruct (config !! K_OLLAMA_MODEL);
       cbn [mbind result_bind Py.bind]; [|leaf];
     destruct (config !! K_OLLAMA_TIMEOUT);
       cbn [mbind result_bind Py.bind]; leaf).
Qed.

(** X16. A request without an Authorization header, or with an empty
    one, is answered 403 and starts no worker when the bypass value is
    falsy, whatever the token and the body are. *)
Theorem missing_signature_rejected (config : gmap (list N) config_value)
    (onedrive_search : bool) (req : request) (token debug : config_value) :
  default [] (authorization req) = [] ->
  truthy (bypass_teams_token config) = false ->
  config !! K_TOKEN = Some token ->
  config !! K_DEBUG = Some debug ->
  teams_webhook_handler json_loads config onedrive_search req
  = (unauthorized, None).
Proof.
  intros Hsig Hoff Htoken Hdebug.
  assert (truthy debug = false) as Hd.
  { unfold bypass_teams_token in Hoff. rewrite Hdebug in Hoff.
    destruct (truthy (default (CBool false) (config !! K_SKIP_VERIFICATION)))
      eqn:E; [congruence|exact Hoff]. }
  unfold teams_webhook_handler, verification_gate, config_get.
  rewrite Hoff, Htoken, Hdebug. cbn [negb mbind result_bind Py.bind].
  unfold verify_config_token. rewrite Hsig.
  destruct (negb (truthy token)); cbn [mbind result_bind Py.bind];
    by rewrite Hd.
Qed.

End Handler.

Lemma missing_signature_rejected_witness :
  teams_webhook_handler no_json production_config false unsigned_request
  = (unauthorized, None).
Proof.
  apply (missing_signature_rejected no_json production_config false _
           (CStr demo_secret) (CBool false)); by vm_compute.
Defined.
Lemma strip_tags_aux_skip s :
  forall k, strip_tags_aux k s = strip_tags_aux 0 (drop k s).
Proof.
  induction s as [|c s IH]; intros [|k]; try done.
  cbn [strip_tags_aux drop]. apply IH.
Qed.

Lemma strip_tags_aux_no_crlf n :
  forall s, (length s <= n)%nat ->
  contains crlf (strip_tags_aux 0 s) = false
  /\ (head (strip_tags_aux 0 s) = Some 10%N -> head s = Some 10%N).
Proof.
  induction n as [|n IH]; intros s Hn.
  - destruct s; [done|simpl in Hn; lia].
  - destruct s as [|c s]; [done|]. simpl in Hn.
    assert (forall k, contains crlf (strip_tags_aux k s) = false) as Hrest.
    { intros k. rewrite strip_tags_aux_skip. apply IH.
      rewrite length_drop. lia. }
    cbn [strip_tags_aux].
    destruct (c =? 60)%N eqn:E60.
    + destruct (find_close s) as [m|].
      * split; [|done].
        change (contains crlf (32%N :: strip_tags_aux (S m) s))
          with (starts_with crlf (32%N :: strip_tags_aux (S m) s)
                || contains crlf (strip_tags_aux (S m) s)).
        by rewrite Hrest.
      * apply N.eqb_eq in E60. subst c. split; [|done].
        change (contains crlf (60%N :: strip_tags_aux 0 s))
          with (starts_with crlf (60%N :: strip_tags_aux 0 s)
                || contains crlf (strip_tags_aux 0 s)).
        by rewrite Hrest.
    + destruct ((c =? 13)%N && bool_decide (head s = Some 10%N)) eqn:E13.
      * split; [|done].
        change (contains crlf (32%N :: strip_tags_aux 1 s))
          with (starts_with crlf (32%N :: strip_tags_aux 1 s)
                || contains crlf (strip_tags_aux 1 s)).
        by rewrite Hrest.
      * split; [|done].
        change (contains crlf (c :: strip_tags_aux 0 s))
          with (starts_with crlf (c :: strip_tags_aux 0 s)
                || contains crlf (strip_tags_aux 0 s)).
        rewrite Hrest, orb_false_r.
        destruct (IH s ltac:(lia)) as [_ Hhead].
        unfold crlf. cbn [starts_with].
        destruct (13 =? c)%N eqn:Ec; [|done]. cbn [andb].
        apply N.eqb_eq in Ec. subst c.
        change ((13 =? 13)%N) with true in E13. cbn [andb] in E13.
        apply bool_decide_eq_false in E13.
        destruct (strip_tags_aux 0 s) as [|d out] eqn:Eo; [done|].
        destruct (10 =? d)%N eqn:Ed; [|done].
        apply N.eqb_eq in Ed. subst d. destruct E13. by apply Hhead.
Qed.

(** X17. The query text the worker gets holds no carriage return
    followed by a line feed, and is no longer than the text of the
    message. *)
Theorem strip_tags_no_crlf (s : text) :
  contains crlf (strip_tags s) = false
  /\ (length (strip_tags s) <= length s)%nat.
Proof.
  split; [apply (strip_tags_aux_no_crlf (length s) s); lia|].
  unfold strip_tags.
  assert (forall k, (length (strip_tags_aux k s) <= length s)%nat) as H;
    [|apply H].
  induction s as [|c s IH]; intros k; [done|].
  cbn [strip_tags_aux length]. destruct k as [|k].
  - destruct (c =? 60)%N.
    + destruct (find_close s); cbn [length];
        [specialize (IH (S n))|specialize (IH 0%nat)]; lia.
    + destruct (_ && _); cbn [length];
        [specialize (IH 1%nat)|specialize (IH 0%nat)]; lia.
  - specialize (IH k). lia.
Qed.
End HandlerProofs.

(** ** The model client (ollama_client.py) *)
Module OllamaClientProofs.
Import FileExtractor OneDriveSearch TeamsWebhook OllamaClient.
Import TextSpec TextProofs OllamaDemo.

Lemma has_date_token_loop_agrees words :
  has_date_token_loop words
  = match token_date_loop words with
    | Some (y, m, d, _) => (true, Some (y, m, d))
    | None => (false, None)
    end.
Proof.
  induction words as [|word rest IH]; [done|].
  cbn [has_date_token_loop token_date_loop].
  destruct (str_isdigit word && (length word =? 8)%nat); [|exact IH].
  destruct (py_int (take 2 (drop 4 word))); [|exact IH].
  destruct (py_int (take 2 (drop 6 word))); [|exact IH].
  by destruct (_ && _ && _ && _)%Z.
Qed.

(** X3. [has_date_in_query] and [extract_date_from_query] recognise the
    same dates: the one reports a date exactly when the other does, with
    the same year, month and day, the style label left out. *)
Theorem has_date_in_query_agrees (query : text) :
  has_date_in_query query
  = match extract_date_from_query query with
    | Some (year, month, day, _) => (true, Some (year, month, day))
    | None => (false, None)
    end.
Proof.
  unfold has_date_in_query, extract_date_from_query.
  destruct (re_search japanese_date_re query); [done|].
  destruct (re_search slash_date_re query); [done|].
  destruct (re_search numeric_date_re query); [done|].
  apply has_date_token_loop_agrees.
Qed.

(** X4. A path that is not empty and has at most 50 characters, or at
    most three components between backslashes, is displayed as it is, by
    [get_shortened_path] and by its copy [_get_shortened_path] in the
    webhook. *)
Theorem short_path_unchanged (path : text) :
  path <> [] ->
  (length path <= 50)%nat \/ (length (split_on backslash path) <= 3)%nat ->
  get_shortened_path path = path /\ _get_shortened_path path = path.
Proof.
  intros Hne Hshort.
  assert (get_shortened_path path = _get_shortened_path path) as -> by done.
  cut (_get_shortened_path path = path); [done|].
  unfold _get_shortened_path. destruct path as [|c p]; [done|].
  destruct Hshort as [H|H].
  - apply Nat.ltb_ge in H. by rewrite H.
  - apply Nat.ltb_ge in H. rewrite H.
    destruct (50 <? _)%nat; [|done].
    destruct (contains _ _); [|done].
    by destruct (re_search _ _).
Qed.
Lemma short_path_unchanged_witness :
  get_shortened_path demo_directory = demo_directory
  /\ _get_shortened_path demo_directory = demo_directory.
Proof.
  apply short_path_unchanged.
  - by vm_compute.
  - left. vm_compute. lia.
Defined.

Lemma nonblank_fallback query about search_path :
  nonblank (get_fallback_response query about search_path) = true.
Proof.
  unfold get_fallback_response.
  destruct about; [by vm_compute|].
  destruct (contains nippo query).
  - destruct (has_date_in_query query) as [[|] [[[y m] d]|]];
      nonblank_lit.
  - nonblank_lit.
Qed.

Lemma nonblank_error_text e : nonblank (error_text e) = true.
Proof. unfold error_text. nonblank_lit. Qed.

Lemma nonblank_read_answer w result s :
  read_answer w result = Ok s -> nonblank s = true.
Proof.
  unfold read_answer. destruct result as [| | | |l|items]; try done.
  destruct (find _ items) as [[k v]|]; simpl.
  - destruct v as [| | |t| |]; try done.
    destruct (strip_ws t) eqn:E; intros [= <-]; [by vm_compute|].
    apply nonblank_of_strip. by rewrite E.
  - change (strip_ws no_answer) with (strip_ws no_answer).
    destruct (strip_ws no_answer) eqn:E; intros [= <-]; by vm_compute.
Qed.

(** X5. [generate_ollama_response] returns whatever the model server
    and the search do, and what it returns is never blank: the generated
    text when it has a character that is not white space, and otherwise an
    apology, a fallback answer or an error text. *)
Theorem generated_answer_not_blank (w : World)
    (query ollama_url ollama_model : text) (ollama_timeout : Z)
    (onedrive_search : option search_handle) :
  strip_ws (generate_ollama_response w query ollama_url ollama_model
              ollama_timeout onedrive_search) <> [].
Proof.
  apply strip_ws_nonblank. unfold generate_ollama_response.
  destruct (search_context _ _) as [ctx path].
  destruct (requests_post w _ _ _) as [| |e|status body].
  - apply nonblank_fallback.
  - apply nonblank_fallback.
  - apply nonblank_error_text.
  - destruct (status =? 200)%Z; [|apply nonblank_fallback].
    destruct body as [result|e]; cbn [mbind result_bind Py.bind].
    + destruct (read_answer w result) eqn:E.
      * by apply (nonblank_read_answer w result).
      * apply nonblank_error_text.
    + apply nonblank_error_text.
Qed.
Lemma search_context_found h clean_query rc :
  clean_query <> [] ->
  handle_relevant_content h clean_query = Ok rc ->
  contains found_marker rc = true ->
  exists head,
    search_context clean_query (Some h)
    = (head ++ rc, handle_base_directory h)
    /\ rc <> [].
Proof.
  intros Hq Hrc Hm. unfold search_context.
  destruct clean_query as [|c q]; [done|].
  rewrite Hrc, Hm.
  assert (rc <> []) as Hne by (intros ->; by vm_compute in Hm).
  rewrite bool_decide_true by done. cbn [andb].
  eexists. split; [|done].
  rewrite !app_assoc. reflexivity.
Qed.

Lemma build_prompt_carries w clean_query head rc search_path :
  rc <> [] -> contains found_marker rc = true ->
  contains rc (build_prompt w clean_query (head ++ rc) search_path) = true.
Proof.
  intros Hrc Hm.
  assert (contains found_marker (head ++ rc) = true) as Hctx
    by (by apply contains_app_r).
  assert (head ++ rc <> []) as Hne.
  { intros E. apply app_eq_nil in E as [_ E]. done. }
  unfold build_prompt. rewrite Hctx.
  rewrite bool_decide_true by done.
  destruct (is_about_ollama w clean_query).
  - repeat first [apply contains_refl | apply contains_app_r].
  - destruct (contains nippo clean_query); cbn [andb negb].
    + unfold polite_head. rewrite <- !app_assoc.
      do 7 apply contains_app_r. rewrite app_assoc.
      apply contains_app_l. apply contains_app_r, contains_refl.
    + destruct (head ++ rc) as [|x ctx] eqn:E; [done|]. rewrite <- E.
      unfold polite_head. rewrite <- !app_assoc.
      do 7 apply contains_app_r. rewrite app_assoc.
      apply contains_app_l. apply contains_app_r, contains_refl.
Qed.

(** X6. When the search returns material with the found-files header
    for a query that is not empty, every prompt that is built carries that
    material in full, whichever of the templates is chosen. *)
Theorem found_content_reaches_prompt (w : World) (h : search_handle)
    (clean_query rc : text) :
  clean_query <> [] ->
  handle_relevant_content h clean_query = Ok rc ->
  contains found_marker rc = true ->
  contains rc
    (build_prompt w clean_query (search_context clean_query (Some h)).1
       (search_context clean_query (Some h)).2) = true.
Proof.
  intros Hq Hrc Hm.
  destruct (search_context_found h clean_query rc Hq Hrc Hm)
    as (head & -> & Hne).
  cbn [fst snd]. by apply build_prompt_carries.
Qed.

Lemma found_content_reaches_prompt_witness :
  contains demo_material
    (build_prompt demo_world (U "2024年10月26日の日報")
       (search_context (U "2024年10月26日の日報") (Some demo_handle)).1
       (search_context (U "2024年10月26日の日報") (Some demo_handle)).2)
  = true.
Proof.
  apply found_content_reaches_prompt.
  - by vm_compute.
  - reflexivity.
  - by vm_compute.
Defined.

End OllamaClientProofs.

(** ** One run of the worker (async_processor.py) *)
Module ProcessQueryProofs.
Import FileExtractor OneDriveSearch TeamsWebhook OllamaClient ProcessQuery.
Import ProcessSpec TextSpec TextProofs OllamaDemo.

Lemma deliver_attempts web url root legacy simple :
  let out := deliver web url root legacy simple in
  (1 <= length out.2 <= 3)%nat
  /\ text_eqb (status out.1) (U "success") = delivered out.2.
Proof.
  unfold deliver, delivered.
  destruct (http_post web 1 url root) as [[c1 b1]|e1],
           (http_post web 2 url legacy) as [[c2 b2]|e2],
           (http_post web 3 url simple) as [[c3 b3]|e3];
    cbn [response_ok existsb fst snd];
    repeat match goal with
           | |- context [is_2xx ?c] => destruct (is_2xx c) eqn:?
           end;
    cbn [fst snd length existsb response_ok orb];
    rewrite ?Heqb, ?Heqb0, ?Heqb1; cbn [orb];
    (split; [lia|by vm_compute]).
Qed.

Lemma send_attempts web url query response search_path :
  let out := send_ollama_response web url query response search_path in
  (length out.2 <= 3)%nat
  /\ text_eqb (status out.1) (U "success") = delivered out.2.
Proof.
  unfold send_ollama_response.
  destruct (build_payloads web query response search_path)
    as [[[root legacy] simple]|e].
  - destruct (deliver_attempts web url root legacy simple) as [[_ H1] H2].
    by split.
  - cbn [fst snd length]. split; [lia|by vm_compute].
Qed.
Lemma notify_shape rt hook clean_query response search_path :
  exists r result attempts post,
    notify rt hook clean_query response search_path
    = Sent clean_query r search_path result attempts :: post
    /\ (r = apology \/ r = response)
    /\ (10 <= len (strip_ws r))%Z
    /\ (length attempts <= 3)%nat
    /\ (if delivered attempts then post = []
        else (exists p o, post = [Retried p o])
             \/ (exists e, post = [RetryAbandoned e])).
Proof.
  unfold notify.
  set (r := if bool_decide (response = []) || (len (strip_ws response) <? 10)%Z
            then apology else response).
  pose proof (send_attempts (webhook_web hook) (webhook_url hook)
                clean_query r search_path) as [Hlen Hst].
  destruct (send_ollama_response _ _ clean_query r search_path)
    as [result attempts].
  cbn [fst snd] in Hlen, Hst.
  exists r, result, attempts. eexists. split; [reflexivity|].
  split; [|split; [|split; [exact Hlen|]]].
  - subst r. destruct (_ || _); [by left|by right].
  - subst r. destruct (bool_decide _ || _) eqn:E; [by vm_compute|].
    apply orb_false_iff in E as [_ E]. by apply Z.ltb_ge in E.
  - rewrite Hst. destruct (delivered attempts); [done|].
    destruct (retry_strftime rt); [left|right]; by repeat eexists.
Qed.
Lemma process_query_async_shape rt query_text ollama_url ollama_model
    ollama_timeout hook onedrive_search :
  exists pre response,
    process_query_async rt query_text ollama_url ollama_model ollama_timeout
      hook onedrive_search
    = pre ++ match hook with
             | Some h =>
               notify rt h (clean_query_of query_text) response
                 (handle_base_directory <$> onedrive_search)
             | None => []
             end
    /\ workflow_posts pre = 0%nat
    /\ existsb is_retry pre = false
    /\ forallb (fun e => negb (is_sent e)) pre = true.
Proof.
  unfold process_query_async. fold (clean_query_of query_text).
  eexists _, _. rewrite app_assoc. split; [reflexivity|].
  by destruct (_ && _).
Qed.

(** X7. With a webhook set, one run hands exactly one answer to
    [send_ollama_response], for the cleaned query and the search
    directory, and records what that call returns.  The answer is the
    text that [generate_ollama_response] returned, the search object
    being passed to it unless the query mentions onedrive, when that
    text has at least ten characters between its outer white space, and
    the apology otherwise; so the answer handed over always has ten. *)
Theorem process_query_async_sends_once (rt : Runtime)
    (query_text ollama_url ollama_model : text) (ollama_timeout : Z)
    (hook : teams_webhook) (onedrive_search : option search_handle) :
  exists searched response mid r post,
    let sent :=
      send_ollama_response (webhook_web hook) (webhook_url hook)
        (clean_query_of query_text) r
        (handle_base_directory <$> onedrive_search) in
    process_query_async rt query_text ollama_url ollama_model ollama_timeout
      (Some hook) onedrive_search
    = Generated searched response :: mid
      ++ Sent (clean_query_of query_text) r
           (handle_base_directory <$> onedrive_search) sent.1 sent.2
      :: post
    /\ searched
       = bool_decide (is_Some onedrive_search)
         && negb (contains (U "onedrive")
                    (lower (world rt) (clean_query_of query_text)))
    /\ response
       = generate_ollama_response (world rt) query_text ollama_url
           ollama_model ollama_timeout
           (if searched then onedrive_search else None)
    /\ r = (if (10 <=? len (strip_ws response))%Z then response else apology)
    /\ forallb (fun e => negb (is_sent e))
         (Generated searched response :: mid ++ post) = true
    /\ (10 <= len (strip_ws r))%Z.
Proof.
  unfold process_query_async. fold (clean_query_of query_text).
  set (searched := match onedrive_search with
                   | Some _ => negb (contains (U "onedrive") _)
                   | None => false
                   end).
  set (response := generate_ollama_response _ _ _ _ _ _).
  set (mid := if _ && _ then [PipInstall] else []).
  unfold notify.
  set (r := if bool_decide (response = []) || (len (strip_ws response) <? 10)%Z
            then apology else response).
  assert (r = if (10 <=? len (strip_ws response))%Z then response else apology)
    as Hr.
  { subst r. destruct (10 <=? len (strip_ws response))%Z eqn:E.
    - apply Z.leb_le in E.
      assert ((len (strip_ws response) <? 10)%Z = false) as ->
        by (apply Z.ltb_ge; lia).
      rewrite bool_decide_false; [done|].
      intros H. rewrite H in E. by vm_compute in E.
    - apply Z.leb_gt in E.
      assert ((len (strip_ws response) <? 10)%Z = true) as ->
        by (apply Z.ltb_lt; lia).
      by rewrite orb_true_r. }
  destruct (send_ollama_response _ _ (clean_query_of query_text) r _)
    as [result attempts] eqn:Es.
  exists searched, response, mid, r. eexists.
  cbn zeta. rewrite Es. cbn [fst snd app].
  split; [reflexivity|].
  split.
  { subst searched. destruct onedrive_search as [h|].
    - by rewrite bool_decide_true by (by eexists).
    - by rewrite bool_decide_false by (by intros [x Hx]). }
  split; [reflexivity|]. split; [exact Hr|].
  split.
  - cbn [forallb is_sent negb andb]. rewrite forallb_app.
    assert (forallb (fun e => negb (is_sent e)) mid = true) as ->
      by (subst mid; by destruct (_ && _)).
    cbn [andb]. destruct (text_eqb _ _); [done|].
    by destruct (retry_strftime rt).
  - rewrite Hr. destruct (10 <=? len (strip_ws response))%Z eqn:E.
    + by apply Z.leb_le in E.
    + by vm_compute.
Qed.

(** X8. One run makes at most four POSTs to the workflow URL, and the
    retry with the plain payload is made only when no attempt of
    [send_ollama_response] was answered with a 2xx status. *)
Theorem process_query_async_posts (rt : Runtime)
    (query_text ollama_url ollama_model : text) (ollama_timeout : Z)
    (hook : option teams_webhook) (onedrive_search : option search_handle) :
  let events :=
    process_query_async rt query_text ollama_url ollama_model ollama_timeout
      hook onedrive_search in
  (workflow_posts events <= 4)%nat
  /\ (forall q r p result attempts,
        In (Sent q r p result attempts) events ->
        delivered attempts = true -> existsb is_retry events = false).
Proof.
  intros events. subst events.
  destruct (process_query_async_shape rt query_text ollama_url ollama_model
              ollama_timeout hook onedrive_search)
    as (pre & response & -> & Hposts & Hretry & Hsent).
  destruct hook as [h|].
  - destruct (notify_shape rt h (clean_query_of query_text) response
                (handle_base_directory <$> onedrive_search))
      as (r & result & attempts & post & -> & _ & _ & Hlen & Hpost).
    unfold workflow_posts in *.
    rewrite !map_app, !list_sum_app, !existsb_app, Hposts, Hretry.
    cbn [map list_sum posts_of existsb is_retry orb].
    split.
    + destruct (delivered attempts).
      * subst post. simpl. lia.
      * destruct Hpost as [(p & o & ->)|(e & ->)]; simpl; lia.
    + intros q0 r0 p0 res0 att0 Hin Hdel.
      apply in_app_iff in Hin as [Hin|Hin].
      { rewrite forallb_forall in Hsent. specialize (Hsent _ Hin).
        discriminate Hsent. }
      destruct Hin as [Heq|Hin].
      * injection Heq as <- <- <- <- <-. rewrite Hdel in Hpost. by subst post.
      * destruct (delivered attempts); [by subst|].
        destruct Hpost as [(p & o & ->)|(e & ->)];
          destruct Hin as [Hin|[]]; discriminate Hin.
  - rewrite app_nil_r. split; [unfold workflow_posts in *; lia|].
    intros. exact Hretry.
Qed.

(** X9. A query whose lower-case form mentions onedrive is answered
    without the file search: the run does not depend on what the search
    object would return, only on its directory, which is still shown. *)
Theorem onedrive_question_skips_search (rt : Runtime)
    (query_text ollama_url ollama_model : text) (ollama_timeout : Z)
    (hook : option teams_webhook) (h1 h2 : search_handle) :
  contains (U "onedrive") (lower (world rt) (clean_query_of query_text))
    = true ->
  handle_base_directory h1 = handle_base_directory h2 ->
  process_query_async rt query_text ollama_url ollama_model ollama_timeout
    hook (Some h1)
  = process_query_async rt query_text ollama_url ollama_model ollama_timeout
      hook (Some h2).
Proof.
  intros Hmention Hdir. unfold process_query_async.
  fold (clean_query_of query_text). rewrite Hmention. cbn [negb fmap option_fmap option_map].
  rewrite Hdir.
  by rewrite !bool_decide_true by (by eexists).
Qed.
Lemma onedrive_question_skips_search_witness :
  process_query_async demo_runtime (U "onedrive とは") [] (U "llama3") 60
    None (Some demo_handle)
  = process_query_async demo_runtime (U "onedrive とは") [] (U "llama3") 60
      None (Some failing_handle).
Proof.
  apply onedrive_question_skips_search.
  - by vm_compute.
  - reflexivity.
Defined.

End ProcessQueryProofs.

(** ** From the search to the prompt *)
Module GlueProofs.
Import FileExtractor OneDriveSearch TeamsWebhook OllamaClient ProcessQuery.
Import ProcessSpec TextSpec TextProofs ContentSpec ContentProofs Demo.
Import OllamaClientProofs OllamaDemo.

Lemma found_header_marker n rest :
  contains found_marker (found_header n ++ rest) = true.
Proof.
  unfold found_header. rewrite <- !app_assoc.
  do 2 apply contains_app_r.
  apply contains_app_l. by vm_compute.
Qed.

(** X22. When the search object finds files for a cleaned query, what
    [get_relevant_content] returns carries the found-files header, passes
    the test of the model client for it, and stands in full in the prompt
    that is built. *)
Theorem found_files_reach_prompt (w : World) (repr_str : text -> text)
    (env : Env) (self : OneDriveSearch.OneDriveSearch) (clean_query : text) :
  clean_query <> [] ->
  (extract_keywords env clean_query).2 <> [] ->
  (search_files repr_str env self
     (KwList (extract_keywords env clean_query).2) None
     (Some (OneDriveSearch.max_results self)) true).1 <> [] ->
  let material :=
    (get_relevant_content repr_str env self clean_query None 8000).1 in
  let context :=
    search_context clean_query (Some (handle_of repr_str env self)) in
  contains found_marker material = true
  /\ contains material (build_prompt w clean_query context.1 context.2)
     = true.
Proof.
  intros Hq Hkw Hfound material context.
  assert (contains found_marker material = true) as Hm.
  { subst material. unfold get_relevant_content.
    destruct (extract_keywords env clean_query) as [date_str keywords].
    cbn [snd default] in *.
    destruct keywords as [|k ks]; [done|].
    destruct (search_files _ _ _ _ _ _ _) as [results self'].
    cbn [fst] in *. destruct results as [|r rs]; [done|].
    cbn [fst].
    destruct (content_loop_shape env self' 8000 (length (r :: rs))
                (r :: rs) 0 (found_header (length (r :: rs)))
                (len (found_header (length (r :: rs)))) eq_refl eq_refl)
      as (shown & tail & -> & _).
    apply found_header_marker. }
  split; [exact Hm|].
  assert (material <> []) as Hne by (intros E; rewrite E in Hm; by vm_compute in Hm).
  subst context.
  destruct (search_context_found (handle_of repr_str env self) clean_query
              material Hq eq_refl Hm) as (head & -> & _).
  cbn [fst snd]. by apply build_prompt_carries.
Qed.
Lemma found_files_reach_prompt_witness :
  contains found_marker
    (get_relevant_content demo_repr (demo_env hello 0 1 one_report)
       (demo_self ∅) (U "20241026") None 8000).1 = true.
Proof.
  refine (proj1 (found_files_reach_prompt demo_world demo_repr
                   (demo_env hello 0 1 one_report) (demo_self ∅)
                   (U "20241026") _ _ _)); by vm_compute.
Defined.

End GlueProofs.

(** ** The search directory at start-up (main.py, onedrive_search.py) *)
Module MainProofs.
Import FileExtractor OneDriveSearch Main.

Section Startup.
Context (h : Host).

Lemma first_existing_spec paths current :
  first_existing h paths current = current
  \/ (In (first_existing h paths current) paths
      /\ exists_path h (first_existing h paths current) = true).
Proof.
  induction paths as [|p rest IH]; [by left|].
  cbn [first_existing]. destruct (exists_path h p) eqn:E.
  - right. split; [by left|done].
  - destruct IH as [IH|[IH1 IH2]]; [by left|right].
    split; [by right|done].
Qed.

(** X21. The directory of the search object that main.py creates is the
    configured one when that is set and exists; in every case it exists, or
    it is the home directory or the expansion of [~/OneDrive]. *)
Theorem startup_directory (configured : text) (file_types : list text)
    (max_files : Z) (extractor : FileExtractor.FileExtractor) :
  let d := base_directory
             (startup_search h configured file_types max_files extractor) in
  (configured <> [] -> exists_path h configured = true -> d = configured)
  /\ (exists_path h d = true
      \/ d = expanduser h (U "~")
      \/ d = expanduser h (U "~/OneDrive")).
Proof.
  intros d. subst d. unfold startup_search, init. cbn [base_directory].
  assert (exists_path h (onedrive_root h) = true
          \/ onedrive_root h = expanduser h (U "~/OneDrive")) as Hroot.
  { unfold onedrive_root.
    destruct (exists_path h (expanduser h (U "~/OneDrive"))) eqn:E;
      cbn [negb]; [by left|].
    destruct (first_existing_spec (init_alt_paths h)
                (expanduser h (U "~/OneDrive"))) as [->|[_ H]];
      [by right|by left]. }
  assert (forall o : option text,
            (forall x, o = Some x ->
               exists_path h x = true \/ x = expanduser h (U "~")) ->
            let d := match o with Some (c :: t) => c :: t
                             | _ => onedrive_root h end in
            exists_path h d = true
            \/ d = expanduser h (U "~")
            \/ d = expanduser h (U "~/OneDrive")) as Hpick.
  { intros [[|c t]|] Ho; cbn zeta; try tauto.
    destruct (Ho (c :: t) eq_refl); tauto. }
  split.
  - intros Hne Hex. unfold search_directory.
    destruct configured as [|c t]; [done|]. by rewrite Hex.
  - apply Hpick. intros x. unfold search_directory.
    destruct configured as [|c t]; [done|].
    destruct (exists_path h (c :: t)) eqn:Ec; [intros [= <-]; by left|].
    destruct (exists_path h (first_existing h (alt_paths h) (c :: t))) eqn:Eb;
      cbn [negb]; [intros [= <-]; by left|].
    destruct (exists_path h (expanduser h (U "~/OneDrive"))) eqn:Er;
      intros [= <-]; [by left|by right].
Qed.

End Startup.
End MainProofs.
